(** * pyRevit Foundry: duplicate detection, library extraction and patch application

    A shallow embedding of the core pipeline of the repository:

    - [foundry_core/engine/patch_engine.py]      (module [PatchEngine]),
    - [foundry_core/analyzers/duplicate_analyzer.py] (module [Dup]),
    - [foundry_core/analyzers/lib_structure.py]  (module [LibStructure]),
    - [foundry_core/analyzers/extract_to_lib.py] (module [Extract]),
    - the mode defaults of [foundry_mcp/server.py] (module [Server]),
    - [foundry_core/engine/extension_creator.py] and the tools of
      [foundry_mcp/server.py] that take a mode (module [Creator]).

    Modelling conventions.

    - Text is a [string] of one-byte characters; the Python built-ins the
      code calls ([str.splitlines], [str.strip], [str.lower], [repr], ...)
      are modelled in module [Py] on ASCII text.
    - The file system is a finite map from the text of a resolved absolute
      path to the file's content.  Directories are implicit and there are
      no symbolic links.
    - In the modules [PatchEngine], [Extract] and [Server] a write to a
      path always succeeds: they describe the runs in which the operating
      system refuses nothing.  The modules [PatchEngineIO], [ExtractIO]
      and [Creator] run the same code in the monad [IO.t], against an
      environment that can answer any [mkdir] or [write_text] with an
      exception; module [DupChecked] scans with reads and parses that can
      raise.
    - [hashlib.sha256] is implemented in module [Sha256].
    - [ast.parse] is left abstract: the definitions take it as a parameter
      [ast_parse] that returns the syntax tree of a text, or [None] where
      Python raises [SyntaxError].  So are the inventory of the
      repository ([scan_py_files]) and, in module [Creator], the indexers,
      analyzers, templates and configuration parsers the tools call: the
      record [readers] of functions of the file system.
    - Python exceptions that leave a function are modelled by the [Raise]
      constructor of [result]. *)

From Stdlib Require Import ZArith Ascii String List Lia Bool.
From stdpp Require Import base option list strings pretty gmap sorting.

Set Warnings "-register-all".

Local Open Scope string_scope.
Local Open Scope list_scope.
Local Open Scope nat_scope.

(** ** Python built-ins *)

Module Py.

Definition code (c : ascii) : nat := nat_of_ascii c.

(** [str.isspace] on ASCII: TAB..CR, FS..US and the space. *)
Definition isspace (c : ascii) : bool :=
  let n := code c in
  ((9 <=? n) && (n <=? 13)) || ((28 <=? n) && (n <=? 32)).

(** Line boundaries of [str.splitlines] on ASCII:
    LF, VT, FF, CR, FS, GS, RS (and CR LF as one boundary). *)
Definition is_linebreak (c : ascii) : bool :=
  let n := code c in
  ((10 <=? n) && (n <=? 13)) || ((28 <=? n) && (n <=? 30)).

Definition is_cr (c : ascii) : bool := code c =? 13.
Definition is_lf (c : ascii) : bool := code c =? 10.

Definition snoc (s : string) (c : ascii) : string := s +:+ String c "".

(** The text ["\n"], one line feed. *)
Definition newline : string := String (ascii_of_nat 10) "".

(** [splitlines_from cur s]: the lines of [s], where [cur] is the part of
    the current line read so far. *)
Fixpoint splitlines_from (cur s : string) : list string :=
  match s with
  | "" => if String.eqb cur "" then [] else [cur]
  | String c s' =>
      if is_cr c then
        match s' with
        | String c2 s'' =>
            if is_lf c2 then cur :: splitlines_from "" s''
            else cur :: splitlines_from "" s'
        | "" => [cur]
        end
      else if is_linebreak c then
        match s' with
        | "" => [cur]
        | _ => cur :: splitlines_from "" s'
        end
      else splitlines_from (snoc cur c) s'
  end.

(** [s.splitlines()] *)
Definition splitlines (s : string) : list string := splitlines_from "" s.

(** [sep.join(l)] *)
Definition join (sep : string) (l : list string) : string := String.concat sep l.

(** [s.startswith(p)] *)
Definition startswith (s p : string) : bool := String.prefix p s.

(** [sub in s] *)
Fixpoint contains (sub s : string) : bool :=
  String.prefix sub s
  || match s with
     | "" => false
     | String _ s' => contains sub s'
     end.

Fixpoint lstrip (s : string) : string :=
  match s with
  | "" => ""
  | String c s' => if isspace c then lstrip s' else s
  end.

Fixpoint rstrip (s : string) : string :=
  match s with
  | "" => ""
  | String c s' =>
      let r := rstrip s' in
      if String.eqb r "" && isspace c then "" else String c r
  end.

(** [s.strip()] *)
Definition strip (s : string) : string := rstrip (lstrip s).

Definition lower_char (c : ascii) : ascii :=
  let n := code c in
  if (65 <=? n) && (n <=? 90) then ascii_of_nat (n + 32) else c.

(** [s.lower()] *)
Fixpoint lower (s : string) : string :=
  match s with
  | "" => ""
  | String c s' => String (lower_char c) (lower s')
  end.

(** [s.replace(old, new)] for a non-empty [old]: occurrences are replaced
    from the left and do not overlap; [skip] counts the characters of the
    occurrence just replaced that are still to be dropped. *)
Fixpoint replace_from (old new : string) (skip : nat) (s : string) : string :=
  match s with
  | "" => ""
  | String c s' =>
      match skip with
      | S k => replace_from old new k s'
      | O =>
          if String.prefix old s
          then new +:+ replace_from old new (String.length old - 1) s'
          else String c (replace_from old new 0 s')
      end
  end.

Definition replace (old new s : string) : string := replace_from old new 0 s.

(** ["%d" % n] for a natural number. *)
Definition str_of_nat (n : nat) : string := pretty n.

(** Truthiness of a string: [not s] holds of the empty string. *)
Definition truthy (s : string) : bool := negb (String.eqb s "").

(** [sorted] on strings: insertion into an ascending list. *)
Fixpoint insert_sorted (x : string) (l : list string) : list string :=
  match l with
  | [] => [x]
  | y :: l' => if String.leb x y then x :: l else y :: insert_sorted x l'
  end.

Definition sorted (l : list string) : list string :=
  fold_right insert_sorted [] l.

Definition hex_digit (n : nat) : ascii :=
  if n <? 10 then ascii_of_nat (48 + n) else ascii_of_nat (87 + n).

(** One character of [repr(s)], inside quotes [q]. *)
Definition repr_char (q : ascii) (c : ascii) : string :=
  let n := code c in
  if Ascii.eqb c q || (n =? 92) then String "\" (String c "")
  else if n =? 9 then "\t"
  else if n =? 10 then "\n"
  else if n =? 13 then "\r"
  else if (n <? 32) || (n =? 127)
       then "\x" +:+ String (hex_digit (n / 16)) (String (hex_digit (n mod 16)) "")
  else String c "".

Fixpoint repr_body (q : ascii) (s : string) : string :=
  match s with
  | "" => ""
  | String c s' => repr_char q c +:+ repr_body q s'
  end.

(** The double quote character. *)
Definition double_quote : ascii := ascii_of_nat 34.

(** [repr(s)]: single quotes, unless the text holds a single quote and
    no double quote. *)
Definition repr (s : string) : string :=
  let q := if contains "'" s && negb (contains (String double_quote "") s)
           then double_quote else "'"%char in
  String q (repr_body q s) +:+ String q "".

(** [repr] of a list of strings, as ["%s" % list] prints it. *)
Definition repr_list (l : list string) : string :=
  "[" +:+ join ", " (map repr l) +:+ "]".

(** [piece] occurs in [text]. *)
Definition occurs_in (piece text : string) : Prop :=
  exists pre post, text = pre +:+ piece +:+ post.

(** Python slices [l[a:b]], [l[:a]] and [l[b:]] with indices in range or
    beyond the end. *)
Definition slice {A} (a b : nat) (l : list A) : list A := firstn (b - a) (skipn a l).

End Py.

(** ** [hashlib.sha256] (FIPS 180-4), on 32-bit words held in [Z] *)

Module Sha256.
Local Open Scope Z_scope.

Definition mask32 : Z := 0xffffffff.
Definition w32 (x : Z) : Z := Z.land x mask32.
Definition add32 (a b : Z) : Z := w32 (a + b).
Definition rotr (n x : Z) : Z :=
  Z.lor (Z.shiftr x n) (w32 (Z.shiftl x (32 - n))).
Definition not32 (x : Z) : Z := Z.lxor x mask32.

Definition Ch (e f g : Z) : Z := Z.lxor (Z.land e f) (Z.land (not32 e) g).
Definition Maj (a b c : Z) : Z :=
  Z.lxor (Z.lxor (Z.land a b) (Z.land a c)) (Z.land b c).
Definition Sigma0 (a : Z) : Z := Z.lxor (Z.lxor (rotr 2 a) (rotr 13 a)) (rotr 22 a).
Definition Sigma1 (e : Z) : Z := Z.lxor (Z.lxor (rotr 6 e) (rotr 11 e)) (rotr 25 e).
Definition sigma0 (x : Z) : Z := Z.lxor (Z.lxor (rotr 7 x) (rotr 18 x)) (Z.shiftr x 3).
Definition sigma1 (x : Z) : Z := Z.lxor (Z.lxor (rotr 17 x) (rotr 19 x)) (Z.shiftr x 10).

(** Trial division. *)
Definition is_prime (n : nat) : bool :=
  forallb (fun d => negb (Nat.eqb (Nat.modulo n d) 0)) (seq 2 (n - 2)).

(** The first 64 primes: 2, 3, 5, ..., 311. *)
Definition primes : list Z := map Z.of_nat (List.filter is_prime (seq 2 310)).

(** [iroot r x bit acc]: the floor of the [r]-th root of [x], its bits
    below [bit] decided from the top, above those of [acc]. *)
Fixpoint iroot (r x : Z) (bit : nat) (acc : Z) : Z :=
  match bit with
  | O => acc
  | S b =>
      let c := acc + 2 ^ Z.of_nat b in
      if c ^ r <=? x then iroot r x b c else iroot r x b acc
  end.

(** The first 32 bits of the fractional part of the [r]-th root of [p]. *)
Definition frac_root (r p : Z) : Z := w32 (iroot r (p * 2 ^ (32 * r)) 40 0).

(** The round constants: from the cube roots of the first 64 primes. *)
Definition K : list Z := Eval vm_compute in map (frac_root 3) primes.

Fixpoint bytes_of_string (s : string) : list Z :=
  match s with
  | EmptyString => []
  | String c s' => Z.of_nat (nat_of_ascii c) :: bytes_of_string s'
  end.

(** Big-endian bytes of [x], [n] of them. *)
Fixpoint be_bytes (n : nat) (x : Z) : list Z :=
  match n with
  | O => []
  | S k => Z.land (Z.shiftr x (8 * Z.of_nat k)) 0xff :: be_bytes k x
  end.

Definition pad (msg : list Z) : list Z :=
  let len := Z.of_nat (List.length msg) in
  msg ++ [0x80] ++ repeat 0 (Z.to_nat ((55 - len) mod 64)) ++ be_bytes 8 (8 * len).

Fixpoint words_of_bytes (l : list Z) : list Z :=
  match l with
  | b0 :: b1 :: b2 :: b3 :: l' =>
      (Z.shiftl b0 24 + Z.shiftl b1 16 + Z.shiftl b2 8 + b3) :: words_of_bytes l'
  | _ => []
  end.

(** The message schedule, most recent word first: [rev] is [W_(t-1) .. W_0]. *)
Fixpoint extend (n : nat) (rev : list Z) : list Z :=
  match n with
  | O => rev
  | S k =>
      let w := add32 (add32 (sigma1 (nth 1 rev 0)) (nth 6 rev 0))
                     (add32 (sigma0 (nth 14 rev 0)) (nth 15 rev 0)) in
      extend k (w :: rev)
  end.

Definition schedule (block : list Z) : list Z :=
  List.rev (extend 48 (List.rev block)).

Record regs := Regs { ra : Z; rb : Z; rc : Z; rd : Z; re : Z; rf : Z; rg : Z; rh : Z }.

Definition round (s : regs) (kw : Z * Z) : regs :=
  let '(k, w) := kw in
  let t1 := add32 (add32 (add32 (rh s) (Sigma1 (re s))) (add32 (Ch (re s) (rf s) (rg s)) k)) w in
  let t2 := add32 (Sigma0 (ra s)) (Maj (ra s) (rb s) (rc s)) in
  Regs (add32 t1 t2) (ra s) (rb s) (rc s) (add32 (rd s) t1) (re s) (rf s) (rg s).

Definition compress (h : regs) (block : list Z) : regs :=
  let s := fold_left round (combine K (schedule block)) h in
  Regs (add32 (ra h) (ra s)) (add32 (rb h) (rb s)) (add32 (rc h) (rc s)) (add32 (rd h) (rd s))
       (add32 (re h) (re s)) (add32 (rf h) (rf s)) (add32 (rg h) (rg s)) (add32 (rh h) (rh s)).

(** The blocks of 16 words; [n] bounds their number. *)
Fixpoint blocks (n : nat) (ws : list Z) : list (list Z) :=
  match n, ws with
  | S k, _ :: _ => firstn 16 ws :: blocks k (skipn 16 ws)
  | _, _ => []
  end.

(** The initial hash value: from the square roots of the first 8 primes. *)
Definition init : regs :=
  match map (frac_root 2) (firstn 8 primes) with
  | [a; b; c; d; e; f; g; h] => Regs a b c d e f g h
  | _ => Regs 0 0 0 0 0 0 0 0
  end.

Definition digest_words (s : string) : list Z :=
  let ws := words_of_bytes (pad (bytes_of_string s)) in
  let r := fold_left compress (blocks (List.length ws) ws) init in
  [ra r; rb r; rc r; rd r; re r; rf r; rg r; rh r].

Definition hex_of_nibble (x : Z) : ascii := Py.hex_digit (Z.to_nat x).

Fixpoint hex_of_word_from (n : nat) (x : Z) : string :=
  match n with
  | O => EmptyString
  | S k => String (hex_of_nibble (Z.land (Z.shiftr x (4 * Z.of_nat k)) 0xf)) (hex_of_word_from k x)
  end.

(** [hashlib.sha256(s.encode()).hexdigest()] *)
Definition hexdigest (s : string) : string :=
  String.concat "" (map (hex_of_word_from 8) (digest_words s)).

End Sha256.

(** ** [pathlib] on POSIX paths, without symbolic links *)

Module Path.

(** A path as [pathlib] holds it: the anchor (empty for a relative path,
    ["/"] or ["//"] for an absolute one) and the components. *)
Record t := Mk { anchor : string; parts : list string }.

Fixpoint split_from (cur s : string) : list string :=
  match s with
  | "" => [cur]
  | String c s' =>
      if Ascii.eqb c "/" then cur :: split_from "" s'
      else split_from (Py.snoc cur c) s'
  end.

(** [s.split("/")] *)
Definition split (s : string) : list string := split_from "" s.

Definition keep_part (c : string) : bool :=
  negb (String.eqb c "") && negb (String.eqb c ".").

(** Exactly two leading slashes are kept as the anchor ["//"]. *)
Definition anchor_of (s : string) : string :=
  if String.prefix "///" s then "/"
  else if String.prefix "//" s then "//"
  else if String.prefix "/" s then "/"
  else "".

(** [Path(s)]: empty and ["."] components are dropped. *)
Definition parse (s : string) : t :=
  Mk (anchor_of s) (List.filter keep_part (split s)).

Definition is_absolute (p : t) : bool := Py.truthy (anchor p).

(** [p / s]: an absolute [s] replaces [p]. *)
Definition joinpath (p : t) (s : string) : t :=
  let q := parse s in
  if is_absolute q then q else Mk (anchor p) (parts p ++ parts q).

(** [str(p)] *)
Definition str (p : t) : string :=
  match parts p with
  | [] => if is_absolute p then anchor p else "."
  | _ => anchor p +:+ Py.join "/" (parts p)
  end.

(** [normalize acc ps]: the components [ps] walked from the directory
    whose components, innermost first, are [acc]; [".."] steps to the
    parent and stays at the root. *)
Fixpoint normalize (acc ps : list string) : list string :=
  match ps with
  | [] => List.rev acc
  | c :: ps' =>
      if String.eqb c ".." then normalize (List.tl acc) ps'
      else normalize (c :: acc) ps'
  end.

(** [p.resolve()] for a path read from the working directory [cwd] (the
    components of an absolute, resolved path). *)
Definition resolve_from (cwd : list string) (p : t) : t :=
  Mk "/" (normalize (if is_absolute p then [] else List.rev cwd) (parts p)).

(** [p.resolve()] of an absolute path. *)
Definition resolve (p : t) : t := resolve_from [] p.

(** Containment as the specification words it: [p] is a strict
    descendant of [root] when the components of [root] are the first
    components of [p] and [p] has more. *)
Definition strict_descendant (root p : t) : bool :=
  bool_decide (parts root `prefix_of` parts p)
  && (length (parts root) <? length (parts p)).

End Path.

(** ** The file system and exceptions *)

(** The content of every regular file, as [read_text] returns it, by the
    text of its resolved path. *)
Abbreviation filesystem := (gmap string string).

Module FS.

Definition key (p : Path.t) : string := Path.str (Path.resolve p).

(** [p.exists()], of a path that is not a directory *)
Definition exists_ (fs : filesystem) (p : Path.t) : bool :=
  bool_decide (is_Some (fs !! key p)).

(** [p.read_text(...)] of a file that can be read; [None] stands for the
    [OSError] of a missing file. *)
Definition read_text (fs : filesystem) (p : Path.t) : option string := fs !! key p.

(** [p.parent.mkdir(parents=True, exist_ok=True); p.write_text(content)]
    when the operating system refuses neither; [IO.mkdir] and
    [IO.write_text] below are the calls that can raise. *)
Definition write_text (fs : filesystem) (p : Path.t) (content : string) : filesystem :=
  <[key p := content]> fs.

End FS.

Inductive exn : Type :=
| ValueError (msg : string)
| TypeError (msg : string)
| OSError (msg : string)
| SyntaxError (msg : string)
| RecursionError (msg : string).

(** [str(e)] *)
Definition exn_message (e : exn) : string :=
  match e with
  | ValueError msg | TypeError msg | OSError msg | SyntaxError msg | RecursionError msg => msg
  end.

Inductive result (A : Type) : Type :=
| Ok (a : A)
| Raise (e : exn).
Arguments Ok {A} a.
Arguments Raise {A} e.

Definition bind {A B} (r : result A) (k : A -> result B) : result B :=
  match r with
  | Ok a => k a
  | Raise e => Raise e
  end.

Notation "'let*' x := r 'in' k" := (bind r (fun x => k))
  (at level 10, x name, r at level 100, k at level 200).

(** ** [foundry_core/engine/patch_engine.py] *)

Module PatchEngine.

(** Patch format: [{ path, diff, content, risk, summary }]; [diff] and
    [content] are read with [dict.get] and may be missing. *)
Record patch := Patch {
  path : string;
  diff : option string;
  content : option string;
  risk : string;
  summary : string
}.

Definition _make_unified_diff (p : Path.t) (old_lines new_lines : list string) : string :=
  let rel := Py.replace "\" "/" (Path.str p) in
  let header :=
    [ "--- a/" +:+ rel;
      "+++ b/" +:+ rel;
      "@@ -1," +:+ Py.str_of_nat (length old_lines) +:+ " +1,"
               +:+ Py.str_of_nat (length new_lines) +:+ " @@" ] in
  let body :=
    map (fun line =>
           (if bool_decide (line ∈ old_lines) then " " else "+") +:+ line)
        new_lines in
  Py.join Py.newline (header ++ body) +:+ Py.newline.

(** [str(path.resolve()).startswith(str(self.repo_root))] *)
Definition inside_repo (repo_root : Path.t) (rel_path : string) : bool :=
  Py.startswith (Path.str (Path.resolve (Path.joinpath repo_root rel_path)))
                (Path.str repo_root).

Definition lines_of (text : string) : list string :=
  if Py.truthy text then Py.splitlines text else [].

Definition create_add_file_patch (repo_root : Path.t)
    (rel_path content : string) (risk : string) : result patch :=
  let path := Path.joinpath repo_root rel_path in
  if negb (inside_repo repo_root rel_path)
  then Raise (ValueError "Path outside repo_root")
  else
    let diff := _make_unified_diff path [] (lines_of content) in
    Ok (Patch rel_path (Some diff) (Some content) risk ("Add " +:+ rel_path)).

Definition create_edit_patch (repo_root : Path.t)
    (rel_path old_content new_content : string) (risk : string) : result patch :=
  let path := Path.joinpath repo_root rel_path in
  if negb (inside_repo repo_root rel_path)
  then Raise (ValueError "Path outside repo_root")
  else
    let old_lines := lines_of old_content in
    let new_lines := lines_of new_content in
    let diff := _make_unified_diff path old_lines new_lines in
    Ok (Patch rel_path (Some diff) (Some new_content) risk ("Edit " +:+ rel_path)).

(** The text written for a patch without [content]: the added lines of
    its diff. *)
Definition content_from_diff (d : string) : string :=
  let new_lines :=
    map (fun ln => match ln with String _ r => r | "" => "" end)
        (List.filter (fun ln => Py.startswith ln "+" && negb (Py.startswith ln "+++"))
                     (Py.splitlines d)) in
  Py.join Py.newline new_lines +:+ (match new_lines with [] => "" | _ => Py.newline end).

Definition written_content (p : patch) : string :=
  match content p with
  | Some c => c
  | None => content_from_diff (default "" (diff p))
  end.

(** The loop state of [apply_patches]: the file system and the two
    lists that are returned. *)
Record outcome := Outcome {
  files : filesystem;
  applied : list string;
  errors : list string
}.

(** The body of the loop, when no write is refused;
    [PatchEngineIO.apply_one] below is the body whose writes can raise. *)
Definition apply_one (repo_root : Path.t) (mode : string) (st : outcome) (p : patch) : outcome :=
  let target := Path.joinpath repo_root (path p) in
  if negb (inside_repo repo_root (path p)) then
    Outcome (files st) (applied st) (errors st ++ ["Skipped " +:+ path p +:+ ": outside repo"])
  else if String.eqb mode "write" then
    Outcome (FS.write_text (files st) target (written_content p))
            (applied st ++ [path p]) (errors st)
  else
    Outcome (files st) (applied st ++ [path p +:+ " (dry-run)"]) (errors st).

(** [apply_patches(patches, mode="dry_run")] *)
Definition apply_patches (repo_root : Path.t) (fs : filesystem)
    (patches : list patch) (mode : option string) : outcome :=
  let mode := default "dry_run" mode in
  fold_left (apply_one repo_root mode) patches (Outcome fs [] []).

(** What one patch adds to [applied] and to [errors], and whether it is
    written: the three effects of [apply_one], one by one. *)
Definition applied_by (repo_root : Path.t) (mode : string) (p : patch) : list string :=
  if negb (inside_repo repo_root (path p)) then []
  else if String.eqb mode "write" then [path p]
  else [path p +:+ " (dry-run)"].

Definition errors_by (repo_root : Path.t) (p : patch) : list string :=
  if negb (inside_repo repo_root (path p))
  then ["Skipped " +:+ path p +:+ ": outside repo"]
  else [].

Definition writes (repo_root : Path.t) (mode : string) (p : patch) : bool :=
  inside_repo repo_root (path p) && String.eqb mode "write".

End PatchEngine.

(** ** Python syntax trees, as far as the analyzers look at them *)

Module Ast.

(** A node of the tree [ast.parse] returns.  Only statements can hold a
    function definition, so expressions are left out: [Assign], [Expr]
    and [Return] are leaves; [Other] is any other node (a class, a loop,
    a [try] and its handlers, ...) with its child nodes in field order.
    A [FunctionDef] carries [len(node.args.args)], [lineno] and
    [end_lineno]. *)
Inductive node : Type :=
| FunctionDef (name : string) (nargs : nat) (lineno end_lineno : nat) (body : list node)
| Assign
| Expr
| Return
| If (body orelse : list node)
| Other (children : list node).

(** The body of an [ast.Module]. *)
Definition module := list node.

(** Lists of nodes by depth, merged depth by depth. *)
Fixpoint merge_levels (a b : list (list node)) : list (list node) :=
  match a, b with
  | [], _ => b
  | _, [] => a
  | x :: a', y :: b' => (x ++ y) :: merge_levels a' b'
  end.

Definition merge_all (ls : list (list (list node))) : list (list node) :=
  fold_right merge_levels [] ls.

(** The nodes below and including [n], by depth, left to right. *)
Fixpoint levels (n : node) : list (list node) :=
  [n] :: match n with
         | FunctionDef _ _ _ _ body => merge_all (map levels body)
         | If body orelse => merge_all (map levels body ++ map levels orelse)
         | Other children => merge_all (map levels children)
         | _ => []
         end.

(** The nodes strictly below [n], by depth. *)
Definition below (n : node) : list (list node) := List.tl (levels n).

(** [ast.walk(tree)] without the module node itself: breadth first, a
    node's children queued in field order behind all nodes queued
    before. *)
Definition walk (tree : module) : list node :=
  concat (merge_all (map levels tree)).

End Ast.

(** ** [foundry_core/analyzers/duplicate_analyzer.py] *)

(** [{script, line, name}]; the extraction engine reads each field with
    [dict.get], so a caller's cluster may lack any of them. *)
Record location := Loc {
  script : option string;
  line : option Z;
  name : option string
}.

(** [{hash, locations}] *)
Record cluster := Cluster {
  hash : string;
  locations : list location
}.

(** [{type: "duplicate", cluster, count}] *)
Record finding := Finding {
  ftype : string;
  fcluster : cluster;
  fcount : nat
}.

(** The key of [hash_to_locs]: the hash, or the pair [(hash, name)]. *)
Inductive key : Type :=
| KHash (h : string)
| KPair (h name : string).

Global Instance key_eq_dec : EqDecision key.
Proof. solve_decision. Defined.

Global Instance location_eq_dec : EqDecision location.
Proof. solve_decision. Defined.

(** [d.setdefault(k, []).append(v)] on a dictionary held as the list of
    its items in insertion order. *)
Fixpoint setdefault_append {K V : Type} `{EqDecision K}
    (k : K) (v : V) (d : list (K * list V)) : list (K * list V) :=
  match d with
  | [] => [(k, [v])]
  | (k', vs) :: d' =>
      if decide (k = k') then (k', vs ++ [v]) :: d'
      else (k', vs) :: setdefault_append k v d'
  end.

(** The distinct elements of a list in the order of their first
    occurrence: the order in which a dictionary receives its keys. *)
Fixpoint first_seen {K : Type} `{EqDecision K} (l : list K) : list K :=
  match l with
  | [] => []
  | k :: l' => k :: List.filter (fun k' => negb (bool_decide (k' = k))) (first_seen l')
  end.

Module Dup.
Section WithParser.

(** [ast.parse]: the tree of a text, [None] for [SyntaxError]. *)
Variable ast_parse : string -> option Ast.module.

(** [RepoIndexer(repo_root).scan()["py_files"]]: the inventory of entry
    scripts, an external collaborator of the core. *)
Variable scan_py_files : Path.t -> filesystem -> list string.

(** Normalize AST to string for hashing (strip identifiers/literals). *)
Fixpoint _normalize_ast (n : Ast.node) : string :=
  match n with
  | Ast.FunctionDef _ nargs _ _ body =>
      "def(" +:+ Py.str_of_nat nargs +:+ "):" +:+ Py.join "" (map _normalize_ast body)
  | Ast.Assign => "assign"
  | Ast.Expr => "expr"
  | Ast.Return => "return"
  | Ast.If body _ => "if" +:+ Py.join "" (map _normalize_ast body)
  | Ast.Other _ => ""
  end.

(** [hashlib.sha256(body.encode()).hexdigest()[:16]] *)
Definition _hash_body (body : string) : string :=
  String.substring 0 16 (Sha256.hexdigest body).

(** [(line, name, normalized_body)] of one function. *)
Record func_record := FuncRecord {
  fr_line : nat;
  fr_name : string;
  fr_body : string
}.

Definition record_of_node (n : Ast.node) : option func_record :=
  match n with
  | Ast.FunctionDef name _ lineno _ _ => Some (FuncRecord lineno name (_normalize_ast n))
  | _ => None
  end.

(** Return (line, name, normalized_body) for each function; a file that
    cannot be read or parsed gives none.  [DupChecked._extract_functions]
    below has the exceptions of the read and of [ast.parse] that the
    handler does not catch. *)
Definition _extract_functions (fs : filesystem) (script_path : Path.t) : list func_record :=
  match FS.read_text fs script_path with
  | None => []
  | Some text =>
      match ast_parse text with
      | None => []
      | Some tree => omap record_of_node (Ast.walk tree)
      end
  end.

(** The iterations of the two nested loops of [analyze], in order: the
    script and one of its function records. *)
Definition scanned (repo_root : Path.t) (fs : filesystem)
    (script_paths : list string) : list (string * func_record) :=
  flat_map (fun sp => map (pair sp) (_extract_functions fs (Path.joinpath repo_root sp)))
           script_paths.

Definition key_of (same_name_only : bool) (r : func_record) : key :=
  let h := _hash_body (fr_body r) in
  if same_name_only then KPair h (fr_name r) else KHash h.

Definition loc_of (sp : string) (r : func_record) : location :=
  Loc (Some sp) (Some (Z.of_nat (fr_line r))) (Some (fr_name r)).

(** One iteration of the inner loop. *)
Definition add_record (same_name_only : bool)
    (d : list (key * list location)) (it : string * func_record) : list (key * list location) :=
  let '(sp, r) := it in
  if String.length (fr_body r) <? 20 then d
  else setdefault_append (key_of same_name_only r) (loc_of sp r) d.

(** The records the loop does not skip. *)
Definition long_enough (it : string * func_record) : bool :=
  negb (String.length (fr_body (snd it)) <? 20).

Definition hash_to_locs (same_name_only : bool)
    (its : list (string * func_record)) : list (key * list location) :=
  fold_left (add_record same_name_only) its [].

Definition hash_of_key (k : key) : string :=
  match k with
  | KHash h => h
  | KPair h _ => h
  end.

(** The second loop: keys with a single location are dropped. *)
Definition clusters_of (d : list (key * list location)) : list cluster :=
  flat_map (fun kl => if length (snd kl) <=? 1 then []
                      else [Cluster (hash_of_key (fst kl)) (snd kl)]) d.

(** [clusters.sort(key=lambda c: len(c["locations"]), reverse=True)]:
    a stable sort, larger clusters first. *)
Fixpoint insert_desc (c : cluster) (l : list cluster) : list cluster :=
  match l with
  | [] => [c]
  | c' :: l' =>
      if length (locations c) <? length (locations c') then c' :: insert_desc c l'
      else c :: l
  end.

Definition sort_desc (l : list cluster) : list cluster := fold_right insert_desc [] l.

(** [if limit is not None and limit > 0: clusters = clusters[:limit]] *)
Definition apply_limit (limit : option Z) (l : list cluster) : list cluster :=
  match limit with
  | Some n => if (0 <? n)%Z then firstn (Z.to_nat n) l else l
  | None => l
  end.

Definition finding_of (c : cluster) : finding :=
  Finding "duplicate" c (length (locations c)).

(** [if not script_paths]: a missing or empty list is replaced by the
    inventory. *)
Definition resolve_script_paths (repo_root : Path.t) (fs : filesystem)
    (script_paths : option (list string)) : list string :=
  match script_paths with
  | Some (sp :: sps) => sp :: sps
  | _ => scan_py_files repo_root fs
  end.

(** [analyze(script_paths=None, limit=None, same_name_only=False)] *)
Definition analyze (repo_root : Path.t) (fs : filesystem)
    (script_paths : option (list string)) (limit : option Z)
    (same_name_only : bool) : list cluster * list finding :=
  let script_paths := resolve_script_paths repo_root fs script_paths in
  let d := hash_to_locs same_name_only (scanned repo_root fs script_paths) in
  let clusters := apply_limit limit (sort_desc (clusters_of d)) in
  (clusters, map finding_of clusters).

(** The grouping as the specification words it: a mapping from each key,
    in the order the keys are first met, to the locations of the records
    with that key, in scan order. *)
Definition locations_of_key (same_name_only : bool) (k : key)
    (its : list (string * func_record)) : list location :=
  map (fun it => loc_of (fst it) (snd it))
      (List.filter (fun it => bool_decide (key_of same_name_only (snd it) = k)) its).

Definition grouped (same_name_only : bool)
    (its : list (string * func_record)) : list (key * list location) :=
  map (fun k => (k, locations_of_key same_name_only k its))
      (first_seen (map (fun it => key_of same_name_only (snd it)) its)).

(** Larger clusters first. *)
Definition larger_first (c c' : cluster) : Prop :=
  length (locations c') <= length (locations c).

Definition has_size (n : nat) (c : cluster) : bool :=
  length (locations c) =? n.

(** The specification's reading of the order within a file: function
    records in the order of their declaration lines. *)
Fixpoint insert_by_line (r : func_record) (l : list func_record) : list func_record :=
  match l with
  | [] => [r]
  | r' :: l' => if fr_line r' <? fr_line r then r' :: insert_by_line r l' else r :: l
  end.

Definition in_declaration_order (l : list func_record) : list func_record :=
  fold_right insert_by_line [] l.

Definition scanned_declared (repo_root : Path.t) (fs : filesystem)
    (script_paths : list string) : list (string * func_record) :=
  flat_map (fun sp => map (pair sp)
              (in_declaration_order (_extract_functions fs (Path.joinpath repo_root sp))))
           script_paths.

(** The clusters [analyze] would return if it read each file's functions
    in declaration order. *)
Definition analyze_declared (repo_root : Path.t) (fs : filesystem)
    (script_paths : option (list string)) (limit : option Z)
    (same_name_only : bool) : list cluster :=
  let script_paths := resolve_script_paths repo_root fs script_paths in
  let d := hash_to_locs same_name_only (scanned_declared repo_root fs script_paths) in
  apply_limit limit (sort_desc (clusters_of d)).

End WithParser.
End Dup.

(** ** [foundry_core/analyzers/lib_structure.py] *)

Module LibStructure.
Section WithParser.

Variable ast_parse : string -> option Ast.module.
Variable scan_py_files : Path.t -> filesystem -> list string.

(** One entry of [mapping]. *)
Record mapping_entry := MappingEntry {
  function : string;
  from_scripts : list string;
  suggested_module : string;
  same_name : bool;
  mixed_names : option (list string)
}.

(** [{ suggested_tree, mapping, findings }]; a finding is
    [{type: "proposal", mapping: m}]. *)
Record proposal := Proposal {
  suggested_tree : list (string * list string);
  mapping : list mapping_entry;
  findings : list (string * mapping_entry)
}.

Definition mentions (words : list string) (scripts : list string) : bool :=
  existsb (fun s => existsb (fun w => Py.contains w (Py.lower s)) words) scripts.

(** The target module of a cluster, from its script paths. *)
Definition choose_module (scripts : list string) : string :=
  if mentions ["ui"; "form"] scripts then "lib/ui.py"
  else if mentions ["io"; "file"] scripts then "lib/io.py"
  else "lib/utils.py".

(** [suggested.setdefault(mod_, []).extend(names)] *)
Definition setdefault_extend (k : string) (vs : list string)
    (d : list (string * list string)) : list (string * list string) :=
  fold_left (fun d v => setdefault_append k v d) vs
            (if existsb (fun kv => String.eqb (fst kv) k) d then d else d ++ [(k, [])]).

(** One iteration of the loop of [propose]. *)
Definition propose_step (same_name_only : bool)
    (st : list (string * list string) * list mapping_entry) (c : cluster)
    : list (string * list string) * list mapping_entry :=
  let locs := locations c in
  if length locs <? 2 then st
  else
    let names := map (fun loc => default "?" (name loc)) locs in
    let unique_names := remove_dups names in
    let same_name := length unique_names =? 1 in
    if same_name_only && negb same_name then st
    else
      let scripts := map (fun loc => default "?" (script loc)) locs in
      let mod_ := choose_module scripts in
      (setdefault_extend mod_ names (fst st),
       snd st ++ [MappingEntry (hd "?" names) scripts mod_ same_name
                    (if same_name then None else Some (Py.sorted unique_names))]).

(** [propose(clusters=None, preferences=None, same_name_only=False)];
    [preferences] is not read.  [if not clusters]: a missing or empty
    list is replaced by a fresh analysis. *)
Definition propose (repo_root : Path.t) (fs : filesystem)
    (clusters : option (list cluster)) (same_name_only : bool) : proposal :=
  let clusters :=
    match clusters with
    | Some (c :: cs) => c :: cs
    | _ => fst (Dup.analyze ast_parse scan_py_files repo_root fs None None same_name_only)
    end in
  let '(suggested, mapping) :=
    fold_left (propose_step same_name_only) clusters
              ([("lib/utils.py", []); ("lib/io.py", []); ("lib/ui.py", [])], []) in
  Proposal suggested mapping (map (pair "proposal") mapping).

End WithParser.
End LibStructure.

(** ** [foundry_core/analyzers/extract_to_lib.py] *)

Module Extract.
Section WithParser.

Variable ast_parse : string -> option Ast.module.
Variable scan_py_files : Path.t -> filesystem -> list string.

(** [isinstance(node, ast.FunctionDef) and node.name == func_name and
    node.lineno == func_line] *)
Definition is_target (func_name : option string) (func_line : option Z) (n : Ast.node) : bool :=
  match n with
  | Ast.FunctionDef name _ lineno _ _ =>
      bool_decide (func_name = Some name) && bool_decide (func_line = Some (Z.of_nat lineno))
  | _ => false
  end.

(** A location is unusable when its script is missing from the disk, or
    when removing its function leaves the text of the script unchanged. *)
Definition file_missing (repo_root : Path.t) (fs : filesystem) (loc : location) : Prop :=
  exists sp, script loc = Some sp /\ FS.exists_ fs (Path.joinpath repo_root sp) = false.

(** The lines [lineno .. end_lineno] of a function definition. *)
Definition span (n : Ast.node) : nat * nat :=
  match n with
  | Ast.FunctionDef _ _ lineno end_lineno _ => (lineno - 1, end_lineno)
  | _ => (0, 0)
  end.

(** Extract function source by name and line. Returns None if not found. *)
Definition _get_function_source (fs : filesystem) (path : Path.t)
    (func_name : string) (func_line : option Z) : option string :=
  match FS.read_text fs path with
  | None => None
  | Some text =>
      match ast_parse text with
      | None => None
      | Some tree =>
          match List.find (is_target (Some func_name) func_line) (Ast.walk tree) with
          | Some node =>
              let lines := Py.splitlines text in
              let '(start, end_) := span node in
              Some (Py.join Py.newline (Py.slice start end_ lines))
          | None => None
          end
      end
  end.

(** [sep.join(lines) + ("\n" if lines else "")] *)
Definition join_lines (lines : list string) : string :=
  Py.join Py.newline lines +:+ (match lines with [] => "" | _ => Py.newline end).

(** Remove a function definition from source. Returns new source. *)
Definition _remove_function_from_source (text : string)
    (func_name : option string) (func_line : option Z) : string :=
  match ast_parse text with
  | None => text
  | Some tree =>
      let lines := Py.splitlines text in
      match List.find (is_target func_name func_line) (Ast.walk tree) with
      | Some node =>
          let '(start, end_) := span node in
          join_lines (firstn start lines ++ skipn end_ lines)
      | None => text
      end
  end.

Definition removal_unchanged (repo_root : Path.t) (fs : filesystem) (loc : location) : Prop :=
  exists sp text,
    script loc = Some sp
    /\ FS.read_text fs (Path.joinpath repo_root sp) = Some text
    /\ _remove_function_from_source text (name loc) (line loc) = text.

Definition is_import (line : string) : bool :=
  let s := Py.strip line in
  Py.startswith s "import " || Py.startswith s "from ".

(** The loop of [_ensure_import] from line [i] on: [None] when a line
    holds the import already, else the index of the last import line
    seen ([last], or a later one). *)
Fixpoint scan_imports (import_line_stripped : string) (i : nat) (last : option nat)
    (lines : list string) : option (option nat) :=
  match lines with
  | [] => Some last
  | line :: rest =>
      let last := if is_import line then Some i else last in
      if Py.contains import_line_stripped line then None
      else scan_imports import_line_stripped (S i) last rest
  end.

(** Add import_line after last import if not present. *)
Definition _ensure_import (lines : list string) (import_line : string) : list string :=
  match scan_imports (Py.strip import_line) 0 None lines with
  | None => lines
  | Some (Some last_import_idx) =>
      firstn (last_import_idx + 1) lines ++ [import_line] ++ skipn (last_import_idx + 1) lines
  | Some None => import_line :: lines
  end.

(** [{function, script, module}] *)
Record extracted_entry := Extracted {
  e_function : option string;
  e_script : string;
  e_module : string
}.

(** The lists and the dictionary the loop of [extract] fills. *)
Record state := State {
  script_patches : list PatchEngine.patch;
  extracted : list extracted_entry;
  errors : list string;
  lib_contents : list (string * list string)
}.

Definition add_error (st : state) (msg : string) : state :=
  State (script_patches st) (extracted st) (errors st ++ [msg]) (lib_contents st).

(** ["%s" % x] for a string that may be [None]. *)
Definition str_opt (x : option string) : string := default "None" x.

(** The body of the inner loop over the locations of a cluster, for
    scripts that are regular files: a path that exists can be read. *)
Definition process_loc (repo_root : Path.t) (fs : filesystem) (mod_ : string)
    (st : state) (loc : location) : result state :=
  match script loc with
  | None => Ok st
  | Some sp =>
      if negb (Py.truthy sp) then Ok st
      else
        let path := Path.joinpath repo_root sp in
        match FS.read_text fs path with
        | None => Ok st
        | Some text =>
            let new_text := _remove_function_from_source text (name loc) (line loc) in
            if String.eqb new_text text then Ok st
            else
              let mod_import := Py.replace ".py" "" (Py.replace "/" "." mod_) in
              let import_line := "from " +:+ mod_import +:+ " import " +:+ str_opt (name loc) in
              let new_lines := _ensure_import (Py.splitlines new_text) import_line in
              let new_text := join_lines new_lines in
              let* patch := PatchEngine.create_edit_patch repo_root sp text new_text "high" in
              Ok (State (script_patches st ++ [patch])
                        (extracted st ++ [Extracted (name loc) sp mod_])
                        (errors st) (lib_contents st))
        end
  end.

Fixpoint process_locs (repo_root : Path.t) (fs : filesystem) (mod_ : string)
    (st : state) (locs : list location) : result state :=
  match locs with
  | [] => Ok st
  | loc :: rest =>
      let* st' := process_loc repo_root fs mod_ st loc in
      process_locs repo_root fs mod_ st' rest
  end.

(** [mapping.get(func_name, "lib/utils.py")] for the dictionary
    [{m["function"]: m["suggested_module"] for m in mapping}]: the last
    entry of a function wins. *)
Definition module_of (mapping : list LibStructure.mapping_entry) (func_name : string) : string :=
  match List.find (fun m => String.eqb (LibStructure.function m) func_name) (rev mapping) with
  | Some m => LibStructure.suggested_module m
  | None => "lib/utils.py"
  end.

Definition selected (cluster_indices : option (list Z)) (idx : nat) : bool :=
  match cluster_indices with
  | None => true
  | Some l => bool_decide (Z.of_nat idx ∈ l)
  end.

(** [sorted(names)] of the distinct names, where every one is a string. *)
Definition sorted_names (names : list (option string)) : option (list string) :=
  Py.sorted <$> mapM id names.

Definition mixed_names_error (idx : nat) (names : list string) : string :=
  "Cluster " +:+ Py.str_of_nat idx +:+ ": mixed function names " +:+ Py.repr_list names
    +:+ " (extract only same-name clusters)".

(** The body of the loop over the clusters. *)
Definition process_cluster (repo_root : Path.t) (fs : filesystem)
    (mapping : list LibStructure.mapping_entry) (cluster_indices : option (list Z))
    (idx : nat) (c : cluster) (st : state) : result state :=
  if negb (selected cluster_indices idx) then Ok st
  else
    let locs := locations c in
    if length locs <? 2 then Ok st
    else
      let names := remove_dups (map name locs) in
      if 1 <? length names then
        match sorted_names names with
        | Some sorted => Ok (add_error st (mixed_names_error idx sorted))
        | None => Raise (TypeError "'<' not supported between instances of 'str' and 'NoneType'")
        end
      else
        match locs with
        | [] => Ok st
        | first :: _ =>
            let func_name := default "?" (name first) in
            match script first, line first with
            | Some script_path, Some func_line =>
                if negb (Py.truthy script_path) || (func_line =? 0)%Z then
                  Ok (add_error st ("Cluster " +:+ Py.str_of_nat idx +:+ ": missing script/line"))
                else
                  let full_path := Path.joinpath repo_root script_path in
                  match _get_function_source fs full_path func_name (Some func_line) with
                  | Some source =>
                      if negb (Py.truthy source) then
                        Ok (add_error st ("Cluster " +:+ Py.str_of_nat idx +:+ ": could not extract "
                                          +:+ func_name +:+ " from " +:+ script_path))
                      else
                        let mod_ := module_of mapping func_name in
                        let st' := State (script_patches st) (extracted st) (errors st)
                                         (setdefault_append mod_ source (lib_contents st)) in
                        process_locs repo_root fs mod_ st' locs
                  | None =>
                      Ok (add_error st ("Cluster " +:+ Py.str_of_nat idx +:+ ": could not extract "
                                        +:+ func_name +:+ " from " +:+ script_path))
                  end
            | _, _ =>
                Ok (add_error st ("Cluster " +:+ Py.str_of_nat idx +:+ ": missing script/line"))
            end
        end.

(** [for idx, cluster in enumerate(clusters)], from index [idx] on. *)
Fixpoint run_clusters (repo_root : Path.t) (fs : filesystem)
    (mapping : list LibStructure.mapping_entry) (cluster_indices : option (list Z))
    (idx : nat) (cs : list cluster) (st : state) : result state :=
  match cs with
  | [] => Ok st
  | c :: rest =>
      let* st' := process_cluster repo_root fs mapping cluster_indices idx c st in
      run_clusters repo_root fs mapping cluster_indices (S idx) rest st'
  end.

(** The loop over [lib_contents.items()]: one patch per target module
    with content. *)
Definition lib_patch (repo_root : Path.t) (fs : filesystem)
    (item : string * list string) : result (list PatchEngine.patch) :=
  let '(mod_, func_sources) := item in
  let content :=
    Py.join (Py.newline +:+ Py.newline)
            (List.filter (fun src => Py.truthy (Py.strip src)) func_sources) in
  if negb (Py.truthy content) then Ok []
  else
    let lib_path := Path.joinpath repo_root mod_ in
    match FS.read_text fs lib_path with
    | Some old =>
        let content := Py.rstrip old +:+ Py.newline +:+ Py.newline +:+ content in
        let* patch := PatchEngine.create_edit_patch repo_root mod_ old content "medium" in
        Ok [patch]
    | None =>
        let* patch := PatchEngine.create_add_file_patch repo_root mod_ content "medium" in
        Ok [patch]
    end.

Fixpoint lib_patches_of (repo_root : Path.t) (fs : filesystem)
    (items : list (string * list string)) : result (list PatchEngine.patch) :=
  match items with
  | [] => Ok []
  | item :: rest =>
      let* ps := lib_patch repo_root fs item in
      let* qs := lib_patches_of repo_root fs rest in
      Ok (ps ++ qs)
  end.

(** [{ patches, extracted, errors }], and the file system afterwards. *)
Record extraction := Extraction {
  patches : list PatchEngine.patch;
  x_extracted : list extracted_entry;
  x_errors : list string;
  x_files : filesystem
}.

(** [extract(clusters=None, cluster_indices=None, mode="dry_run",
    same_name_only=True)] *)
Definition extract (repo_root : Path.t) (fs : filesystem)
    (clusters : option (list cluster)) (cluster_indices : option (list Z))
    (mode : option string) (same_name_only : option bool) : result extraction :=
  let mode := default "dry_run" mode in
  let same_name_only := default true same_name_only in
  let clusters :=
    match clusters with
    | Some cs => cs
    | None => fst (Dup.analyze ast_parse scan_py_files repo_root fs None None same_name_only)
    end in
  let proposal := LibStructure.propose ast_parse scan_py_files repo_root fs (Some clusters) false in
  let mapping := LibStructure.mapping proposal in
  let* st := run_clusters repo_root fs mapping cluster_indices 0 clusters (State [] [] [] []) in
  let* lib_patches := lib_patches_of repo_root fs (lib_contents st) in
  let patches := lib_patches ++ script_patches st in
  if String.eqb mode "write" then
    let out := PatchEngine.apply_patches repo_root fs patches (Some "write") in
    Ok (Extraction patches (extracted st) (errors st ++ PatchEngine.errors out)
                   (PatchEngine.files out))
  else
    Ok (Extraction patches (extracted st) (errors st) fs).

End WithParser.
End Extract.

(** ** Mode parameters of the public operations
    ([foundry_mcp/server.py], [foundry_core/engine/extension_creator.py]) *)

Module Server.

(** The tools of [server.py] that take a [mode] parameter. *)
Inductive tool : Type :=
| generate_bundle_yaml
| import_audit_with_core
| apply_patch
| create_extension_config_tool
| create_extension
| add_button
| extract_to_lib.

(** The default of [mode] in the signature of each tool. *)
Definition mode_default (t : tool) : string :=
  match t with
  | generate_bundle_yaml => "dry_run"
  | import_audit_with_core => "dry_run"
  | apply_patch => "dry_run"
  | create_extension_config_tool => "write"
  | create_extension => "dry_run"
  | add_button => "dry_run"
  | extract_to_lib => "dry_run"
  end.

Definition all_tools : list tool :=
  [ generate_bundle_yaml; import_audit_with_core; apply_patch;
    create_extension_config_tool; create_extension; add_button; extract_to_lib ].

(** [create_extension_config(config_path, mode="write")] of
    [extension_creator.py]; [template] is the text
    [get_extension_config_template()] returns and [cwd] the working
    directory [Path(config_path).resolve()] starts from.  Returns the
    file system and the fields [config_path] and [mode] of the result. *)
Definition create_extension_config (cwd : list string) (template : string)
    (fs : filesystem) (config_path : string) (mode : option string)
    : filesystem * (string * string) :=
  let mode := default "write" mode in
  let path := Path.resolve_from cwd (Path.parse config_path) in
  let fs' := if String.eqb mode "write" then FS.write_text fs path template else fs in
  (fs', (Path.str path, mode)).

(** The tool [create_extension_config_tool(config_path="", mode="write")]. *)
Definition run_create_extension_config_tool (cwd : list string) (template : string)
    (fs : filesystem) (config_path : option string) (mode : option string)
    : filesystem * (string * string) :=
  let config_path := default "" config_path in
  let mode := default (mode_default create_extension_config_tool) mode in
  let path := if Py.truthy config_path then config_path else "extension_config.yaml" in
  create_extension_config cwd template fs path (Some mode).

(** The tool [apply_patch(repo_root, patches=None, mode="dry_run")]. *)
Definition run_apply_patch (repo_root : Path.t) (fs : filesystem)
    (patches : option (list PatchEngine.patch)) (mode : option string) : PatchEngine.outcome :=
  let mode := default (mode_default apply_patch) mode in
  PatchEngine.apply_patches repo_root fs (default [] patches) (Some mode).

(** The tool [extract_to_lib(repo_root, clusters=None, cluster_indices=None,
    mode="dry_run", same_name_only=True)]. *)
Definition run_extract_to_lib (ast_parse : string -> option Ast.module)
    (scan_py_files : Path.t -> filesystem -> list string)
    (repo_root : Path.t) (fs : filesystem)
    (clusters : option (list cluster)) (cluster_indices : option (list Z))
    (mode : option string) (same_name_only : option bool) : result Extract.extraction :=
  let mode := default (mode_default extract_to_lib) mode in
  let same_name_only := default true same_name_only in
  Extract.extract ast_parse scan_py_files repo_root fs clusters cluster_indices
                  (Some mode) (Some same_name_only).

End Server.

(** ** Predicates and further operations

    The predicates the later properties are stated with, and two more
    operations of the code: the tool [analyze_duplicates] and
    [_append_to_layout]. *)

(** The three library modules the proposer chooses from. *)
Definition lib_modules : list string := ["lib/utils.py"; "lib/io.py"; "lib/ui.py"].

(** A patch the extraction engine made for a script: its path passes the
    containment check, it carries the new text, and its risk is [high]. *)
Definition script_patch_ok (repo_root : Path.t) (p : PatchEngine.patch) : Prop :=
  PatchEngine.inside_repo repo_root (PatchEngine.path p) = true
  /\ PatchEngine.risk p = "high"
  /\ is_Some (PatchEngine.content p).

(** The state of the loop of [extract]: one extracted entry per script
    patch, in step, and library modules among [lib_modules] only. *)
Definition extract_invariant (repo_root : Path.t) (st : Extract.state) : Prop :=
  map PatchEngine.path (Extract.script_patches st) = map Extract.e_script (Extract.extracted st)
  /\ Forall (script_patch_ok repo_root) (Extract.script_patches st)
  /\ Forall (fun e => Extract.e_module e ∈ lib_modules) (Extract.extracted st)
  /\ Forall (fun kv => fst kv ∈ lib_modules) (Extract.lib_contents st).

(** The clusters [extract] works on: the ones it is given, or a fresh
    analysis ([if clusters is None]). *)
Definition clusters_of_call (ast_parse : string -> option Ast.module)
    (scan_py_files : Path.t -> filesystem -> list string)
    (repo_root : Path.t) (fs : filesystem)
    (clusters : option (list cluster)) (same_name_only : option bool) : list cluster :=
  match clusters with
  | Some cs => cs
  | None => fst (Dup.analyze ast_parse scan_py_files repo_root fs None None
                             (default true same_name_only))
  end.


(** A text without any line boundary of [str.splitlines]: what one
    element of [s.splitlines()] is. *)
Fixpoint no_linebreak (s : string) : bool :=
  match s with
  | "" => true
  | String c s' => negb (Py.is_linebreak c) && no_linebreak s'
  end.

(** The lines [apply_patches] recovers from the diff
    [_make_unified_diff] makes of [old_lines] and [new_lines]: the new
    lines that are no line of the old text and do not begin with two
    plus signs. *)
Definition added_lines (old_lines new_lines : list string) : list string :=
  List.filter (fun l => negb (bool_decide (l ∈ old_lines)) && negb (Py.startswith l "++"))
              new_lines.

(** What [propose] keeps of every entry of its mapping: the module is
    the one chosen from the scripts of the entry, there are two scripts
    or more, [mixed_names] is given exactly when the names differ, and
    with [same_name_only] they do not. *)
Definition entry_ok (same_name_only : bool) (m : LibStructure.mapping_entry) : Prop :=
  LibStructure.suggested_module m = LibStructure.choose_module (LibStructure.from_scripts m)
  /\ 2 <= length (LibStructure.from_scripts m)
  /\ (LibStructure.same_name m = true <-> LibStructure.mixed_names m = None)
  /\ (same_name_only = true -> LibStructure.same_name m = true).

(** The tool [analyze_duplicates(repo_root, script_paths=None, limit=0,
    summary_only=False, same_name_only=False)] of [server.py]: the
    analyzer is called with [limit or None], and the result is the two
    counts or the clusters and findings. *)
Inductive analysis_result : Type :=
| Summary (clusters_count total_duplicates : nat)
| Full (clusters : list cluster) (findings : list finding).

Definition run_analyze_duplicates (ast_parse : string -> option Ast.module)
    (scan_py_files : Path.t -> filesystem -> list string)
    (repo_root : Path.t) (fs : filesystem)
    (script_paths : option (list string)) (limit : option Z)
    (summary_only same_name_only : option bool) : analysis_result :=
  let limit := default 0%Z limit in
  let summary_only := default false summary_only in
  let same_name_only := default false same_name_only in
  let '(clusters, findings) :=
    Dup.analyze ast_parse scan_py_files repo_root fs script_paths
                (if (limit =? 0)%Z then None else Some limit) same_name_only in
  if summary_only
  then Summary (length clusters) (list_sum (map (fun c => length (locations c)) clusters))
  else Full clusters findings.

(** ** [_append_to_layout] of [foundry_core/engine/extension_creator.py] *)

Module ExtensionCreator.

(** How the first loop over the lines ends: with the index at which the
    new line is inserted, or without an insertion and with the value of
    [in_layout] at that point (the end of the lines, or the [break]). *)
Inductive scan_end : Type :=
| InsertAt (i : nat)
| NoInsert (in_layout : bool).

(** [for i, line in enumerate(lines)], from index [i] on. *)
Fixpoint first_loop (in_layout : bool) (i : nat) (lines : list string) : scan_end :=
  match lines with
  | [] => NoInsert in_layout
  | line :: rest =>
      let s := Py.strip line in
      if Py.startswith s "layout:" then first_loop true (S i) rest
      else if in_layout then
        if Py.truthy s && negb (Py.startswith s "-") then NoInsert true
        else if Py.startswith s "-" then first_loop in_layout (S i) rest
        else if negb (Py.truthy s) then InsertAt i
        else first_loop in_layout (S i) rest
      else first_loop in_layout (S i) rest
  end.

(** [for i in range(len(lines) - 1, -1, -1)]: the last index, counted
    from [i], of a line that reads as a list item. *)
Fixpoint last_dash (i : nat) (lines : list string) : option nat :=
  match lines with
  | [] => None
  | line :: rest =>
      match last_dash (S i) rest with
      | Some j => Some j
      | None => if Py.startswith (Py.strip line) "-" then Some i else None
      end
  end.

(** [lines.insert(i, x)] for an index within the list. *)
Definition list_insert_at {A : Type} (i : nat) (x : A) (l : list A) : list A :=
  firstn i l ++ x :: skipn i l.

(** The line [f"{indent}{item}\n"]. *)
Definition layout_line (item : string) : string := "  - " +:+ item +:+ Py.newline.

(** Append item to layout list in bundle.yaml. Returns True if updated. *)
Definition _append_to_layout (fs : filesystem) (yaml_path : Path.t) (item : string)
    : bool * filesystem :=
  if negb (FS.exists_ fs yaml_path) then (false, fs)
  else
    match FS.read_text fs yaml_path with
    | None => (false, fs)
    | Some text =>
        if negb (Py.contains "layout:" text) then (false, fs)
        else
          let new_line := layout_line item in
          if Py.contains (Py.strip new_line) text then (false, fs)
          else
            let lines := Py.splitlines text in
            let write i :=
              let lines := list_insert_at i (Py.rstrip new_line) lines in
              (true, FS.write_text fs yaml_path (Py.join Py.newline lines +:+ Py.newline)) in
            match first_loop false 0 lines with
            | InsertAt i => write i
            | NoInsert in_layout =>
                if in_layout then
                  match last_dash 0 lines with
                  | Some i => write (i + 1)
                  | None => (false, fs)
                  end
                else (false, fs)
            end
    end.

End ExtensionCreator.

(** A location whose script, if any, passes the containment check. *)
Definition script_inside (repo_root : Path.t) (loc : location) : Prop :=
  forall sp, script loc = Some sp -> PatchEngine.inside_repo repo_root sp = true.

(** A text of lowercase hexadecimal digits, as [hexdigest] returns. *)
Definition is_hex_digit (c : ascii) : bool :=
  let n := Py.code c in
  ((48 <=? n) && (n <=? 57)) || ((97 <=? n) && (n <=? 102)).

Fixpoint all_hex (s : string) : bool :=
  match s with
  | "" => true
  | String c s' => is_hex_digit c && all_hex s'
  end.

(** ** Writes that can fail

    [mkdir] and [write_text] succeed or raise as the operating system
    decides (a directory in the way, a parent that is a regular file, a
    read-only file, ...).  A run asks the environment once per operation:
    its answer to the [k]-th operation of the run is [None] for success
    or the exception raised.  Here a refused operation changes no file;
    the properties proved of a run that raises claim this of the files
    other than the target only. *)

Module IO.

Definition environment : Type := nat -> option exn.

(** The files and the number of operations asked so far. *)
Record world := World { w_files : filesystem; w_clock : nat }.

(** A computation: from a world to the world afterwards and the value
    returned or the exception raised. *)
Definition t (A : Type) : Type := world -> world * result A.

Definition ret {A : Type} (a : A) : t A := fun w => (w, Ok a).

Definition bind {A B : Type} (m : t A) (k : A -> t B) : t B :=
  fun w =>
    match m w with
    | (w', Ok a) => k a w'
    | (w', Raise e) => (w', Raise e)
    end.

(** A computation that reads only. *)
Definition read {A : Type} (f : filesystem -> result A) : t A :=
  fun w => (w, f (w_files w)).

(** [p.mkdir(parents=True, exist_ok=True)]; directories are implicit in
    the file system, so a successful call changes no file. *)
Definition mkdir (env : environment) (p : Path.t) : t unit :=
  fun w =>
    let w' := World (w_files w) (S (w_clock w)) in
    match env (w_clock w) with
    | Some e => (w', Raise e)
    | None => (w', Ok tt)
    end.

(** [p.write_text(content)] *)
Definition write_text (env : environment) (p : Path.t) (content : string) : t unit :=
  fun w =>
    match env (w_clock w) with
    | Some e => (World (w_files w) (S (w_clock w)), Raise e)
    | None => (World (FS.write_text (w_files w) p content) (S (w_clock w)), Ok tt)
    end.

End IO.

Notation "'do*' x := m 'in' k" := (IO.bind m (fun x => k))
  (at level 10, x name, m at level 100, k at level 200).

(** [p.parent] *)
Definition path_parent (p : Path.t) : Path.t :=
  Path.Mk (Path.anchor p) (removelast (Path.parts p)).

(** ** [apply_patches] with writes that can fail *)

Module PatchEngineIO.
Import PatchEngine.

(** The body of the loop of [apply_patches]; [acc] is the pair of the
    lists [applied] and [errors]. *)
Definition apply_one (env : IO.environment) (repo_root : Path.t) (mode : string)
    (acc : list string * list string) (p : patch) : IO.t (list string * list string) :=
  let target := Path.joinpath repo_root (path p) in
  if negb (inside_repo repo_root (path p)) then
    IO.ret (fst acc, snd acc ++ ["Skipped " +:+ path p +:+ ": outside repo"])
  else if String.eqb mode "write" then
    do* _ := IO.mkdir env (path_parent target) in
    do* _ := IO.write_text env target (written_content p) in
    IO.ret (fst acc ++ [path p], snd acc)
  else
    IO.ret (fst acc ++ [path p +:+ " (dry-run)"], snd acc).

Fixpoint apply_loop (env : IO.environment) (repo_root : Path.t) (mode : string)
    (patches : list patch) (acc : list string * list string)
    : IO.t (list string * list string) :=
  match patches with
  | [] => IO.ret acc
  | p :: rest =>
      do* acc' := apply_one env repo_root mode acc p in
      apply_loop env repo_root mode rest acc'
  end.

(** [apply_patches(patches, mode="dry_run")]: returns [(applied, errors)]
    or raises at the first write the environment refuses. *)
Definition apply_patches (env : IO.environment) (repo_root : Path.t)
    (patches : list patch) (mode : option string) : IO.t (list string * list string) :=
  apply_loop env repo_root (default "dry_run" mode) patches ([], []).

End PatchEngineIO.

(** ** [extract] with writes that can fail *)

Module ExtractIO.

(** [extract(clusters=None, cluster_indices=None, mode="dry_run",
    same_name_only=True)]: the patches are made from what is read, and in
    write mode they are handed to [apply_patches]; [x_files] holds the
    files at the return. *)
Definition extract (env : IO.environment) (ast_parse : string -> option Ast.module)
    (scan_py_files : Path.t -> filesystem -> list string) (repo_root : Path.t)
    (clusters : option (list cluster)) (cluster_indices : option (list Z))
    (mode : option string) (same_name_only : option bool) : IO.t Extract.extraction :=
  let mode := default "dry_run" mode in
  let same_name_only := default true same_name_only in
  do* clusters :=
    IO.read (fun fs =>
      Ok match clusters with
         | Some cs => cs
         | None => fst (Dup.analyze ast_parse scan_py_files repo_root fs None None same_name_only)
         end) in
  do* proposal :=
    IO.read (fun fs =>
      Ok (LibStructure.propose ast_parse scan_py_files repo_root fs (Some clusters) false)) in
  let mapping := LibStructure.mapping proposal in
  do* st :=
    IO.read (fun fs =>
      Extract.run_clusters ast_parse repo_root fs mapping cluster_indices 0 clusters
                           (Extract.State [] [] [] [])) in
  do* lib_patches :=
    IO.read (fun fs => Extract.lib_patches_of repo_root fs (Extract.lib_contents st)) in
  let patches := lib_patches ++ Extract.script_patches st in
  if String.eqb mode "write" then
    do* r := PatchEngineIO.apply_patches env repo_root patches (Some "write") in
    fun w =>
      (w, Ok (Extract.Extraction patches (Extract.extracted st)
                                 (Extract.errors st ++ snd r) (IO.w_files w)))
  else
    fun w =>
      (w, Ok (Extract.Extraction patches (Extract.extracted st) (Extract.errors st)
                                 (IO.w_files w))).

End ExtractIO.

(** ** [foundry_core/engine/extension_creator.py] and the tools of
    [foundry_mcp/server.py] that write *)

Module Creator.

(** A button of a pulldown or an item of a stack: a dictionary with the
    keys [name], [type] and [doc], each of which may be missing. *)
Record entry := Entry {
  e_name : option string;
  e_type : option string;
  e_doc : option string
}.

(** The list under [buttons] or [items]: names or dictionaries. *)
Inductive entries : Type :=
| Names (l : list string)
| Dicts (l : list entry).

(** An item of a panel, a panel and a tab of the configuration. *)
Record item := Item {
  i_name : option string;
  i_type : option string;
  i_buttons : option entries;
  i_items : option entries
}.

Record panel := Panel {
  p_name : option string;
  p_items : option (list item)
}.

Record tab := Tab {
  t_name : option string;
  t_panels : option (list panel)
}.

(** The dictionary [load_extension_config] returns. *)
Record config := Config {
  cfg_extension_name : option string;
  cfg_output_path : option string;
  cfg_tabs : option (list tab);
  cfg_author : option string;
  cfg_description : option string
}.

(** An entry of [inv["bundles"]]: [{path, name, bundle_yaml}]. *)
Record bundle := Bundle {
  b_path : string;
  b_name : string;
  b_bundle_yaml : bool
}.

(** What the tools read through other modules: the indexers and
    analyzers of [foundry_core], the template directory and the parsers
    of configuration files.  Each returns or raises as a function of the
    files; none of them writes. *)
Record readers := Readers {
  inferred : Type;
  audit_finding : Type;
  (** [RepoIndexer(root).scan()["bundles"]] and [...["py_files"]] *)
  scan_bundles : Path.t -> filesystem -> result (list bundle);
  scan_scripts : Path.t -> filesystem -> result (list string);
  (** [BundleYamlAnalyzer(root)] *)
  infer_bundle_yaml : Path.t -> filesystem -> string -> string -> result inferred;
  generate_yaml_content : inferred -> result string;
  (** [_get_core_path(root)] *)
  get_core_path : Path.t -> filesystem -> result (option string);
  (** [ImportAuditAnalyzer(root, core).audit(script_paths)] and
      [f.get("name")] *)
  audit : Path.t -> option string -> filesystem -> list string -> result (list audit_finding);
  finding_name : audit_finding -> option string;
  (** [CoreIndexer(core).index()["git_sha"]] *)
  git_sha : string -> filesystem -> result (option string);
  (** [_load_template(name)] and [get_extension_config_template()] *)
  load_template : filesystem -> string -> result string;
  get_extension_config_template : filesystem -> result string;
  (** [load_extension_config(config_path)] from the working directory *)
  load_extension_config : list string -> filesystem -> string -> result config;
  (** [json.loads(tabs)]; [Raise] stands for [JSONDecodeError] *)
  json_loads : string -> result (list tab)
}.

(** [a or b] on strings, and on a value read with [dict.get]. *)
Definition or_ (a b : string) : string := if Py.truthy a then a else b.

Definition get_or (a : option string) (b : string) : string :=
  match a with
  | Some s => or_ s b
  | None => b
  end.

(** [template.replace("{{" + k + "}}", str(v))] for every keyword. *)
Definition _render (template : string) (kwargs : list (string * string)) : string :=
  fold_left (fun t kv => Py.replace ("{{" +:+ fst kv +:+ "}}") (snd kv) t) kwargs template.

(** [buttons = [{"name": b} for b in buttons]] when the first is a name. *)
Definition button_dicts (b : option entries) : list entry :=
  match b with
  | None => []
  | Some (Names l) => map (fun b => Entry (Some b) None None) l
  | Some (Dicts l) => l
  end.

(** [[{"name": b, "type": "pushbutton"} for b in stack_items]] *)
Definition stack_dicts (b : option entries) : list entry :=
  match b with
  | None => []
  | Some (Names l) => map (fun b => Entry (Some b) (Some "pushbutton") None) l
  | Some (Dicts l) => l
  end.

(** The paths a dry run lists for the pushbutton at [rel]. *)
Definition pushbutton_files (rel : string) (include_help : bool) : list string :=
  [rel +:+ "/script.py"; rel +:+ "/bundle.yaml"]
  ++ (if include_help then [rel +:+ "/help.html"] else []).

(** The statements of a [try] block that fill the list [created]: from
    the list and the world so far to the world and the list afterwards,
    and the exception that ended the block, if any. *)
Definition block : Type := list string -> IO.world -> IO.world * (list string * option exn).

Definition skip : block := fun created w => (w, (created, None)).

Definition seq (b1 b2 : block) : block :=
  fun created w =>
    match b1 created w with
    | (w', (created', None)) => b2 created' w'
    | r => r
    end.

(** [created.extend(xs)] and [created.append(x)] *)
Definition append (xs : list string) : block := fun created w => (w, (created ++ xs, None)).

(** [created.extend(m(...))] for a call that may raise. *)
Definition extend (m : IO.t (list string)) : block :=
  fun created w =>
    match m w with
    | (w', Ok xs) => (w', (created ++ xs, None))
    | (w', Raise e) => (w', (created, Some e))
    end.

(** A call made for its effect. *)
Definition exec (m : IO.t unit) : block :=
  fun created w =>
    match m w with
    | (w', Ok _) => (w', (created, None))
    | (w', Raise e) => (w', (created, Some e))
    end.

Fixpoint for_each {A : Type} (f : A -> block) (l : list A) : block :=
  match l with
  | [] => skip
  | a :: rest => seq (f a) (for_each f rest)
  end.

(** [errors] after the block: [errors.append(str(e))]. *)
Definition errors_of (e : option exn) : list string :=
  match e with
  | Some e => [exn_message e]
  | None => []
  end.

Section WithEnvironment.

Variable env : IO.environment.
Variable R : readers.

Definition _load_template (name : string) : IO.t string :=
  IO.read (fun fs => load_template R fs name).

Definition _ensure_dir (path : Path.t) : IO.t unit := IO.mkdir env path.

(** [create_extension_config(config_path, mode="write")]: returns the
    fields [config_path] and [mode] of the result. *)
Definition create_extension_config (cwd : list string) (config_path : string)
    (mode : option string) : IO.t (string * string) :=
  let mode := default "write" mode in
  let path := Path.resolve_from cwd (Path.parse config_path) in
  do* content := IO.read (get_extension_config_template R) in
  do* _ :=
    if String.eqb mode "write" then
      do* _ := IO.mkdir env (path_parent path) in
      IO.write_text env path content
    else IO.ret tt in
  IO.ret (Path.str path, mode).

(** Create a pushbutton bundle. Returns list of created paths (relative). *)
Definition _create_pushbutton (root : Path.t) (rel_path name author doc : string)
    (include_help : bool) : IO.t (list string) :=
  let folder := Path.joinpath root rel_path in
  do* _ := _ensure_dir folder in
  do* template := _load_template "script.py" in
  let script_content :=
    _render template [("title", name); ("author", or_ author "pyRevit"); ("doc", or_ doc name)] in
  do* _ := IO.write_text env (Path.joinpath folder "script.py") script_content in
  let created := [rel_path +:+ "/script.py"] in
  do* template := _load_template "bundle_pushbutton.yaml" in
  let yaml_content := _render template [("title", name); ("tooltip", or_ doc name)] in
  do* _ := IO.write_text env (Path.joinpath folder "bundle.yaml") yaml_content in
  let created := created ++ [rel_path +:+ "/bundle.yaml"] in
  if include_help then
    do* template := _load_template "help.html" in
    let help_content := _render template [("title", name); ("doc", or_ doc name)] in
    do* _ := IO.write_text env (Path.joinpath folder "help.html") help_content in
    IO.ret (created ++ [rel_path +:+ "/help.html"])
  else IO.ret created.

(** The loop over the nested pushbuttons of a pulldown or a stack;
    [doc_of] gives the [doc] argument of a button. *)
Fixpoint nested_pushbuttons (root : Path.t) (rel_path author : string) (include_help : bool)
    (name_of : entry -> string) (doc_of : entry -> string)
    (created : list string) (buttons : list entry) : IO.t (list string) :=
  match buttons with
  | [] => IO.ret created
  | btn :: rest =>
      let btn_name := name_of btn in
      let btn_rel := rel_path +:+ "/" +:+ btn_name +:+ ".pushbutton" in
      do* c := _create_pushbutton root btn_rel btn_name author (doc_of btn) include_help in
      nested_pushbuttons root rel_path author include_help name_of doc_of (created ++ c) rest
  end.

(** Create a pulldown bundle with nested pushbuttons. Returns created paths. *)
Definition _create_pulldown (root : Path.t) (rel_path name : string) (buttons : list entry)
    (author : string) (include_help : bool) : IO.t (list string) :=
  let folder := Path.joinpath root rel_path in
  do* _ := _ensure_dir folder in
  let btn_name := fun btn => default "Button" (e_name btn) in
  let layout_lines := map (fun btn => "  - " +:+ btn_name btn) buttons in
  do* template := _load_template "bundle_pulldown.yaml" in
  let yaml_content := _render template [("layout", Py.join Py.newline layout_lines)] in
  do* _ := IO.write_text env (Path.joinpath folder "bundle.yaml") yaml_content in
  nested_pushbuttons root rel_path author include_help
                     btn_name (fun btn => default (btn_name btn) (e_doc btn))
                     [rel_path +:+ "/bundle.yaml"] buttons.

(** Create a stack bundle with nested pushbuttons. Returns created paths.
    The items are dictionaries; [normalized] fills in their defaults. *)
Definition _create_stack (root : Path.t) (rel_path name : string) (items : list entry)
    (author : string) (include_help : bool) : IO.t (list string) :=
  let folder := Path.joinpath root rel_path in
  do* _ := _ensure_dir folder in
  let normalized :=
    map (fun it => Entry (Some (default "Item" (e_name it)))
                         (Some (default "pushbutton" (e_type it)))
                         (Some (default "" (e_doc it)))) items in
  let it_name := fun it => default "" (e_name it) in
  let layout_lines := map (fun it => "  - " +:+ it_name it) normalized in
  do* template := _load_template "bundle_stack.yaml" in
  let yaml_content := _render template [("layout", Py.join Py.newline layout_lines)] in
  do* _ := IO.write_text env (Path.joinpath folder "bundle.yaml") yaml_content in
  nested_pushbuttons root rel_path author include_help
                     it_name (fun it => or_ (default "" (e_doc it)) (it_name it))
                     [rel_path +:+ "/bundle.yaml"]
                     (List.filter (fun it => bool_decide (e_type it = Some "pushbutton"))
                                  normalized).

(** What [create_extension] returns: the request to customize the
    configuration, the errors of a configuration that could not be read
    (or of [tabs] that could not be parsed), or the report of the
    creation. *)
Inductive creation : Type :=
| NotCustomized (mode config_path : string)
| Failed (errors : list string) (mode : string)
| Created (extension_path : string) (created errors : list string) (mode : string).

Section CreateExtension.

Variable ext_folder : Path.t.
Variable include_help : bool.
Variable do_write : bool.

(** The paths of the nested pushbuttons as a dry run lists them. *)
Definition nested_files (rel : string) (l : list entry) : list string :=
  flat_map (fun btn =>
              let bn := default "Button" (e_name btn) in
              pushbutton_files (rel +:+ "/" +:+ bn +:+ ".pushbutton") include_help) l.

Definition process_item (parent_rel : string) (it : item) (author_val : string) : block :=
  let name := default "Item" (i_name it) in
  let itype := default "pushbutton" (i_type it) in
  if String.eqb itype "pushbutton" then
    let rel := parent_rel +:+ "/" +:+ name +:+ ".pushbutton" in
    if do_write then
      extend (_create_pushbutton ext_folder rel name author_val "" include_help)
    else append (pushbutton_files rel include_help)
  else if String.eqb itype "pulldown" then
    let rel := parent_rel +:+ "/" +:+ name +:+ ".pulldown" in
    let buttons := button_dicts (i_buttons it) in
    if do_write then
      extend (_create_pulldown ext_folder rel name buttons author_val include_help)
    else append ((rel +:+ "/bundle.yaml") :: nested_files rel buttons)
  else if String.eqb itype "stack" then
    let rel := parent_rel +:+ "/" +:+ name +:+ ".stack" in
    let stack_items := stack_dicts (i_items it) in
    if do_write then
      extend (_create_stack ext_folder rel name stack_items author_val include_help)
    else append ((rel +:+ "/bundle.yaml") :: nested_files rel stack_items)
  else skip.

(** The lines of the layout of a panel: one per item of a known type. *)
Definition panel_layout (items : list item) : list string :=
  flat_map (fun it =>
              let name := default "Item" (i_name it) in
              let itype := default "pushbutton" (i_type it) in
              if bool_decide (itype ∈ ["pushbutton"; "pulldown"; "stack"])
              then ["  - " +:+ name] else []) items.

Definition process_panel (tab_rel author : string) (p : panel) : block :=
  let panel_name := default "Panel" (p_name p) in
  let panel_rel := tab_rel +:+ "/" +:+ panel_name +:+ ".panel" in
  let items := default [] (p_items p) in
  seq (if do_write then exec (IO.mkdir env (Path.joinpath ext_folder panel_rel)) else skip)
      (let layout_lines := panel_layout items in
       seq (match layout_lines with
            | [] => skip
            | _ =>
                seq (append [panel_rel +:+ "/bundle.yaml"])
                    (if do_write then
                       exec (do* template := _load_template "bundle_panel.yaml" in
                             let panel_yaml :=
                               _render template [("layout", Py.join Py.newline layout_lines)] in
                             IO.write_text env
                               (Path.joinpath (Path.joinpath ext_folder panel_rel) "bundle.yaml")
                               panel_yaml)
                     else skip)
            end)
           (for_each (fun it => process_item panel_rel it author) items)).

Definition process_tab (author : string) (t : tab) : block :=
  let tab_name := default "Tab" (t_name t) in
  let tab_rel := tab_name +:+ ".tab" in
  for_each (process_panel tab_rel author) (default [] (t_panels t)).

(** The [try] block of [create_extension]. *)
Definition create_block (extension_name : string) (tabs : list tab)
    (author description : string) : block :=
  seq (if do_write then exec (_ensure_dir ext_folder) else skip)
      (seq (for_each (process_tab author) tabs)
           (seq (append ["extensions.json"])
                (if do_write then
                   exec (do* template := _load_template "extensions.json" in
                         let ext_json :=
                           _render template [("name", extension_name);
                                             ("description", or_ description extension_name);
                                             ("author", or_ author "pyRevit")] in
                         IO.write_text env (Path.joinpath ext_folder "extensions.json") ext_json)
                 else skip))).

End CreateExtension.

(** The arguments after the configuration file has been read. *)
Record settings := Settings {
  s_extension_name : string;
  s_output_path : string;
  s_tabs : list tab;
  s_author : string;
  s_description : string
}.

Definition with_config (cfg : config) (s : settings) : settings :=
  Settings (get_or (cfg_extension_name cfg) (s_extension_name s))
           (get_or (cfg_output_path cfg) (or_ (s_output_path s) "."))
           (match cfg_tabs cfg with
            | Some (t :: l) => t :: l
            | _ => s_tabs s
            end)
           (get_or (cfg_author cfg) (s_author s))
           (get_or (cfg_description cfg) (s_description s)).

(** [not out_str or "path/to/output" in out_str.lower()] *)
Definition not_customized (output_path : string) : bool :=
  let out_str := Py.strip output_path in
  negb (Py.truthy out_str) || Py.contains "path/to/output" (Py.lower out_str).

(** [create_extension(output_path, extension_name, tabs, author,
    description, include_help, mode="dry_run", config_path)] *)
Definition create_extension (cwd : list string) (output_path extension_name : string)
    (tabs : list tab) (author description : string) (include_help : bool)
    (mode : option string) (config_path : option string) : IO.t creation :=
  let mode := default "dry_run" mode in
  let given := Settings extension_name output_path tabs author description in
  let create (s : settings) : IO.t creation :=
    let root := Path.resolve_from cwd (Path.parse (s_output_path s)) in
    let ext_folder := Path.joinpath root (s_extension_name s +:+ ".extension") in
    let do_write := String.eqb mode "write" in
    fun w =>
      let '(w', (created, e)) :=
        create_block ext_folder include_help do_write (s_extension_name s) (s_tabs s)
                     (s_author s) (s_description s) [] w in
      (w', Ok (Created (Path.str ext_folder) created (errors_of e) mode)) in
  match config_path with
  | Some cp =>
      if Py.truthy cp then
        fun w =>
          match load_extension_config R cwd (IO.w_files w) cp with
          | Raise e => (w, Ok (Failed [exn_message e] mode))
          | Ok cfg =>
              let s := with_config cfg given in
              if not_customized (s_output_path s) then (w, Ok (NotCustomized mode cp))
              else create s w
          end
      else create given
  | None => create given
  end.

(** What [add_button] returns. *)
Record addition := Addition {
  button_path : string;
  a_created : list string;
  a_errors : list string;
  a_mode : string;
  layout_updated : bool
}.

(** [_append_to_layout(yaml_path, item)]: the text is worked out from
    the file as read, and the one write it asks for can be refused. *)
Definition _append_to_layout (yaml_path : Path.t) (item : string) : IO.t bool :=
  fun w =>
    match ExtensionCreator._append_to_layout (IO.w_files w) yaml_path item with
    | (true, fs') =>
        match env (IO.w_clock w) with
        | Some e => (IO.World (IO.w_files w) (S (IO.w_clock w)), Raise e)
        | None => (IO.World fs' (S (IO.w_clock w)), Ok true)
        end
    | (false, _) => (w, Ok false)
    end.

(** [add_button(repo_root, target, button_name, author, doc,
    include_help, update_layout, mode="dry_run")] *)
Definition add_button (cwd : list string) (repo_root target button_name author doc : string)
    (include_help update_layout : bool) (mode : option string) : IO.t addition :=
  let mode := default "dry_run" mode in
  let root := Path.resolve_from cwd (Path.parse repo_root) in
  let rel_path := target +:+ "/" +:+ button_name +:+ ".pushbutton" in
  let path := Path.str (Path.joinpath root rel_path) in
  let do_write := String.eqb mode "write" in
  fun w =>
    if do_write then
      match seq (exec (_ensure_dir (Path.joinpath root rel_path)))
                (extend (_create_pushbutton root rel_path button_name author
                                            (or_ doc button_name) include_help)) [] w with
      | (w1, (created, Some e)) => (w1, Ok (Addition path created [exn_message e] mode false))
      | (w1, (created, None)) =>
          if update_layout then
            let parent_yaml := Path.joinpath (Path.joinpath root target) "bundle.yaml" in
            match _append_to_layout parent_yaml button_name w1 with
            | (w2, Ok updated) => (w2, Ok (Addition path created [] mode updated))
            | (w2, Raise e) => (w2, Ok (Addition path created [exn_message e] mode false))
            end
          else (w1, Ok (Addition path created [] mode false))
      end
    else
      (w, Ok (Addition path (pushbutton_files rel_path include_help) [] mode false)).

(** *** The tools of [server.py] *)

(** [_get_repo_root(repo_root or None)], as a text. *)
Definition _get_repo_root (cwd : list string) (repo_root : string) : Path.t :=
  if Py.truthy repo_root then Path.resolve_from cwd (Path.parse repo_root)
  else Path.Mk "/" cwd.

(** The loop of [generate_bundle_yaml] over the bundles. *)
Fixpoint generate_loop (root : Path.t) (fs : filesystem) (bundle_paths : list string)
    (bundles : list bundle)
    (acc : list PatchEngine.patch * list (string * inferred R))
    : result (list PatchEngine.patch * list (string * inferred R)) :=
  match bundles with
  | [] => Ok acc
  | b :: rest =>
      if match bundle_paths with
         | [] => false
         | _ => negb (bool_decide (b_path b ∈ bundle_paths))
         end
      then generate_loop root fs bundle_paths rest acc
      else if b_bundle_yaml b then generate_loop root fs bundle_paths rest acc
      else
        let* inferred := infer_bundle_yaml R root fs (b_path b) (b_name b) in
        let* content := generate_yaml_content R inferred in
        let yaml_path := Path.str (Path.joinpath (Path.parse (b_path b)) "bundle.yaml") in
        let* patch := PatchEngine.create_add_file_patch root yaml_path content "low" in
        generate_loop root fs bundle_paths rest
                      (fst acc ++ [patch], snd acc ++ [(b_path b, inferred)])
  end.

(** The tool [generate_bundle_yaml(repo_root="", bundle_paths=None,
    mode="dry_run")]: returns the patches and the findings. *)
Definition run_generate_bundle_yaml (cwd : list string) (repo_root : option string)
    (bundle_paths : option (list string)) (mode : option string)
    : IO.t (list PatchEngine.patch * list (string * inferred R)) :=
  let mode := default (Server.mode_default Server.generate_bundle_yaml) mode in
  let root := _get_repo_root cwd (default "" repo_root) in
  do* bundles := IO.read (scan_bundles R root) in
  do* r := IO.read (fun fs => generate_loop root fs (default [] bundle_paths) bundles ([], [])) in
  do* _ :=
    if String.eqb mode "write" then
      do* _ := PatchEngineIO.apply_patches env root (fst r) (Some "write") in
      IO.ret tt
    else IO.ret tt in
  IO.ret r.

(** The tool [import_audit_with_core(repo_root="", script_paths=None,
    core_root=None, allowlist=None, mode="dry_run")]: returns the
    findings, the patches and the core version.  [mode] is not read. *)
Definition run_import_audit_with_core (cwd : list string) (repo_root : option string)
    (script_paths : option (list string)) (core_root : option string)
    (allowlist : option (list string)) (mode : option string)
    : IO.t (list (audit_finding R) * list PatchEngine.patch * option string) :=
  let root := _get_repo_root cwd (default "" repo_root) in
  do* core :=
    match core_root with
    | Some c => if Py.truthy c then IO.ret (Some c) else IO.read (get_core_path R root)
    | None => IO.read (get_core_path R root)
    end in
  do* script_paths :=
    match script_paths with
    | Some (p :: l) => IO.ret (p :: l)
    | _ => IO.read (scan_scripts R root)
    end in
  do* findings := IO.read (fun fs => audit R root core fs script_paths) in
  let findings :=
    match allowlist with
    | Some (a :: l) =>
        List.filter (fun f => match finding_name R f with
                              | Some n => negb (bool_decide (n ∈ a :: l))
                              | None => true
                              end) findings
    | _ => findings
    end in
  do* core_version :=
    match core with
    | Some c => if Py.truthy c then IO.read (git_sha R c) else IO.ret None
    | None => IO.ret None
    end in
  IO.ret (findings, [], core_version).

(** The tool [apply_patch(repo_root, patches=None, mode="dry_run")]. *)
Definition run_apply_patch (cwd : list string) (repo_root : string)
    (patches : option (list PatchEngine.patch)) (mode : option string)
    : IO.t (list string * list string) :=
  let mode := default (Server.mode_default Server.apply_patch) mode in
  PatchEngineIO.apply_patches env (_get_repo_root cwd repo_root) (default [] patches)
                              (Some mode).

(** The tool [create_extension_config_tool(config_path="", mode="write")]. *)
Definition run_create_extension_config_tool (cwd : list string)
    (config_path : option string) (mode : option string) : IO.t (string * string) :=
  let config_path := default "" config_path in
  let mode := default (Server.mode_default Server.create_extension_config_tool) mode in
  let path := or_ config_path "extension_config.yaml" in
  create_extension_config cwd path (Some mode).

(** The argument [tabs] of the tool: a list, a JSON text, or nothing. *)
Inductive tabs_argument : Type :=
| TabsList (l : list tab)
| TabsJson (s : string)
| TabsNone.

(** The tool [create_extension(output_path="", extension_name="",
    tabs=None, config_path="", author="", description="",
    include_help=True, mode="dry_run")]. *)
Definition run_create_extension (cwd : list string) (output_path extension_name : string)
    (tabs : tabs_argument) (config_path author description : string) (include_help : bool)
    (mode : option string) : IO.t creation :=
  let mode := default (Server.mode_default Server.create_extension) mode in
  let call (out ext_name : string) (tabs_parsed : list tab) : IO.t creation :=
    create_extension cwd out ext_name tabs_parsed author description include_help (Some mode)
                     (if Py.truthy config_path then Some config_path else None) in
  if Py.truthy config_path then call "." "" []
  else
    let out := Path.str (Path.resolve_from cwd (Path.parse (or_ output_path "."))) in
    match tabs with
    | TabsJson s =>
        match json_loads R s with
        | Ok tabs_parsed => call out extension_name tabs_parsed
        | Raise e => IO.ret (Failed ["tabs must be valid JSON: " +:+ exn_message e] mode)
        end
    | TabsList l => call out extension_name l
    | TabsNone => call out extension_name []
    end.

(** What the tool [add_button] returns: the errors of a call without a
    target or a name, or the report of the engine. *)
Inductive add_button_result : Type :=
| Rejected (errors : list string) (mode : string)
| Added (a : addition).

(** The tool [add_button(repo_root="", target="", button_name="",
    author="", doc="", include_help=True, update_layout=True,
    mode="dry_run")]. *)
Definition run_add_button (cwd : list string) (repo_root target button_name author doc : string)
    (include_help update_layout : bool) (mode : option string) : IO.t add_button_result :=
  let mode := default (Server.mode_default Server.add_button) mode in
  let root := _get_repo_root cwd repo_root in
  if negb (Py.truthy target) || negb (Py.truthy button_name) then
    IO.ret (Rejected ["target and button_name are required"] mode)
  else
    do* a := add_button cwd (Path.str root) target button_name author doc
                        include_help update_layout (Some mode) in
    IO.ret (Added a).

(** The tool [extract_to_lib(repo_root, clusters=None,
    cluster_indices=None, mode="dry_run", same_name_only=True)]. *)
Definition run_extract_to_lib (ast_parse : string -> option Ast.module)
    (scan_py_files : Path.t -> filesystem -> list string)
    (cwd : list string) (repo_root : string)
    (clusters : option (list cluster)) (cluster_indices : option (list Z))
    (mode : option string) (same_name_only : option bool) : IO.t Extract.extraction :=
  let mode := default (Server.mode_default Server.extract_to_lib) mode in
  let same_name_only := default true same_name_only in
  ExtractIO.extract env ast_parse scan_py_files (_get_repo_root cwd repo_root)
                    clusters cluster_indices (Some mode) (Some same_name_only).

End WithEnvironment.

End Creator.

(** A computation that leaves the world as it is: no file changes and
    no write is asked for, whether it returns or raises. *)
Definition silent {A : Type} (m : IO.t A) : Prop := forall w, fst (m w) = w.

(** The same of a block. *)
Definition quiet (b : Creator.block) : Prop := forall created w, fst (b created w) = w.

(** ** The scan of [analyze] with reads and parses that can raise *)

Module DupChecked.
Section WithParser.

(** [script_path.read_text(...)] and [ast.parse(text)]: the text and the
    tree, or the exception raised. *)
Variable read_text : Path.t -> result string.
Variable ast_parse : string -> result Ast.module.

(** [except (SyntaxError, OSError)] *)
Definition caught (e : exn) : bool :=
  match e with
  | SyntaxError _ | OSError _ => true
  | _ => false
  end.

(** Return (line, name, normalized_body) for each function. *)
Definition _extract_functions (script_path : Path.t) : result (list Dup.func_record) :=
  match (let* text := read_text script_path in
         let* tree := ast_parse text in
         Ok (omap Dup.record_of_node (Ast.walk tree))) with
  | Ok records => Ok records
  | Raise e => if caught e then Ok [] else Raise e
  end.

(** The iterations of the two nested loops of [analyze], in order, or
    the exception that ends them. *)
Fixpoint scanned (repo_root : Path.t) (script_paths : list string)
    : result (list (string * Dup.func_record)) :=
  match script_paths with
  | [] => Ok []
  | sp :: rest =>
      let* records := _extract_functions (Path.joinpath repo_root sp) in
      let* its := scanned repo_root rest in
      Ok (map (pair sp) records ++ its)
  end.

(** A script whose read or parse raises [e]. *)
Definition script_raises (repo_root : Path.t) (sp : string) (e : exn) : Prop :=
  read_text (Path.joinpath repo_root sp) = Raise e
  \/ exists text, read_text (Path.joinpath repo_root sp) = Ok text
                  /\ ast_parse text = Raise e.

(** [analyze(script_paths=None, limit=None, same_name_only=False)];
    [inventory] is the list [inv.get("py_files", [])]. *)
Definition analyze (repo_root : Path.t) (inventory : list string)
    (script_paths : option (list string)) (limit : option Z)
    (same_name_only : bool) : result (list cluster * list finding) :=
  let script_paths :=
    match script_paths with
    | Some (sp :: sps) => sp :: sps
    | _ => inventory
    end in
  let* its := scanned repo_root script_paths in
  let d := Dup.hash_to_locs same_name_only its in
  let clusters := Dup.apply_limit limit (Dup.sort_desc (Dup.clusters_of d)) in
  Ok (clusters, map Dup.finding_of clusters).

End WithParser.

(** The reads and parses of a file system in which an existing file can
    be read and a text parses or is a syntax error. *)
Definition read_of (fs : filesystem) (p : Path.t) : result string :=
  match FS.read_text fs p with
  | Some text => Ok text
  | None => Raise (OSError "No such file or directory")
  end.

Definition parse_of (ast_parse : string -> option Ast.module) (text : string)
    : result Ast.module :=
  match ast_parse text with
  | Some tree => Ok tree
  | None => Raise (SyntaxError "invalid syntax")
  end.

End DupChecked.

(** A text without the null character, which [Path.resolve] refuses with
    [ValueError]. *)
Fixpoint no_nul (s : string) : bool :=
  match s with
  | "" => true
  | String c s' => negb (Py.code c =? 0) && no_nul s'
  end.

(** A text without carriage return: what [read_text] returns, which
    reads CR and CR LF as LF. *)
Fixpoint no_cr (s : string) : bool :=
  match s with
  | "" => true
  | String c s' => negb (Py.is_cr c) && no_cr s'
  end.

(** ** Concrete repositories *)

Module Scenario.

Definition nl : string := Py.newline.

(** The repository root [/repo]. *)
Definition repo : Path.t := Path.parse "/repo".

Definition script_a : string := "A.pushbutton/script.py".
Definition script_b : string := "B.pushbutton/script.py".

(** The inventory of a repository whose two bundles hold one entry
    script each. *)
Definition two_scripts (_ : Path.t) (_ : filesystem) : list string := [script_a; script_b].

Definition two_files (text : string) : filesystem :=
  <["/repo/A.pushbutton/script.py" := text]> (<["/repo/B.pushbutton/script.py" := text]> ∅).

(** [def foo(a, b): return a+b] and its tree. *)
Definition src_foo : string := "def foo(a, b): return a+b" +:+ nl.
Definition tree_foo : Ast.module := [Ast.FunctionDef "foo" 2 1 1 [Ast.Return]].

(** A function [foo] with a longer body and its tree. *)
Definition src_foo_long : string :=
  "def foo(a, b):" +:+ nl +:+
  "    x = a" +:+ nl +:+
  "    y = b" +:+ nl +:+
  "    return x + y" +:+ nl.
Definition tree_foo_long : Ast.module :=
  [Ast.FunctionDef "foo" 2 1 4 [Ast.Assign; Ast.Assign; Ast.Return]].

(** A script with a nested definition before a top-level one. *)
Definition src_nested : string :=
  "def outer(a):" +:+ nl +:+
  "    def inner(b):" +:+ nl +:+
  "        x = b" +:+ nl +:+
  "        y = x" +:+ nl +:+
  "        return y" +:+ nl +:+
  "    p = inner(a)" +:+ nl +:+
  "    return p" +:+ nl +:+
  "def top(c):" +:+ nl +:+
  "    u = c" +:+ nl +:+
  "    v = u" +:+ nl +:+
  "    print(v)" +:+ nl +:+
  "    return v" +:+ nl.
Definition tree_nested : Ast.module :=
  [ Ast.FunctionDef "outer" 1 1 7
      [ Ast.FunctionDef "inner" 1 2 5 [Ast.Assign; Ast.Assign; Ast.Return];
        Ast.Assign; Ast.Return ];
    Ast.FunctionDef "top" 1 8 12 [Ast.Assign; Ast.Assign; Ast.Expr; Ast.Return] ].

(** [ast.parse] on the texts above. *)
Definition parse (text : string) : option Ast.module :=
  if String.eqb text src_foo then Some tree_foo
  else if String.eqb text src_foo_long then Some tree_foo_long
  else if String.eqb text src_nested then Some tree_nested
  else None.

(** A path that leaves [/repo] for the sibling directory [/repo2]. *)
Definition sibling : string := "../repo2/x.py".

(** Collaborators of a repository with one bundle that lacks its
    [bundle.yaml] and no configured core. *)
Definition readers : Creator.readers :=
  Creator.Readers string string
    (fun _ _ => Ok [Creator.Bundle "T.tab/P.panel/A.pushbutton" "A.pushbutton" false])
    (fun _ _ => Ok [Scenario.script_a; Scenario.script_b])
    (fun _ _ _ name => Ok name)
    (fun inferred => Ok ("title: " +:+ inferred +:+ Py.newline))
    (fun _ _ => Ok None)
    (fun _ _ _ _ => Ok [])
    (fun f => Some f)
    (fun _ _ => Ok None)
    (fun _ name => Ok ("# {{title}} " +:+ name))
    (fun _ => Ok "extension_name: MyExt")
    (fun _ _ _ => Raise (OSError "Config file not found"))
    (fun _ => Raise (ValueError "Expecting value")).

(** One tab with one panel that holds a pushbutton and a pulldown of
    two buttons. *)
Definition tabs : list Creator.tab :=
  [Creator.Tab (Some "T")
     (Some [Creator.Panel (Some "P")
              (Some [Creator.Item (Some "A") None None None;
                     Creator.Item (Some "M") (Some "pulldown")
                                  (Some (Creator.Names ["X"; "Y"])) None])])].

End Scenario.

(** * Properties *)

(** ** The hash function on its test vectors *)

Lemma sha256_empty :
  Sha256.hexdigest "" = "e3b0c44298fc1c149afbf4c8996fb92427ae41e4649b934ca495991b7852b855".
Proof. vm_compute. reflexivity. Qed.

Lemma sha256_abc :
  Sha256.hexdigest "abc" = "ba7816bf8f01cfea414140de5dae2223b00361a396177a9cb410ff61f20015ad".
Proof. vm_compute. reflexivity. Qed.

Lemma hash_body_long_foo : Dup._hash_body "def(2):assignassignreturn" = "624a3fe7d65d39d5".
Proof. vm_compute. reflexivity. Qed.

(** ** The patch engine *)

Section PatchEngineFacts.
Import PatchEngine.

Variable repo_root : Path.t.
Variable mode : string.

Lemma files_apply_one (st : outcome) (p : patch) :
  files (apply_one repo_root mode st p)
  = if writes repo_root mode p
    then <[FS.key (Path.joinpath repo_root (path p)) := written_content p]> (files st)
    else files st.
Proof.
  unfold apply_one, writes.
  destruct (inside_repo repo_root (path p)); simpl; [|reflexivity].
  destruct (String.eqb mode "write"); reflexivity.
Qed.

Lemma applied_apply_one (st : outcome) (p : patch) :
  applied (apply_one repo_root mode st p) = applied st ++ applied_by repo_root mode p.
Proof.
  unfold apply_one, applied_by.
  destruct (negb (inside_repo repo_root (path p))); simpl; [by rewrite app_nil_r|].
  destruct (String.eqb mode "write"); reflexivity.
Qed.

Lemma errors_apply_one (st : outcome) (p : patch) :
  errors (apply_one repo_root mode st p) = errors st ++ errors_by repo_root p.
Proof.
  unfold apply_one, errors_by.
  destruct (negb (inside_repo repo_root (path p))); simpl; [reflexivity|].
  destruct (String.eqb mode "write"); simpl; by rewrite app_nil_r.
Qed.

Lemma union_insert_l (a m : filesystem) (k v : string) :
  a ∪ <[k:=v]> m = (a ∪ <[k:=v]> ∅) ∪ m.
Proof.
  rewrite <- (assoc_L (∪)). f_equal.
  rewrite !insert_union_singleton_l.
  rewrite (right_id_L ∅ (∪)). reflexivity.
Qed.

(** The files a run leaves depend on the files it starts from only. *)
Lemma files_fold_ext (ps : list patch) (st st' : outcome) :
  files st = files st' ->
  files (fold_left (apply_one repo_root mode) ps st)
  = files (fold_left (apply_one repo_root mode) ps st').
Proof.
  revert st st'. induction ps as [|p ps IH]; intros st st' E; cbn [fold_left]; [exact E|].
  apply IH. rewrite !files_apply_one, E. reflexivity.
Qed.

(** The files after a run are the files it writes, laid over the files
    it started from. *)
Lemma files_fold_union (ps : list patch) (st : outcome) :
  files (fold_left (apply_one repo_root mode) ps st)
  = files (fold_left (apply_one repo_root mode) ps (Outcome ∅ [] [])) ∪ files st.
Proof.
  revert st. induction ps as [|p ps IH]; intros st; cbn [fold_left].
  - simpl. rewrite (left_id_L ∅ (∪)). reflexivity.
  - rewrite IH. rewrite (IH (apply_one _ _ (Outcome ∅ [] []) p)).
    rewrite !files_apply_one. simpl.
    destruct (writes repo_root mode p).
    + apply union_insert_l.
    + rewrite (right_id_L ∅ (∪)). reflexivity.
Qed.

(** The two lists returned: one entry per patch, in order. *)
Lemma lists_fold (ps : list patch) (st : outcome) :
  applied (fold_left (apply_one repo_root mode) ps st) = applied st ++ flat_map (applied_by repo_root mode) ps
  /\ errors (fold_left (apply_one repo_root mode) ps st) = errors st ++ flat_map (errors_by repo_root) ps.
Proof.
  revert st. induction ps as [|p ps IH]; intros st; cbn [fold_left flat_map].
  - rewrite !app_nil_r. split; reflexivity.
  - destruct (IH (apply_one repo_root mode st p)) as [Ha He].
    rewrite Ha, He, applied_apply_one, errors_apply_one, <- !app_assoc.
    split; reflexivity.
Qed.

Lemma apply_twice_files (ps : list patch) (fs : filesystem) :
  files (fold_left (apply_one repo_root mode) ps
           (Outcome (files (fold_left (apply_one repo_root mode) ps (Outcome fs [] []))) [] []))
  = files (fold_left (apply_one repo_root mode) ps (Outcome fs [] [])).
Proof.
  rewrite files_fold_union. simpl.
  rewrite (files_fold_union ps (Outcome fs [] [])). simpl.
  rewrite (assoc_L (∪)). rewrite (idemp_L (∪)). reflexivity.
Qed.

(** Outside write mode no step touches the files. *)
Lemma files_fold_dry_run (ps : list patch) (st : outcome) :
  String.eqb mode "write" = false ->
  files (fold_left (apply_one repo_root mode) ps st) = files st.
Proof.
  intros Hm. revert st. induction ps as [|p ps IH]; intros st; cbn [fold_left]; [reflexivity|].
  rewrite IH, files_apply_one. unfold writes. rewrite Hm, andb_false_r. reflexivity.
Qed.

End PatchEngineFacts.

(** ** Claims about the patch engine *)

(** C9: applying the same patch list twice in write mode leaves every
    file with the content it had after the first application, and the
    second call returns the same two lists. *)
Theorem C9_apply_patches_twice_same_files (repo_root : Path.t) (fs : filesystem)
    (patches : list PatchEngine.patch) :
  let first := PatchEngine.apply_patches repo_root fs patches (Some "write") in
  let second := PatchEngine.apply_patches repo_root (PatchEngine.files first) patches (Some "write") in
  PatchEngine.files second = PatchEngine.files first
  /\ (forall f : string, PatchEngine.files second !! f = PatchEngine.files first !! f)
  /\ PatchEngine.applied second = PatchEngine.applied first
  /\ PatchEngine.errors second = PatchEngine.errors first.
Proof.
  cbv zeta. unfold PatchEngine.apply_patches. simpl default.
  pose proof (apply_twice_files repo_root "write" patches fs) as Hf.
  split; [exact Hf|]. split; [intros f; rewrite Hf; reflexivity|].
  destruct (lists_fold repo_root "write" patches
              (PatchEngine.Outcome (PatchEngine.files
                 (fold_left (PatchEngine.apply_one repo_root "write") patches
                            (PatchEngine.Outcome fs [] []))) [] [])) as [Ha He].
  destruct (lists_fold repo_root "write" patches (PatchEngine.Outcome fs [] [])) as [Ha' He'].
  rewrite Ha, He, Ha', He'. split; reflexivity.
Qed.

(** C1: the containment check compares the text of the resolved path with
    the text of the root.  Under the root [/repo] the path
    [../repo2/x.py] resolves to [/repo2/x.py], which is no descendant of
    the root, yet both patch constructors accept it and [apply_patches]
    lists it as applied in write mode (where the file outside the root is
    written) and in dry-run mode, with no error.  The path [../escape.py]
    of the specification's scenario is rejected in both modes. *)
Theorem C1_prefix_check_admits_sibling_directory :
  let root := Scenario.repo in
  let target := Path.resolve (Path.joinpath root Scenario.sibling) in
  let p := PatchEngine.Patch Scenario.sibling None (Some "x = 1") "low" "" in
  let bad := PatchEngine.Patch "../escape.py" None (Some "x = 1") "low" "" in
  Path.str target = "/repo2/x.py"
  /\ Path.strict_descendant root target = false
  /\ (exists q, PatchEngine.create_add_file_patch root Scenario.sibling "x = 1" "low" = Ok q
                /\ PatchEngine.path q = Scenario.sibling)
  /\ (exists q, PatchEngine.create_edit_patch root Scenario.sibling "" "x = 1" "medium" = Ok q
                /\ PatchEngine.path q = Scenario.sibling)
  /\ PatchEngine.applied (PatchEngine.apply_patches root ∅ [p] (Some "write")) = [Scenario.sibling]
  /\ PatchEngine.errors (PatchEngine.apply_patches root ∅ [p] (Some "write")) = []
  /\ PatchEngine.files (PatchEngine.apply_patches root ∅ [p] (Some "write")) !! "/repo2/x.py"
     = Some "x = 1"
  /\ PatchEngine.applied (PatchEngine.apply_patches root ∅ [p] None)
     = [Scenario.sibling +:+ " (dry-run)"]
  /\ PatchEngine.errors (PatchEngine.apply_patches root ∅ [p] None) = []
  /\ PatchEngine.create_add_file_patch root "../escape.py" "x = 1" "low"
     = Raise (ValueError "Path outside repo_root")
  /\ PatchEngine.applied (PatchEngine.apply_patches root ∅ [bad] (Some "write")) = []
  /\ PatchEngine.applied (PatchEngine.apply_patches root ∅ [bad] None) = []
  /\ PatchEngine.errors (PatchEngine.apply_patches root ∅ [bad] None)
     = ["Skipped ../escape.py: outside repo"].
Proof.
  cbv zeta.
  split; [vm_compute; reflexivity|].
  split; [vm_compute; reflexivity|].
  split; [eexists; split; vm_compute; reflexivity|].
  split; [eexists; split; vm_compute; reflexivity|].
  repeat split; vm_compute; reflexivity.
Qed.

(** The same comparison of texts accepts the root itself, which is no
    strict descendant of the root, and an absolute path inside the root. *)
Lemma prefix_check_accepts_root_and_absolute :
  PatchEngine.inside_repo Scenario.repo "" = true
  /\ PatchEngine.inside_repo Scenario.repo "." = true
  /\ Path.strict_descendant Scenario.repo (Path.resolve (Path.joinpath Scenario.repo "."))
     = false
  /\ PatchEngine.inside_repo Scenario.repo "/repo/c.py" = true
  /\ PatchEngine.inside_repo Scenario.repo "/etc/passwd" = false.
Proof. repeat split; vm_compute; reflexivity. Qed.

(** C8 fails at the configuration tool: [create_extension_config_tool]
    declares [mode="write"], and called without a mode it writes the
    template file. *)
Lemma C8_config_tool_writes_by_default :
  Server.mode_default Server.create_extension_config_tool = "write"
  /\ Server.mode_default Server.create_extension_config_tool <> "dry_run"
  /\ fst (Server.run_create_extension_config_tool ["work"] "extension_name: MyExt" ∅ None None)
       !! "/work/extension_config.yaml" = Some "extension_name: MyExt"
  /\ (∅ : filesystem) !! "/work/extension_config.yaml" = None.
Proof.
  split; [reflexivity|]. split; [discriminate|].
  split; vm_compute; reflexivity.
Qed.

Section ExtractFrame.

Variable ast_parse : string -> option Ast.module.
Variable scan_py_files : Path.t -> filesystem -> list string.

(** Outside write mode [extract] returns the file system it was given. *)
Lemma extract_dry_run_files (repo_root : Path.t) (fs : filesystem)
    (clusters : option (list cluster)) (cluster_indices : option (list Z))
    (mode : string) (same_name_only : option bool) (x : Extract.extraction) :
  String.eqb mode "write" = false ->
  Extract.extract ast_parse scan_py_files repo_root fs clusters cluster_indices
                  (Some mode) same_name_only = Ok x ->
  Extract.x_files x = fs.
Proof.
  intros Hm. unfold Extract.extract. simpl default. rewrite Hm.
  destruct (Extract.run_clusters _ _ _ _ _ _ _) as [st|e]; simpl; [|discriminate].
  destruct (Extract.lib_patches_of _ _ _) as [ps|e]; simpl; [|discriminate].
  intros [= <-]. reflexivity.
Qed.

End ExtractFrame.

(** ** Dictionaries in insertion order *)

Section Dictionary.
Context {K V : Type} `{EqDecision K}.
Implicit Types (k : K) (v : V) (d : list (K * list V)).

Lemma setdefault_append_keys k v d :
  map fst (setdefault_append k v d)
  = if bool_decide (k ∈ map fst d) then map fst d else map fst d ++ [k].
Proof.
  induction d as [|[k' vs] d IH]; cbn [setdefault_append map fst].
  - case_bool_decide as E; [inversion E|reflexivity].
  - destruct (decide (k = k')) as [->|Hne]; cbn [map fst].
    + rewrite bool_decide_true by (left; reflexivity). reflexivity.
    + rewrite IH. destruct (decide (k ∈ map fst d)) as [Hin|Hout].
      * rewrite !bool_decide_true; [reflexivity|right; exact Hin|exact Hin].
      * rewrite !bool_decide_false; [reflexivity| |exact Hout].
        intros [?|?]%elem_of_cons; [congruence|contradiction].
Qed.

(** Every value held after [setdefault_append] was held before under the
    same key, or is the value just added under its key. *)
Lemma setdefault_append_elem k v d k' vs' v' :
  (k', vs') ∈ setdefault_append k v d -> v' ∈ vs' ->
  (exists vs0, (k', vs0) ∈ d /\ v' ∈ vs0) \/ (k' = k /\ v' = v).
Proof.
  induction d as [|[k0 vs0] d IH]; simpl; intros Hin Hv.
  - apply list_elem_of_singleton in Hin. injection Hin as -> ->.
    apply list_elem_of_singleton in Hv. right. split; [reflexivity|exact Hv].
  - destruct (decide (k = k0)) as [->|Hne].
    + apply elem_of_cons in Hin as [Hin|Hin].
      * injection Hin as -> ->. apply elem_of_app in Hv as [Hv|Hv].
        -- left. exists vs0. split; [left|exact Hv].
        -- apply list_elem_of_singleton in Hv. right. split; [reflexivity|exact Hv].
      * left. exists vs'. split; [right; exact Hin|exact Hv].
    + apply elem_of_cons in Hin as [Hin|Hin].
      * injection Hin as -> ->. left. exists vs0. split; [left|exact Hv].
      * destruct (IH Hin Hv) as [(vs1 & H1 & H2)|H1].
        -- left. exists vs1. split; [right; exact H1|exact H2].
        -- right. exact H1.
Qed.

(** [setdefault_append] on a dictionary given by its keys and a function
    to the values. *)
Lemma setdefault_append_tabulate k v (f : K -> list V) (ks : list K) :
  NoDup ks ->
  setdefault_append k v (map (fun k' => (k', f k')) ks)
  = map (fun k' => (k', if bool_decide (k' = k) then f k' ++ [v] else f k')) ks
    ++ (if bool_decide (k ∈ ks) then [] else [(k, [v])]).
Proof.
  intros Hnd. induction Hnd as [|k0 ks Hk0 Hnd IH]; cbn [setdefault_append map app].
  - case_bool_decide as E; [inversion E|reflexivity].
  - destruct (decide (k = k0)) as [->|Hne].
    + rewrite (bool_decide_true (k0 ∈ k0 :: ks)) by (left; reflexivity).
      rewrite (bool_decide_true (k0 = k0)) by reflexivity.
      rewrite app_nil_r. f_equal.
      apply map_ext_in. intros k' Hk'. apply list_elem_of_In in Hk'.
      rewrite bool_decide_false; [reflexivity|]. intros ->. contradiction.
    + rewrite (bool_decide_false (k0 = k)) by congruence.
      rewrite IH. cbn [app]. f_equal. f_equal.
      destruct (decide (k ∈ ks)) as [Hin|Hout].
      * rewrite !bool_decide_true; [reflexivity|right; exact Hin|exact Hin].
      * rewrite !bool_decide_false; [reflexivity| |exact Hout].
        intros [?|?]%elem_of_cons; [congruence|contradiction].
Qed.

End Dictionary.

Section FirstSeen.
Context {K : Type} `{EqDecision K}.
Implicit Types (k : K) (l : list K).

Lemma first_seen_elem k l : k ∈ first_seen l <-> k ∈ l.
Proof.
  induction l as [|k0 l IH]; simpl; [reflexivity|].
  rewrite !elem_of_cons, <- IH.
  destruct (decide (k = k0)) as [->|Hne]; [tauto|].
  rewrite (list_elem_of_In (List.filter _ _)), filter_In, <- list_elem_of_In.
  rewrite negb_true_iff, bool_decide_eq_false. tauto.
Qed.

Lemma first_seen_NoDup l : NoDup (first_seen l).
Proof.
  induction l as [|k0 l IH]; simpl; constructor.
  - rewrite list_elem_of_In, filter_In, negb_true_iff, bool_decide_eq_false. tauto.
  - apply NoDup_ListNoDup, List.NoDup_filter, NoDup_ListNoDup, IH.
Qed.

Lemma filter_ne_snoc k k0 l :
  List.filter (fun k' => negb (bool_decide (k' = k0))) (l ++ [k])
  = List.filter (fun k' => negb (bool_decide (k' = k0))) l
    ++ (if bool_decide (k = k0) then [] else [k]).
Proof.
  rewrite List.filter_app. simpl. destruct (bool_decide (k = k0)); reflexivity.
Qed.

(** A key met again keeps its place; a new key goes last. *)
Lemma first_seen_snoc l k :
  first_seen (l ++ [k]) = if bool_decide (k ∈ l) then first_seen l else first_seen l ++ [k].
Proof.
  induction l as [|k0 l IH]; cbn [first_seen app].
  - case_bool_decide as E; [inversion E|reflexivity].
  - rewrite IH. destruct (decide (k = k0)) as [->|Hne].
    + rewrite (bool_decide_true (k0 ∈ k0 :: l)) by (left; reflexivity).
      case_bool_decide; [reflexivity|].
      rewrite filter_ne_snoc, bool_decide_true by reflexivity.
      rewrite app_nil_r. reflexivity.
    + destruct (decide (k ∈ l)) as [Hin|Hout].
      * rewrite !bool_decide_true; [reflexivity|right; exact Hin|exact Hin].
      * rewrite (bool_decide_false (k ∈ l)) by exact Hout.
        rewrite (bool_decide_false (k ∈ k0 :: l)).
        -- rewrite filter_ne_snoc, bool_decide_false by exact Hne. reflexivity.
        -- intros [?|?]%elem_of_cons; [congruence|contradiction].
Qed.

End FirstSeen.

(** ** The duplicate detector *)

Section DupFacts.
Import Dup.

Variable same_name_only : bool.
Implicit Types (its : list (string * func_record)) (d : list (key * list location)).

Lemma add_record_short d it :
  long_enough it = false -> add_record same_name_only d it = d.
Proof.
  destruct it as [sp r]. unfold long_enough, add_record. cbn [snd].
  destruct (String.length (fr_body r) <? 20); [reflexivity|discriminate].
Qed.

Lemma add_record_long d sp r :
  long_enough (sp, r) = true ->
  add_record same_name_only d (sp, r)
  = setdefault_append (key_of same_name_only r) (loc_of sp r) d.
Proof.
  unfold long_enough, add_record. cbn [snd].
  destruct (String.length (fr_body r) <? 20); [discriminate|reflexivity].
Qed.

Lemma fold_add_record_filter its d :
  fold_left (add_record same_name_only) its d
  = fold_left (add_record same_name_only) (List.filter long_enough its) d.
Proof.
  revert d. induction its as [|it its IH]; intros d; cbn [fold_left List.filter]; [reflexivity|].
  destruct (long_enough it) eqn:E; cbn [fold_left].
  - apply IH.
  - rewrite (add_record_short d it E). apply IH.
Qed.

Lemma hash_to_locs_filter its :
  hash_to_locs same_name_only its = hash_to_locs same_name_only (List.filter long_enough its).
Proof. apply fold_add_record_filter. Qed.

Lemma hash_to_locs_snoc its it :
  hash_to_locs same_name_only (its ++ [it])
  = add_record same_name_only (hash_to_locs same_name_only its) it.
Proof. unfold hash_to_locs. rewrite fold_left_app. reflexivity. Qed.

Lemma locations_of_key_snoc k its it :
  locations_of_key same_name_only k (its ++ [it])
  = locations_of_key same_name_only k its
    ++ (if bool_decide (key_of same_name_only (snd it) = k) then [loc_of (fst it) (snd it)] else []).
Proof.
  unfold locations_of_key. rewrite List.filter_app, map_app. cbn [List.filter].
  destruct (bool_decide (key_of same_name_only (snd it) = k)); reflexivity.
Qed.

Lemma locations_of_key_absent k its :
  k ∉ map (fun it => key_of same_name_only (snd it)) its ->
  locations_of_key same_name_only k its = [].
Proof.
  unfold locations_of_key. induction its as [|it its IH]; cbn [map List.filter]; intros Hk; [reflexivity|].
  rewrite bool_decide_false.
  - apply IH. intros Hin. apply Hk. right. exact Hin.
  - intros E. apply Hk. rewrite E. left.
Qed.

(** Adding one record that is long enough regroups the records. *)
Lemma grouped_snoc its sp r :
  setdefault_append (key_of same_name_only r) (loc_of sp r) (grouped same_name_only its)
  = grouped same_name_only (its ++ [(sp, r)]).
Proof.
  unfold grouped at 1.
  rewrite setdefault_append_tabulate by apply first_seen_NoDup.
  unfold grouped. rewrite map_app. cbn [map snd]. rewrite first_seen_snoc.
  set (keys := map (fun it => key_of same_name_only (snd it)) its).
  set (k := key_of same_name_only r).
  assert (Hmap : forall ks : list key,
    map (fun k' => (k', if bool_decide (k' = k)
                        then locations_of_key same_name_only k' its ++ [loc_of sp r]
                        else locations_of_key same_name_only k' its)) ks
    = map (fun k' => (k', locations_of_key same_name_only k' (its ++ [(sp, r)]))) ks).
  { intros ks. apply map_ext. intros k'. rewrite locations_of_key_snoc. cbn [fst snd]. fold k.
    destruct (decide (k' = k)) as [->|Hne].
    - rewrite !bool_decide_true by reflexivity. reflexivity.
    - rewrite !bool_decide_false by congruence. rewrite app_nil_r. reflexivity. }
  rewrite Hmap.
  destruct (decide (k ∈ keys)) as [Hin|Hout].
  - rewrite (bool_decide_true (k ∈ first_seen keys)) by (apply first_seen_elem; exact Hin).
    rewrite (bool_decide_true (k ∈ keys)) by exact Hin.
    rewrite app_nil_r. reflexivity.
  - rewrite (bool_decide_false (k ∈ first_seen keys)) by (rewrite first_seen_elem; exact Hout).
    rewrite (bool_decide_false (k ∈ keys)) by exact Hout.
    rewrite map_app. cbn [map]. rewrite locations_of_key_snoc. cbn [fst snd]. fold k.
    rewrite bool_decide_true by reflexivity.
    rewrite (locations_of_key_absent k its Hout). reflexivity.
Qed.

(** The dictionary the first loop builds is the grouping of the records
    that are long enough. *)
Lemma hash_to_locs_grouped its :
  hash_to_locs same_name_only its = grouped same_name_only (List.filter long_enough its).
Proof.
  induction its as [|[sp r] its IH] using rev_ind; [reflexivity|].
  rewrite hash_to_locs_snoc, IH, List.filter_app. cbn [List.filter].
  destruct (long_enough (sp, r)) eqn:E.
  - rewrite add_record_long by exact E. apply grouped_snoc.
  - rewrite add_record_short by exact E. rewrite app_nil_r. reflexivity.
Qed.

Lemma clusters_of_filter d :
  clusters_of d
  = map (fun kl => Cluster (hash_of_key (fst kl)) (snd kl))
        (List.filter (fun kl => negb (length (snd kl) <=? 1)) d).
Proof.
  unfold clusters_of. induction d as [|kl d IH]; cbn [flat_map List.filter]; [reflexivity|].
  rewrite IH. destruct (length (snd kl) <=? 1); reflexivity.
Qed.

Lemma clusters_of_sound d :
  Forall (fun c => 2 <= length (locations c)
                   /\ exists k, (k, locations c) ∈ d /\ hash c = hash_of_key k)
         (clusters_of d).
Proof.
  unfold clusters_of. induction d as [|[k locs] d IH]; cbn [flat_map fst snd]; [constructor|].
  assert (IH' : Forall (fun c => 2 <= length (locations c)
                   /\ exists k0, (k0, locations c) ∈ (k, locs) :: d /\ hash c = hash_of_key k0)
         (flat_map (fun kl => if length (snd kl) <=? 1 then []
                              else [Cluster (hash_of_key (fst kl)) (snd kl)]) d)).
  { eapply Forall_impl; [exact IH|]. intros c (H2 & k0 & Hin & Hh).
    split; [exact H2|]. exists k0. split; [right; exact Hin|exact Hh]. }
  destruct (length locs <=? 1) eqn:E; [exact IH'|].
  apply Nat.leb_gt in E. cbn [app]. constructor; [|exact IH'].
  cbn [locations hash]. split; [lia|]. exists k. split; [left|reflexivity].
Qed.

End DupFacts.

Section SortFacts.
Import Dup.

Lemma insert_desc_Forall (P : cluster -> Prop) c l :
  P c -> Forall P l -> Forall P (insert_desc c l).
Proof.
  intros Hc Hl. induction Hl as [|c' l Hc' Hl IH]; cbn [insert_desc]; [repeat constructor; exact Hc|].
  destruct (length (locations c) <? length (locations c')); repeat constructor; assumption.
Qed.

Lemma sort_desc_Forall (P : cluster -> Prop) l : Forall P l -> Forall P (sort_desc l).
Proof.
  induction 1 as [|c l Hc Hl IH]; cbn [sort_desc fold_right]; [constructor|].
  apply insert_desc_Forall; assumption.
Qed.

Lemma insert_desc_sorted c l :
  StronglySorted larger_first l -> StronglySorted larger_first (insert_desc c l).
Proof.
  induction 1 as [|c' l Hl IH Hc']; cbn [insert_desc]; [repeat constructor|].
  destruct (length (locations c) <? length (locations c')) eqn:E.
  - apply Nat.ltb_lt in E. constructor; [exact IH|].
    apply insert_desc_Forall; [unfold larger_first; lia|exact Hc'].
  - apply Nat.ltb_ge in E. constructor; [constructor; assumption|].
    constructor; [exact E|].
    eapply Forall_impl; [exact Hc'|]. unfold larger_first. intros; lia.
Qed.

(** The sort returns the clusters by falling size. *)
Lemma sort_desc_sorted l : StronglySorted larger_first (sort_desc l).
Proof.
  induction l as [|c l IH]; cbn [sort_desc fold_right]; [constructor|].
  apply insert_desc_sorted, IH.
Qed.

Lemma insert_desc_stable n c l :
  List.filter (has_size n) (insert_desc c l) = List.filter (has_size n) (c :: l).
Proof.
  induction l as [|c' l IH]; cbn [insert_desc]; [reflexivity|].
  destruct (length (locations c) <? length (locations c')) eqn:E; [|reflexivity].
  apply Nat.ltb_lt in E. cbn [List.filter] in *. rewrite IH. unfold has_size.
  destruct (length (locations c) =? n) eqn:E1; [|reflexivity].
  apply Nat.eqb_eq in E1. rewrite (proj2 (Nat.eqb_neq (length (locations c')) n)) by lia.
  reflexivity.
Qed.

(** The sort is stable: the clusters of one size keep their order. *)
Lemma sort_desc_stable n l :
  List.filter (has_size n) (sort_desc l) = List.filter (has_size n) l.
Proof.
  induction l as [|c l IH]; cbn [sort_desc fold_right]; [reflexivity|].
  fold (sort_desc l). rewrite insert_desc_stable. cbn [List.filter]. rewrite IH. reflexivity.
Qed.

Lemma insert_desc_perm c l : insert_desc c l ≡ₚ c :: l.
Proof.
  induction l as [|c' l IH]; cbn [insert_desc]; [reflexivity|].
  destruct (length (locations c) <? length (locations c')); [|reflexivity].
  rewrite IH. apply Permutation_swap.
Qed.

Lemma sort_desc_perm l : sort_desc l ≡ₚ l.
Proof.
  induction l as [|c l IH]; cbn [sort_desc fold_right]; [reflexivity|].
  fold (sort_desc l). rewrite insert_desc_perm, IH. reflexivity.
Qed.

Lemma apply_limit_Forall (P : cluster -> Prop) limit l :
  Forall P l -> Forall P (apply_limit limit l).
Proof.
  intros Hl. unfold apply_limit. destruct limit as [n|]; [|exact Hl].
  destruct (0 <? n)%Z; [|exact Hl]. apply Forall_take. exact Hl.
Qed.

End SortFacts.

Section WalkFacts.

Lemma merge_levels_nil_r (a : list (list Ast.node)) : Ast.merge_levels a [] = a.
Proof. destruct a; reflexivity. Qed.

Lemma levels_unfold (n : Ast.node) : Ast.levels n = [n] :: Ast.below n.
Proof. destruct n; reflexivity. Qed.

Lemma merge_all_levels (n : Ast.node) (tree : list Ast.node) :
  Ast.merge_all (map Ast.levels (n :: tree))
  = (n :: tree) :: Ast.merge_all (map Ast.below (n :: tree)).
Proof.
  revert n. induction tree as [|m tree IH]; intros n.
  - cbn [map Ast.merge_all fold_right]. rewrite levels_unfold. cbn [Ast.merge_levels].
    rewrite merge_levels_nil_r. reflexivity.
  - change (Ast.merge_all (map Ast.levels (n :: m :: tree)))
      with (Ast.merge_levels (Ast.levels n) (Ast.merge_all (map Ast.levels (m :: tree)))).
    rewrite IH, levels_unfold. reflexivity.
Qed.

(** Breadth first: the statements at the top of a file are walked before
    every node nested in one of them. *)
Lemma walk_top_level_first (tree : Ast.module) : tree `prefix_of` Ast.walk tree.
Proof.
  unfold Ast.walk. destruct tree as [|n tree]; [apply prefix_nil|].
  rewrite merge_all_levels. cbn [concat]. apply prefix_app_r. reflexivity.
Qed.

End WalkFacts.

(** ** Claims about the duplicate detector *)

(** C4: every cluster [analyze] returns has at least two locations and is
    the list of locations recorded under one key; the findings mirror the
    clusters one to one, each with the count of its cluster. *)
Theorem C4_every_cluster_has_two_locations
    (ast_parse : string -> option Ast.module)
    (scan_py_files : Path.t -> filesystem -> list string)
    (repo_root : Path.t) (fs : filesystem)
    (script_paths : option (list string)) (limit : option Z) (same_name_only : bool) :
  let its := Dup.scanned ast_parse repo_root fs
               (Dup.resolve_script_paths scan_py_files repo_root fs script_paths) in
  let d := Dup.hash_to_locs same_name_only its in
  let clusters :=
    fst (Dup.analyze ast_parse scan_py_files repo_root fs script_paths limit same_name_only) in
  let findings :=
    snd (Dup.analyze ast_parse scan_py_files repo_root fs script_paths limit same_name_only) in
  Forall (fun c => 2 <= length (locations c)
                   /\ exists k, (k, locations c) ∈ d /\ hash c = Dup.hash_of_key k) clusters
  /\ Forall (fun f => 2 <= fcount f
                      /\ fcount f = length (locations (fcluster f))
                      /\ ftype f = "duplicate") findings
  /\ map fcluster findings = clusters.
Proof.
  cbv zeta. unfold Dup.analyze. cbn [fst snd].
  set (d := Dup.hash_to_locs _ _).
  assert (H : Forall (fun c => 2 <= length (locations c)
                   /\ exists k, (k, locations c) ∈ d /\ hash c = Dup.hash_of_key k)
                (Dup.apply_limit limit (Dup.sort_desc (Dup.clusters_of d)))).
  { apply apply_limit_Forall, sort_desc_Forall, clusters_of_sound. }
  split; [exact H|]. split.
  - apply Forall_fmap. eapply Forall_impl; [exact H|].
    intros c [H2 _]. cbn. repeat split. exact H2.
  - rewrite map_map. cbn. apply map_id.
Qed.

(** C5: a function whose fingerprint has fewer than 20 characters adds no
    location to any key: the grouping is that of the remaining records,
    removing such a record from the scan changes nothing, every location
    under a key comes from a record of 20 characters or more, and the
    clusters [analyze] returns are computed from the remaining records
    alone. *)
Theorem C5_short_fingerprints_are_skipped
    (same_name_only : bool) (its : list (string * Dup.func_record)) :
  Dup.hash_to_locs same_name_only its
  = Dup.hash_to_locs same_name_only (List.filter Dup.long_enough its)
  /\ (forall pre post sp r,
        its = pre ++ (sp, r) :: post ->
        String.length (Dup.fr_body r) < 20 ->
        Dup.hash_to_locs same_name_only its = Dup.hash_to_locs same_name_only (pre ++ post))
  /\ (forall k locs loc,
        (k, locs) ∈ Dup.hash_to_locs same_name_only its -> loc ∈ locs ->
        exists sp r, (sp, r) ∈ its /\ 20 <= String.length (Dup.fr_body r)
                     /\ loc = Dup.loc_of sp r /\ k = Dup.key_of same_name_only r)
  /\ (forall ast_parse scan_py_files repo_root fs script_paths limit,
        its = Dup.scanned ast_parse repo_root fs
                (Dup.resolve_script_paths scan_py_files repo_root fs script_paths) ->
        fst (Dup.analyze ast_parse scan_py_files repo_root fs script_paths limit same_name_only)
        = Dup.apply_limit limit
            (Dup.sort_desc
               (Dup.clusters_of
                  (Dup.hash_to_locs same_name_only (List.filter Dup.long_enough its))))).
Proof.
  split; [apply hash_to_locs_filter|]. split; [|split].
  - intros pre post sp r -> Hlen.
    rewrite hash_to_locs_filter, (hash_to_locs_filter _ (pre ++ post)).
    rewrite !List.filter_app. cbn [List.filter].
    unfold Dup.long_enough at 2. cbn [snd].
    rewrite (proj2 (Nat.ltb_lt _ _) Hlen). reflexivity.
  - intros k locs loc Hk Hloc. rewrite hash_to_locs_grouped in Hk.
    unfold Dup.grouped in Hk. apply list_elem_of_fmap in Hk as (k' & E & _).
    injection E as <- ->.
    unfold Dup.locations_of_key in Hloc. apply list_elem_of_fmap in Hloc as ([sp r] & -> & Hin).
    apply list_elem_of_In, filter_In in Hin as [Hin Hkey].
    apply filter_In in Hin as [Hin Hlong]. cbn [fst snd] in *.
    exists sp, r. split; [apply list_elem_of_In; exact Hin|].
    unfold Dup.long_enough in Hlong. cbn [snd] in Hlong.
    apply negb_true_iff, Nat.ltb_ge in Hlong.
    apply bool_decide_eq_true in Hkey.
    split; [exact Hlong|]. split; [reflexivity|]. symmetry. exact Hkey.
  - intros ast_parse scan_py_files repo_root fs script_paths limit ->.
    unfold Dup.analyze. cbn [fst]. rewrite <- hash_to_locs_filter. reflexivity.
Qed.

(** A record of [def foo(a, b): return a+b] between two longer ones. *)
Lemma C5_short_fingerprints_are_skipped_witness :
  let long := Dup.FuncRecord 1 "bar" "def(2):assignassignreturn" in
  let short := Dup.FuncRecord 1 "foo" "def(2):return" in
  String.length (Dup.fr_body short) < 20
  /\ Dup.hash_to_locs true [("a.py", long); ("b.py", short); ("c.py", long)]
     = Dup.hash_to_locs true ([("a.py", long)] ++ [("c.py", long)]).
Proof.
  cbv zeta.
  assert (Hshort : String.length (Dup.fr_body (Dup.FuncRecord 1 "foo" "def(2):return")) < 20)
    by (vm_compute; lia).
  split; [exact Hshort|].
  exact (proj1 (proj2 (C5_short_fingerprints_are_skipped true
           [("a.py", Dup.FuncRecord 1 "bar" "def(2):assignassignreturn");
            ("b.py", Dup.FuncRecord 1 "foo" "def(2):return");
            ("c.py", Dup.FuncRecord 1 "bar" "def(2):assignassignreturn")]))
         [("a.py", Dup.FuncRecord 1 "bar" "def(2):assignassignreturn")]
         [("c.py", Dup.FuncRecord 1 "bar" "def(2):assignassignreturn")]
         "b.py" (Dup.FuncRecord 1 "foo" "def(2):return") eq_refl Hshort).
Defined.

(** C6 fails for a nested definition.  In a script that declares [outer]
    at line 1, [inner] inside it at line 2 and [top] at line 8, the walk
    reaches [top] before [inner]; with two copies of the script the three
    clusters have two locations each, and the tie is kept in the order
    [outer], [top], [inner], not in declaration order. *)
Lemma C6_nested_definition_after_later_top_level :
  let fs := Scenario.two_files Scenario.src_nested in
  let result :=
    fst (Dup.analyze Scenario.parse Scenario.two_scripts Scenario.repo fs None None true) in
  map (fun c => (length (locations c), map name (locations c), map line (locations c))) result
  = [ (2, [Some "outer"; Some "outer"], [Some 1%Z; Some 1%Z]);
      (2, [Some "top"; Some "top"], [Some 8%Z; Some 8%Z]);
      (2, [Some "inner"; Some "inner"], [Some 2%Z; Some 2%Z]) ]
  /\ map (fun c => map line (locations c))
         (Dup.analyze_declared Scenario.parse Scenario.two_scripts Scenario.repo fs None None true)
     = [ [Some 1%Z; Some 1%Z]; [Some 2%Z; Some 2%Z]; [Some 8%Z; Some 8%Z] ]
  /\ result
     <> Dup.analyze_declared Scenario.parse Scenario.two_scripts Scenario.repo fs None None true.
Proof.
  cbv zeta. split; [vm_compute; reflexivity|]. split; [vm_compute; reflexivity|].
  intros E.
  apply (f_equal (map (fun c => map line (locations c)))) in E.
  vm_compute in E. discriminate E.
Qed.

(** C6 (amended): the clusters are returned by falling number of
    locations; clusters of one size keep the order in which their keys
    were first met, where the scripts are read in scan order and the
    functions of a script in the order of the breadth-first walk of its
    syntax tree (every top-level statement before any nested one); a
    positive limit keeps the first [limit] clusters of that order, a
    missing or non-positive limit keeps all. *)
Theorem C6_clusters_by_size_then_first_seen
    (ast_parse : string -> option Ast.module)
    (scan_py_files : Path.t -> filesystem -> list string)
    (repo_root : Path.t) (fs : filesystem)
    (script_paths : option (list string)) (limit : option Z) (same_name_only : bool) :
  let scanned := Dup.scanned ast_parse repo_root fs
                   (Dup.resolve_script_paths scan_py_files repo_root fs script_paths) in
  let its := List.filter Dup.long_enough scanned in
  let d := Dup.hash_to_locs same_name_only scanned in
  let groups := Dup.clusters_of d in
  let sorted := Dup.sort_desc groups in
  let result :=
    fst (Dup.analyze ast_parse scan_py_files repo_root fs script_paths limit same_name_only) in
  d = Dup.grouped same_name_only its
  /\ map fst d = first_seen (map (fun it => Dup.key_of same_name_only (snd it)) its)
  /\ groups = map (fun kl => Cluster (Dup.hash_of_key (fst kl)) (snd kl))
                  (List.filter (fun kl => negb (length (snd kl) <=? 1)) d)
  /\ StronglySorted Dup.larger_first sorted
  /\ sorted ≡ₚ groups
  /\ (forall n, List.filter (Dup.has_size n) sorted = List.filter (Dup.has_size n) groups)
  /\ result = match limit with
              | Some n => if (0 <? n)%Z then firstn (Z.to_nat n) sorted else sorted
              | None => sorted
              end
  /\ (forall tree : Ast.module, tree `prefix_of` Ast.walk tree).
Proof.
  cbv zeta.
  split; [apply hash_to_locs_grouped|].
  split.
  { rewrite hash_to_locs_grouped. unfold Dup.grouped. rewrite map_map. cbn [fst]. apply map_id. }
  split; [apply clusters_of_filter|].
  split; [apply sort_desc_sorted|].
  split; [apply sort_desc_perm|].
  split; [intros n; apply sort_desc_stable|].
  split; [reflexivity|].
  exact walk_top_level_first.
Qed.

(** ** The extraction engine *)

Section EnsureImportFacts.
Import Extract.

Variable s : string.

(** A line that holds the import stops the loop. *)
Lemma scan_imports_present i last lines :
  Exists (fun line => Py.contains s line = true) lines ->
  scan_imports s i last lines = None.
Proof.
  intros Hex. revert i last. induction Hex as [line lines Hc|line lines Hex IH]; intros i last;
    cbn [scan_imports].
  - rewrite Hc. reflexivity.
  - destruct (Py.contains s line); [reflexivity|]. apply IH.
Qed.

(** Without an import line the index seen last is kept. *)
Lemma scan_imports_none i last lines :
  Forall (fun line => Py.contains s line = false) lines ->
  Forall (fun line => is_import line = false) lines ->
  scan_imports s i last lines = Some last.
Proof.
  intros Hc. revert i last. induction Hc as [|line lines Hl Hc IH]; intros i last Hi;
    cbn [scan_imports]; [reflexivity|].
  inversion Hi as [|? ? Hi1 Hi2]; subst. rewrite Hl, Hi1. apply IH. exact Hi2.
Qed.

(** The loop returns the index of the last import line. *)
Lemma scan_imports_last i last pre l post :
  Forall (fun line => Py.contains s line = false) (pre ++ l :: post) ->
  is_import l = true ->
  Forall (fun line => is_import line = false) post ->
  scan_imports s i last (pre ++ l :: post) = Some (Some (i + length pre)).
Proof.
  revert i last. induction pre as [|x pre IH]; intros i last Hc Hl Hpost; cbn [app scan_imports].
  - inversion Hc as [|? ? Hc1 Hc2]; subst. rewrite Hl, Hc1.
    rewrite scan_imports_none by assumption. cbn [length]. rewrite Nat.add_0_r. reflexivity.
  - inversion Hc as [|? ? Hc1 Hc2]; subst. rewrite Hc1.
    rewrite IH by assumption. cbn [length]. rewrite Nat.add_succ_r. reflexivity.
Qed.

End EnsureImportFacts.

(** C7 fails for a script with an import Ast.below the top of the file: the
    new import is put after the import inside [g], not after [import os],
    the last import line at the top of the file. *)
Lemma C7_import_lands_after_function_local_import :
  let lines := ["import os"; "def g():"; "    import sys"; "    return 1"] in
  let import_line := "from lib.utils import foo" in
  Extract._ensure_import lines import_line
  = ["import os"; "def g():"; "    import sys"; "from lib.utils import foo"; "    return 1"]
  /\ Extract._ensure_import lines import_line
     <> ["import os"; "from lib.utils import foo"; "def g():"; "    import sys"; "    return 1"].
Proof.
  cbv zeta. split; [vm_compute; reflexivity|].
  vm_compute. discriminate.
Qed.

(** C7 (amended): the import line is placed immediately after the last
    line of the file that reads as an import (after [strip], it starts
    with [import ] or [from ]), wherever that line stands; it is put first
    if no line reads as an import; and the lines are returned unchanged if
    one of them contains the stripped import line. *)
Theorem C7_import_after_last_import_line (lines : list string) (import_line : string) :
  (Exists (fun line => Py.contains (Py.strip import_line) line = true) lines ->
   Extract._ensure_import lines import_line = lines)
  /\ (Forall (fun line => Py.contains (Py.strip import_line) line = false) lines ->
      Forall (fun line => Extract.is_import line = false) lines ->
      Extract._ensure_import lines import_line = import_line :: lines)
  /\ (forall pre l post,
        lines = pre ++ l :: post ->
        Forall (fun line => Py.contains (Py.strip import_line) line = false) lines ->
        Extract.is_import l = true ->
        Forall (fun line => Extract.is_import line = false) post ->
        Extract._ensure_import lines import_line = pre ++ l :: import_line :: post).
Proof.
  unfold Extract._ensure_import. split; [|split].
  - intros Hex. rewrite scan_imports_present by exact Hex. reflexivity.
  - intros Hc Hi. rewrite scan_imports_none by assumption. reflexivity.
  - intros pre l post -> Hc Hl Hpost.
    rewrite (scan_imports_last _ 0 None pre l post Hc Hl Hpost). cbn [Nat.add].
    replace (length pre + 1) with (length (pre ++ [l])) by (rewrite length_app; reflexivity).
    replace (pre ++ l :: post) with ((pre ++ [l]) ++ post) by (rewrite <- app_assoc; reflexivity).
    rewrite firstn_app, Nat.sub_diag, firstn_all, skipn_app, Nat.sub_diag, skipn_all. cbn.
    rewrite !app_nil_r, <- !app_assoc. reflexivity.
Qed.

(** The three cases of C7 on a script with one import line. *)
Lemma C7_import_after_last_import_line_witness :
  Extract._ensure_import ["import os"; "x = 1"] "from lib.utils import foo"
  = ["import os"] ++ "from lib.utils import foo" :: ["x = 1"].
Proof.
  refine (proj2 (proj2 (C7_import_after_last_import_line ["import os"; "x = 1"]
                          "from lib.utils import foo")) [] "import os" ["x = 1"] eq_refl _ _ _).
  - repeat constructor.
  - reflexivity.
  - repeat constructor.
Defined.

Section ExtractFacts.
Import Extract.

Variable ast_parse : string -> option Ast.module.
Variable repo_root : Path.t.
Variable fs : filesystem.

Lemma exists_read_text (p : Path.t) :
  FS.exists_ fs p = false -> FS.read_text fs p = None.
Proof.
  unfold FS.exists_, FS.read_text. intros H. apply bool_decide_eq_false in H.
  destruct (fs !! FS.key p) eqn:E; [|reflexivity]. exfalso. apply H. eexists. reflexivity.
Qed.

(** The function is not found: the text is returned as it is. *)
Lemma remove_not_found (text : string) (tree : Ast.module)
    (func_name : option string) (func_line : option Z) :
  ast_parse text = Some tree ->
  List.find (is_target func_name func_line) (Ast.walk tree) = None ->
  _remove_function_from_source ast_parse text func_name func_line = text.
Proof.
  intros Hp Hf. unfold _remove_function_from_source. rewrite Hp, Hf. reflexivity.
Qed.

Lemma process_loc_skips (mod_ : string) (st : state) (loc : location) :
  file_missing repo_root fs loc \/ removal_unchanged ast_parse repo_root fs loc ->
  process_loc ast_parse repo_root fs mod_ st loc = Ok st.
Proof.
  unfold process_loc. intros [(sp & Hs & Hm)|(sp & text & Hs & Hr & Hu)]; rewrite Hs.
  - destruct (negb (Py.truthy sp)); [reflexivity|].
    rewrite (exists_read_text _ Hm). reflexivity.
  - destruct (negb (Py.truthy sp)); [reflexivity|].
    rewrite Hr, Hu, String.eqb_refl. reflexivity.
Qed.

Lemma process_locs_app (mod_ : string) (st : state) (pre post : list location) :
  process_locs ast_parse repo_root fs mod_ st (pre ++ post)
  = bind (process_locs ast_parse repo_root fs mod_ st pre)
         (fun st' => process_locs ast_parse repo_root fs mod_ st' post).
Proof.
  revert st. induction pre as [|loc pre IH]; intros st; cbn [app process_locs]; [reflexivity|].
  destruct (process_loc ast_parse repo_root fs mod_ st loc) as [st'|e]; cbn [bind]; [apply IH|reflexivity].
Qed.

(** The inner loop adds no error and no library source. *)
Lemma process_loc_errors (mod_ : string) (st st' : state) (loc : location) :
  process_loc ast_parse repo_root fs mod_ st loc = Ok st' ->
  errors st' = errors st /\ lib_contents st' = lib_contents st.
Proof.
  unfold process_loc. destruct (script loc) as [sp|]; [|intros [= <-]; split; reflexivity].
  destruct (negb (Py.truthy sp)); [intros [= <-]; split; reflexivity|].
  destruct (FS.read_text fs (Path.joinpath repo_root sp)) as [text|];
    [|intros [= <-]; split; reflexivity].
  destruct (String.eqb _ text); [intros [= <-]; split; reflexivity|].
  destruct (PatchEngine.create_edit_patch _ _ _ _ _) as [p|e]; cbn [bind]; [|discriminate].
  intros [= <-]. split; reflexivity.
Qed.

Lemma process_locs_errors (mod_ : string) (locs : list location) (st st' : state) :
  process_locs ast_parse repo_root fs mod_ st locs = Ok st' ->
  errors st' = errors st /\ lib_contents st' = lib_contents st.
Proof.
  revert st. induction locs as [|loc locs IH]; intros st; cbn [process_locs].
  - intros [= <-]. split; reflexivity.
  - destruct (process_loc ast_parse repo_root fs mod_ st loc) as [st1|e] eqn:E; cbn [bind];
      [|discriminate].
    intros H. destruct (IH _ H) as [H1 H2]. destruct (process_loc_errors _ _ _ _ E) as [H3 H4].
    split; congruence.
Qed.

End ExtractFacts.

(** C10: a location whose script is missing from the disk, or whose
    script is left unchanged by the removal (as when the function is not
    found at the recorded line), is skipped in the loop over the
    locations: the state is returned as it was, so the loop gives what it
    gives without that location; and the loop over the locations never
    adds an error, whatever the locations are. *)
Theorem C10_unusable_location_is_skipped
    (ast_parse : string -> option Ast.module)
    (repo_root : Path.t) (fs : filesystem) (mod_ : string) (loc : location) :
  Extract.file_missing repo_root fs loc \/ Extract.removal_unchanged ast_parse repo_root fs loc ->
  (forall st, Extract.process_loc ast_parse repo_root fs mod_ st loc = Ok st)
  /\ (forall st pre post,
        Extract.process_locs ast_parse repo_root fs mod_ st (pre ++ loc :: post)
        = Extract.process_locs ast_parse repo_root fs mod_ st (pre ++ post))
  /\ (forall st locs st',
        Extract.process_locs ast_parse repo_root fs mod_ st locs = Ok st' ->
        Extract.errors st' = Extract.errors st)
  /\ (forall text tree,
        ast_parse text = Some tree ->
        List.find (Extract.is_target (name loc) (line loc)) (Ast.walk tree) = None ->
        Extract._remove_function_from_source ast_parse text (name loc) (line loc) = text).
Proof.
  intros Hskip.
  assert (H1 : forall st, Extract.process_loc ast_parse repo_root fs mod_ st loc = Ok st).
  { intros st. apply process_loc_skips. exact Hskip. }
  split; [exact H1|]. split; [|split].
  - intros st pre post. rewrite !process_locs_app.
    destruct (Extract.process_locs ast_parse repo_root fs mod_ st pre) as [st1|e]; cbn [bind];
      [|reflexivity].
    cbn [Extract.process_locs]. rewrite H1. reflexivity.
  - intros st locs st' H. apply (process_locs_errors _ _ _ _ _ _ _ H).
  - intros text tree. apply remove_not_found.
Qed.

(** A location whose script is not on the disk. *)
Lemma C10_unusable_location_is_skipped_witness :
  let loc := Loc (Some "C.pushbutton/script.py") (Some 1%Z) (Some "foo") in
  Extract.file_missing Scenario.repo (Scenario.two_files Scenario.src_foo_long) loc
  /\ forall st, Extract.process_loc Scenario.parse Scenario.repo
                  (Scenario.two_files Scenario.src_foo_long) "lib/utils.py" st loc = Ok st.
Proof.
  cbv zeta.
  assert (Hm : Extract.file_missing Scenario.repo (Scenario.two_files Scenario.src_foo_long)
                 (Loc (Some "C.pushbutton/script.py") (Some 1%Z) (Some "foo"))).
  { exists "C.pushbutton/script.py". split; [reflexivity|]. vm_compute. reflexivity. }
  split; [exact Hm|].
  exact (proj1 (C10_unusable_location_is_skipped Scenario.parse Scenario.repo
                  (Scenario.two_files Scenario.src_foo_long) "lib/utils.py"
                  (Loc (Some "C.pushbutton/script.py") (Some 1%Z) (Some "foo"))
                  (or_introl Hm))).
Defined.

Section StringFacts.

Lemma append_nil_r (s : string) : s +:+ "" = s.
Proof.
  induction s as [|c s IH]; [reflexivity|].
  change (String c (s +:+ "") = String c s). f_equal. exact IH.
Qed.

Lemma append_assoc (a b c : string) : (a +:+ b) +:+ c = a +:+ (b +:+ c).
Proof.
  induction a as [|x a IH]; [reflexivity|].
  change (String x ((a +:+ b) +:+ c) = String x (a +:+ (b +:+ c))). f_equal. exact IH.
Qed.

Lemma occurs_in_app_l (piece a b : string) : Py.occurs_in piece b -> Py.occurs_in piece (a +:+ b).
Proof.
  intros (pre & post & ->). exists (a +:+ pre), post. rewrite append_assoc. reflexivity.
Qed.

Lemma occurs_in_app_r (piece a b : string) : Py.occurs_in piece a -> Py.occurs_in piece (a +:+ b).
Proof.
  intros (pre & post & ->). exists pre, (post +:+ b). rewrite !append_assoc. reflexivity.
Qed.

Lemma occurs_in_join (sep x : string) (l : list string) :
  x ∈ l -> Py.occurs_in x (Py.join sep l).
Proof.
  unfold Py.join. induction l as [|y l IH]; intros Hin; [inversion Hin|].
  apply elem_of_cons in Hin as [->|Hin].
  - destruct l as [|z l]; cbn [String.concat].
    + exists "", "". symmetry. apply append_nil_r.
    + exists "", (sep +:+ String.concat sep (z :: l)). reflexivity.
  - destruct l as [|z l]; [inversion Hin|].
    change (String.concat sep (y :: z :: l)) with (y +:+ sep +:+ String.concat sep (z :: l)).
    apply occurs_in_app_l, occurs_in_app_l, IH, Hin.
Qed.

Lemma insert_sorted_elem (x y : string) (l : list string) :
  x ∈ Py.insert_sorted y l <-> x = y \/ x ∈ l.
Proof.
  induction l as [|z l IH]; cbn [Py.insert_sorted].
  - rewrite list_elem_of_singleton. split; [tauto|]. intros [?|H]; [assumption|inversion H].
  - destruct (String.leb y z).
    + rewrite elem_of_cons. reflexivity.
    + rewrite !elem_of_cons, IH. tauto.
Qed.

Lemma sorted_elem (x : string) (l : list string) : x ∈ Py.sorted l <-> x ∈ l.
Proof.
  unfold Py.sorted. induction l as [|y l IH]; cbn [fold_right]; [reflexivity|].
  rewrite insert_sorted_elem, IH, elem_of_cons. reflexivity.
Qed.

(** The error for a mixed cluster prints every one of the names. *)
Lemma mixed_names_error_mentions (idx : nat) (names : list string) (n : string) :
  n ∈ names -> Py.occurs_in (Py.repr n) (Extract.mixed_names_error idx names).
Proof.
  intros Hin. unfold Extract.mixed_names_error, Py.repr_list.
  apply occurs_in_app_l, occurs_in_app_l, occurs_in_app_l, occurs_in_app_r.
  apply occurs_in_app_l, occurs_in_app_r, occurs_in_join.
  apply list_elem_of_fmap. exists n. split; [reflexivity|exact Hin].
Qed.

Lemma two_distinct_elements {A : Type} (x y : A) (l : list A) :
  x ∈ l -> y ∈ l -> x <> y -> 1 < length l.
Proof.
  destruct l as [|a [|b l]]; cbn [length]; intros Hx Hy Hne; [inversion Hx| |lia].
  apply list_elem_of_singleton in Hx, Hy. congruence.
Qed.

End StringFacts.

(** C3 fails for a cluster the caller's index list leaves out: the cluster
    at index 0 mixes the names [foo] and [bar], only index 1 is selected,
    and the single error recorded is the one of the cluster at index 1. *)
Lemma C3_unselected_mixed_cluster_gets_no_error :
  let mixed0 := Cluster "h0" [ Loc (Some "A.pushbutton/script.py") (Some 1%Z) (Some "foo");
                               Loc (Some "B.pushbutton/script.py") (Some 1%Z) (Some "bar") ] in
  let mixed1 := Cluster "h1" [ Loc (Some "A.pushbutton/script.py") (Some 5%Z) (Some "load");
                               Loc (Some "B.pushbutton/script.py") (Some 5%Z) (Some "save") ] in
  exists x,
    Extract.extract Scenario.parse Scenario.two_scripts Scenario.repo
      (Scenario.two_files Scenario.src_foo_long) (Some [mixed0; mixed1]) (Some [1%Z]) None None
    = Ok x
    /\ Extract.patches x = []
    /\ Extract.x_errors x
       = ["Cluster 1: mixed function names ['load', 'save'] (extract only same-name clusters)"].
Proof.
  cbv zeta. eexists. split; [vm_compute; reflexivity|]. split; reflexivity.
Qed.

(** C3 (amended): for every cluster the loop selects (no index list is
    given, or the index of the cluster is in it) whose locations all carry
    a name and carry two or more distinct names, the loop body adds one
    error that prints the sorted distinct names, adds no patch, no
    extracted entry and no library source, and the loop goes on with the
    remaining clusters; a cluster the index list leaves out is passed over
    with no error. *)
Theorem C3_mixed_names_are_rejected
    (ast_parse : string -> option Ast.module)
    (repo_root : Path.t) (fs : filesystem)
    (mapping : list LibStructure.mapping_entry) (cluster_indices : option (list Z))
    (idx : nat) (c : cluster) (st : Extract.state) (l1 l2 : location) :
  Forall (fun loc => is_Some (name loc)) (locations c) ->
  l1 ∈ locations c -> l2 ∈ locations c -> name l1 <> name l2 ->
  exists names msg,
    mapM id (remove_dups (map name (locations c))) = Some names
    /\ msg = Extract.mixed_names_error idx (Py.sorted names)
    /\ Extract.process_cluster ast_parse repo_root fs mapping cluster_indices idx c st
       = Ok (if Extract.selected cluster_indices idx then Extract.add_error st msg else st)
    /\ Extract.errors (Extract.add_error st msg) = Extract.errors st ++ [msg]
    /\ Extract.script_patches (Extract.add_error st msg) = Extract.script_patches st
    /\ Extract.extracted (Extract.add_error st msg) = Extract.extracted st
    /\ Extract.lib_contents (Extract.add_error st msg) = Extract.lib_contents st
    /\ (forall loc n, loc ∈ locations c -> name loc = Some n -> Py.occurs_in (Py.repr n) msg)
    /\ (forall rest,
          Extract.run_clusters ast_parse repo_root fs mapping cluster_indices idx (c :: rest) st
          = Extract.run_clusters ast_parse repo_root fs mapping cluster_indices (S idx) rest
              (if Extract.selected cluster_indices idx then Extract.add_error st msg else st)).
Proof.
  intros Hall H1 H2 Hne.
  assert (Hsome : is_Some (mapM id (remove_dups (map name (locations c))))).
  { apply mapM_is_Some, Forall_forall. intros o Ho. rewrite elem_of_remove_dups in Ho.
    apply list_elem_of_fmap in Ho as (loc & -> & Hloc).
    rewrite Forall_forall in Hall. exact (Hall loc Hloc). }
  destruct Hsome as [names Hnames].
  assert (Hlen : 1 < length (remove_dups (map name (locations c)))).
  { apply (two_distinct_elements (name l1) (name l2)); [| |exact Hne];
      rewrite elem_of_remove_dups; apply list_elem_of_fmap; eexists; split; try reflexivity;
      assumption. }
  assert (Hlocs : 1 < length (locations c)).
  { apply (two_distinct_elements l1 l2); [assumption|assumption|congruence]. }
  assert (Hstep : Extract.process_cluster ast_parse repo_root fs mapping cluster_indices idx c st
                  = Ok (if Extract.selected cluster_indices idx
                        then Extract.add_error st (Extract.mixed_names_error idx (Py.sorted names))
                        else st)).
  { unfold Extract.process_cluster.
    destruct (Extract.selected cluster_indices idx); cbn [negb]; [|reflexivity].
    rewrite (proj2 (Nat.ltb_ge _ _)) by lia.
    rewrite (proj2 (Nat.ltb_lt _ _) Hlen).
    unfold Extract.sorted_names. rewrite Hnames. reflexivity. }
  exists names, (Extract.mixed_names_error idx (Py.sorted names)).
  split; [exact Hnames|]. split; [reflexivity|]. split; [exact Hstep|].
  split; [reflexivity|]. split; [reflexivity|]. split; [reflexivity|]. split; [reflexivity|].
  split.
  - intros loc n Hloc Hn. apply mixed_names_error_mentions, sorted_elem.
    apply (mapM_fmap_Some_inv id Some) in Hnames; [|intros x y; cbn; congruence].
    assert (Hin : Some n ∈ remove_dups (map name (locations c))).
    { rewrite elem_of_remove_dups. apply list_elem_of_fmap. exists loc.
      split; [symmetry; exact Hn|exact Hloc]. }
    rewrite <- Hnames in Hin. apply list_elem_of_fmap in Hin as (n' & E & Hin).
    injection E as ->. exact Hin.
  - intros rest. cbn [Extract.run_clusters]. rewrite Hstep. reflexivity.
Qed.

(** A cluster of [foo] and [bar], with no index list. *)
Lemma C3_mixed_names_are_rejected_witness :
  let l1 := Loc (Some "A.pushbutton/script.py") (Some 1%Z) (Some "foo") in
  let l2 := Loc (Some "B.pushbutton/script.py") (Some 1%Z) (Some "bar") in
  Forall (fun loc => is_Some (name loc)) [l1; l2]
  /\ name l1 <> name l2
  /\ exists names msg,
       mapM id (remove_dups (map name [l1; l2])) = Some names
       /\ msg = Extract.mixed_names_error 0 (Py.sorted names)
       /\ Extract.process_cluster Scenario.parse Scenario.repo ∅ [] None 0
            (Cluster "h" [l1; l2]) (Extract.State [] [] [] [])
          = Ok (Extract.add_error (Extract.State [] [] [] []) msg).
Proof.
  cbv zeta.
  assert (Hall : Forall (fun loc => is_Some (name loc))
                   [ Loc (Some "A.pushbutton/script.py") (Some 1%Z) (Some "foo");
                     Loc (Some "B.pushbutton/script.py") (Some 1%Z) (Some "bar") ])
    by (repeat constructor; eexists; reflexivity).
  assert (Hne : name (Loc (Some "A.pushbutton/script.py") (Some 1%Z) (Some "foo"))
                <> name (Loc (Some "B.pushbutton/script.py") (Some 1%Z) (Some "bar")))
    by discriminate.
  split; [exact Hall|]. split; [exact Hne|].
  destruct (C3_mixed_names_are_rejected Scenario.parse Scenario.repo ∅ [] None 0
              (Cluster "h" [ Loc (Some "A.pushbutton/script.py") (Some 1%Z) (Some "foo");
                             Loc (Some "B.pushbutton/script.py") (Some 1%Z) (Some "bar") ])
              (Extract.State [] [] [] [])
              (Loc (Some "A.pushbutton/script.py") (Some 1%Z) (Some "foo"))
              (Loc (Some "B.pushbutton/script.py") (Some 1%Z) (Some "bar"))
              Hall
              ltac:(left)
              ltac:(right; left)
              Hne)
    as (names & msg & Hn & Hm & Hp & _).
  exists names, msg. split; [exact Hn|]. split; [exact Hm|exact Hp].
Defined.

(** ** The end-to-end scenario *)

(** C2 fails on the threshold: the fingerprint of
    [def foo(a, b): return a+b] is [def(2):return], 13 characters, so both
    functions are skipped; [analyze] returns no cluster and [extract], in
    dry-run mode, no patch and no extracted entry. *)
Lemma C2_two_short_foo_give_no_cluster :
  let fs := Scenario.two_files Scenario.src_foo in
  map Dup.fr_body (Dup._extract_functions Scenario.parse fs
                     (Path.joinpath Scenario.repo Scenario.script_a))
  = ["def(2):return"]
  /\ String.length "def(2):return" = 13
  /\ Dup.analyze Scenario.parse Scenario.two_scripts Scenario.repo fs None None true = ([], [])
  /\ exists x,
       Extract.extract Scenario.parse Scenario.two_scripts Scenario.repo fs None None
                       (Some "dry_run") None = Ok x
       /\ Extract.patches x = [] /\ Extract.x_extracted x = [] /\ Extract.x_errors x = [].
Proof.
  cbv zeta. split; [vm_compute; reflexivity|]. split; [reflexivity|].
  split; [vm_compute; reflexivity|].
  eexists. split; [vm_compute; reflexivity|]. repeat split.
Qed.

Section ShortFoo.

Variable ast_parse : string -> option Ast.module.
Variable scan_py_files : Path.t -> filesystem -> list string.
Variable repo_root : Path.t.
Variable fs : filesystem.

Lemma normalize_short_foo (l e : nat) :
  Dup._normalize_ast (Ast.FunctionDef "foo" 2 l e [Ast.Return]) = "def(2):return".
Proof. vm_compute. reflexivity. Qed.

Lemma extract_functions_short_foo (sp text : string) (l e : nat) :
  FS.read_text fs (Path.joinpath repo_root sp) = Some text ->
  ast_parse text = Some [Ast.FunctionDef "foo" 2 l e [Ast.Return]] ->
  Dup._extract_functions ast_parse fs (Path.joinpath repo_root sp)
  = [Dup.FuncRecord l "foo" "def(2):return"].
Proof.
  intros Hr Hp. unfold Dup._extract_functions. rewrite Hr, Hp.
  change (Ast.walk [Ast.FunctionDef "foo" 2 l e [Ast.Return]])
    with [Ast.FunctionDef "foo" 2 l e [Ast.Return]; Ast.Return].
  change (omap Dup.record_of_node [Ast.FunctionDef "foo" 2 l e [Ast.Return]; Ast.Return])
    with [Dup.FuncRecord l "foo"
            (Dup._normalize_ast (Ast.FunctionDef "foo" 2 l e [Ast.Return]))].
  rewrite normalize_short_foo. reflexivity.
Qed.

(** Two scripts that each define only the short [foo] give no cluster,
    whether names are compared or not. *)
Lemma analyze_short_foo (p1 p2 t1 t2 : string) (l1 e1 l2 e2 : nat) (same_name_only : bool) :
  scan_py_files repo_root fs = [p1; p2] ->
  FS.read_text fs (Path.joinpath repo_root p1) = Some t1 ->
  FS.read_text fs (Path.joinpath repo_root p2) = Some t2 ->
  ast_parse t1 = Some [Ast.FunctionDef "foo" 2 l1 e1 [Ast.Return]] ->
  ast_parse t2 = Some [Ast.FunctionDef "foo" 2 l2 e2 [Ast.Return]] ->
  Dup.analyze ast_parse scan_py_files repo_root fs None None same_name_only = ([], []).
Proof.
  intros Hs Hr1 Hr2 Hp1 Hp2. unfold Dup.analyze, Dup.resolve_script_paths. rewrite Hs.
  unfold Dup.scanned. cbn [flat_map].
  rewrite (extract_functions_short_foo p1 t1 l1 e1 Hr1 Hp1).
  rewrite (extract_functions_short_foo p2 t2 l2 e2 Hr2 Hp2).
  reflexivity.
Qed.

End ShortFoo.

(** * Further properties of the modelled code *)

(** ** The patch engine *)

Section PatchEngineMore.
Import PatchEngine.

Variable repo_root : Path.t.
Variable mode : string.

Lemma flat_map_applied_by (ps : list patch) :
  flat_map (applied_by repo_root mode) ps
  = map (fun p => if String.eqb mode "write" then path p else path p +:+ " (dry-run)")
        (List.filter (fun p => inside_repo repo_root (path p)) ps).
Proof.
  induction ps as [|p ps IH]; [reflexivity|].
  cbn [flat_map List.filter]. unfold applied_by at 1.
  destruct (inside_repo repo_root (path p)); cbn [negb map app].
  - rewrite IH. destruct (String.eqb mode "write"); reflexivity.
  - exact IH.
Qed.

Lemma flat_map_errors_by (ps : list patch) :
  flat_map (errors_by repo_root) ps
  = map (fun p => "Skipped " +:+ path p +:+ ": outside repo")
        (List.filter (fun p => negb (inside_repo repo_root (path p))) ps).
Proof.
  induction ps as [|p ps IH]; [reflexivity|].
  cbn [flat_map List.filter]. unfold errors_by at 1.
  destruct (inside_repo repo_root (path p)); cbn [negb map app].
  - exact IH.
  - rewrite IH. reflexivity.
Qed.

Lemma filter_partition_length {A : Type} (f : A -> bool) (l : list A) :
  length (List.filter f l) + length (List.filter (fun x => negb (f x)) l) = length l.
Proof.
  induction l as [|x l IH]; [reflexivity|].
  cbn [List.filter]. destruct (f x); cbn [negb length]; lia.
Qed.

(** A file no written patch targets keeps its content. *)
Lemma files_fold_lookup_other (ps : list patch) (st : outcome) (f : string) :
  Forall (fun p => writes repo_root mode p = true ->
                   FS.key (Path.joinpath repo_root (path p)) <> f) ps ->
  files (fold_left (apply_one repo_root mode) ps st) !! f = files st !! f.
Proof.
  intros H. revert st. induction H as [|p ps Hp Hps IH]; intros st; cbn [fold_left]; [reflexivity|].
  rewrite IH, files_apply_one.
  destruct (writes repo_root mode p) eqn:E; [|reflexivity].
  apply lookup_insert_ne. apply Hp. reflexivity.
Qed.

(** The last written patch of a file decides its content. *)
Lemma files_fold_lookup_last (pre post : list patch) (p : patch) (st : outcome) :
  writes repo_root mode p = true ->
  Forall (fun q => writes repo_root mode q = true ->
                   FS.key (Path.joinpath repo_root (path q))
                   <> FS.key (Path.joinpath repo_root (path p))) post ->
  files (fold_left (apply_one repo_root mode) (pre ++ p :: post) st)
    !! FS.key (Path.joinpath repo_root (path p))
  = Some (written_content p).
Proof.
  intros Hw Hpost. rewrite fold_left_app. cbn [fold_left].
  rewrite (files_fold_lookup_other post _ _ Hpost), files_apply_one, Hw.
  apply lookup_insert_eq.
Qed.

End PatchEngineMore.

(** X3: applying a concatenated patch list is applying the first part and
    then the second on the files the first left; the lists returned are
    the concatenation of the lists of the two runs. *)
Theorem X3_apply_patches_of_concatenation
    (repo_root : Path.t) (fs : filesystem)
    (ps qs : list PatchEngine.patch) (mode : option string) :
  let whole := PatchEngine.apply_patches repo_root fs (ps ++ qs) mode in
  let first := PatchEngine.apply_patches repo_root fs ps mode in
  let second := PatchEngine.apply_patches repo_root (PatchEngine.files first) qs mode in
  PatchEngine.files whole = PatchEngine.files second
  /\ PatchEngine.applied whole = PatchEngine.applied first ++ PatchEngine.applied second
  /\ PatchEngine.errors whole = PatchEngine.errors first ++ PatchEngine.errors second.
Proof.
  cbv zeta. unfold PatchEngine.apply_patches.
  set (m := default "dry_run" mode). rewrite fold_left_app.
  set (st1 := fold_left (PatchEngine.apply_one repo_root m) ps (PatchEngine.Outcome fs [] [])).
  split.
  - apply files_fold_ext. reflexivity.
  - destruct (lists_fold repo_root m qs st1) as [Ha He].
    destruct (lists_fold repo_root m qs (PatchEngine.Outcome (PatchEngine.files st1) [] []))
      as [Ha' He'].
    rewrite Ha, He, Ha', He'. split; reflexivity.
Qed.

(** ** The duplicate detector *)

Section DupMore.
Import Dup.

Variable ast_parse : string -> option Ast.module.
Variable same_name_only : bool.

(** Every location recorded under a key is the location of a scanned
    record that is long enough and has that key. *)
Lemma hash_to_locs_elem (its : list (string * func_record)) k locs loc :
  (k, locs) ∈ hash_to_locs same_name_only its -> loc ∈ locs ->
  exists sp r, (sp, r) ∈ its /\ long_enough (sp, r) = true
               /\ loc = loc_of sp r /\ k = key_of same_name_only r.
Proof.
  intros Hk Hloc. rewrite hash_to_locs_grouped in Hk.
  unfold grouped in Hk. apply list_elem_of_fmap in Hk as (k' & E & _).
  injection E as <- ->.
  unfold locations_of_key in Hloc. apply list_elem_of_fmap in Hloc as ([sp r] & -> & Hin).
  apply list_elem_of_In, filter_In in Hin as [Hin Hkey].
  apply filter_In in Hin as [Hin Hlong]. cbn [fst snd] in *.
  exists sp, r. split; [apply list_elem_of_In; exact Hin|].
  apply bool_decide_eq_true in Hkey.
  split; [exact Hlong|]. split; [reflexivity|]. symmetry. exact Hkey.
Qed.

Lemma long_enough_length sp r :
  long_enough (sp, r) = true <-> 20 <= String.length (fr_body r).
Proof.
  unfold long_enough. cbn [snd]. rewrite negb_true_iff, Nat.ltb_ge. reflexivity.
Qed.

Lemma record_of_node_inv (n : Ast.node) (r : func_record) :
  record_of_node n = Some r ->
  exists nargs end_lineno body,
    n = Ast.FunctionDef (fr_name r) nargs (fr_line r) end_lineno body
    /\ fr_body r = _normalize_ast n.
Proof.
  destruct n as [fname nargs lineno end_lineno body| | | |b e|ch]; cbn [record_of_node];
    try discriminate.
  intros [= <-]. exists nargs, end_lineno, body. split; reflexivity.
Qed.

Lemma extract_functions_elem (fs : filesystem) (p : Path.t) (r : func_record) :
  r ∈ _extract_functions ast_parse fs p ->
  exists text tree n,
    FS.read_text fs p = Some text /\ ast_parse text = Some tree
    /\ n ∈ Ast.walk tree /\ record_of_node n = Some r.
Proof.
  unfold _extract_functions.
  destruct (FS.read_text fs p) as [text|] eqn:Hread; [|intros H; inversion H].
  destruct (ast_parse text) as [tree|] eqn:Hparse; [|intros H; inversion H].
  intros H. apply list_elem_of_omap in H as (n & Hn & Hr).
  exists text, tree, n. split; [reflexivity|]. split; [exact Hparse|].
  split; [exact Hn|exact Hr].
Qed.

Lemma scanned_elem (repo_root : Path.t) (fs : filesystem) (paths : list string) sp r :
  (sp, r) ∈ scanned ast_parse repo_root fs paths <->
  sp ∈ paths /\ r ∈ _extract_functions ast_parse fs (Path.joinpath repo_root sp).
Proof.
  unfold scanned. rewrite list_elem_of_In, in_flat_map. split.
  - intros (sp' & Hsp & Hin). apply list_elem_of_In, list_elem_of_fmap in Hin as (r' & E & Hr).
    injection E as -> ->. split; [apply list_elem_of_In; exact Hsp|exact Hr].
  - intros [Hsp Hr]. exists sp. split; [apply list_elem_of_In; exact Hsp|].
    apply list_elem_of_In, list_elem_of_fmap. exists r. split; [reflexivity|exact Hr].
Qed.

(** The clusters returned are clusters of the dictionary. *)
Lemma analyze_clusters_Forall (scan_py_files : Path.t -> filesystem -> list string)
    (repo_root : Path.t) (fs : filesystem) (script_paths : option (list string))
    (limit : option Z) (P : cluster -> Prop) :
  Forall P (clusters_of (hash_to_locs same_name_only
              (scanned ast_parse repo_root fs
                 (resolve_script_paths scan_py_files repo_root fs script_paths)))) ->
  Forall P (fst (analyze ast_parse scan_py_files repo_root fs script_paths limit same_name_only)).
Proof.
  intros H. unfold analyze. cbn [fst]. apply apply_limit_Forall, sort_desc_Forall, H.
Qed.

End DupMore.

(** The distinct elements of a non-empty list of copies of [x]. *)
Lemma remove_dups_constant {A : Type} `{EqDecision A} (x : A) (l : list A) :
  Forall (fun y => y = x) l -> l <> [] -> remove_dups l = [x].
Proof.
  intros H. induction H as [|y l Hy Hl IH]; intros Hne; [contradiction|].
  subst y. cbn [remove_dups]. destruct (decide_rel elem_of x l) as [Hin|Hout].
  - apply IH. intros ->. inversion Hin.
  - destruct l as [|z l]; [reflexivity|].
    exfalso. apply Hout. inversion Hl; subst. left.
Qed.

(** X5: every location of every cluster [analyze] returns is real: its
    script is one of the scanned paths, that file is readable and parses,
    and its tree holds a function definition with the location's name at
    the location's line, whose fingerprint has at least 20 characters and
    hashes to the hash of the cluster. *)
Theorem X5_cluster_locations_are_function_definitions
    (ast_parse : string -> option Ast.module)
    (scan_py_files : Path.t -> filesystem -> list string)
    (repo_root : Path.t) (fs : filesystem)
    (script_paths : option (list string)) (limit : option Z) (same_name_only : bool) :
  let paths := Dup.resolve_script_paths scan_py_files repo_root fs script_paths in
  Forall (fun c =>
    Forall (fun loc =>
      exists sp text tree fname nargs lineno end_lineno body,
        script loc = Some sp /\ sp ∈ paths
        /\ FS.read_text fs (Path.joinpath repo_root sp) = Some text
        /\ ast_parse text = Some tree
        /\ Ast.FunctionDef fname nargs lineno end_lineno body ∈ Ast.walk tree
        /\ name loc = Some fname
        /\ line loc = Some (Z.of_nat lineno)
        /\ 20 <= String.length
                   (Dup._normalize_ast (Ast.FunctionDef fname nargs lineno end_lineno body))
        /\ hash c = Dup._hash_body
                      (Dup._normalize_ast (Ast.FunctionDef fname nargs lineno end_lineno body)))
      (locations c))
    (fst (Dup.analyze ast_parse scan_py_files repo_root fs script_paths limit same_name_only)).
Proof.
  cbv zeta. apply analyze_clusters_Forall.
  eapply Forall_impl; [apply clusters_of_sound|]. cbn beta.
  intros c (_ & k & Hk & Hh). apply Forall_forall. intros loc Hloc.
  destruct (hash_to_locs_elem same_name_only _ _ _ _ Hk Hloc) as (sp & r & Hin & Hlong & -> & ->).
  apply scanned_elem in Hin as [Hsp Hr].
  apply extract_functions_elem in Hr as (text & tree & n & Hread & Hparse & Hn & Hrec).
  apply record_of_node_inv in Hrec as (nargs & e & body & -> & Hbody).
  apply long_enough_length in Hlong.
  exists sp, text, tree, (Dup.fr_name r), nargs, (Dup.fr_line r), e, body.
  rewrite <- Hbody.
  split; [reflexivity|]. split; [exact Hsp|]. split; [exact Hread|]. split; [exact Hparse|].
  split; [exact Hn|]. split; [reflexivity|]. split; [reflexivity|]. split; [exact Hlong|].
  rewrite Hh. unfold Dup.key_of. destruct same_name_only; reflexivity.
Qed.

(** X6: with [same_name_only] every cluster [analyze] returns carries one
    function name: all of its locations have that name, so the list of
    its distinct names has one element and the extraction engine does not
    reject the cluster for mixed names. *)
Theorem X6_same_name_clusters_have_one_name
    (ast_parse : string -> option Ast.module)
    (scan_py_files : Path.t -> filesystem -> list string)
    (repo_root : Path.t) (fs : filesystem)
    (script_paths : option (list string)) (limit : option Z) :
  Forall (fun c =>
            exists n, Forall (fun loc => name loc = Some n) (locations c)
                      /\ remove_dups (map name (locations c)) = [Some n])
         (fst (Dup.analyze ast_parse scan_py_files repo_root fs script_paths limit true)).
Proof.
  apply analyze_clusters_Forall.
  eapply Forall_impl; [apply clusters_of_sound|]. cbn beta.
  intros c (Hlen & k & Hk & _).
  assert (Hname : exists n, Forall (fun loc => name loc = Some n) (locations c)).
  { destruct k as [h|h n].
    - destruct (locations c) as [|loc locs] eqn:E; [cbn in Hlen; lia|].
      destruct (hash_to_locs_elem true _ _ _ loc Hk) as (sp & r & _ & _ & _ & Hkey);
        [left|]. discriminate Hkey.
    - exists n. apply Forall_forall. intros loc Hloc.
      destruct (hash_to_locs_elem true _ _ _ loc Hk Hloc) as (sp & r & _ & _ & -> & Hkey).
      injection Hkey as _ ->. reflexivity. }
  destruct Hname as [n Hn]. exists n. split; [exact Hn|].
  apply remove_dups_constant.
  - apply Forall_fmap. exact Hn.
  - destruct (locations c); [cbn in Hlen; lia|discriminate].
Qed.

Section DupComplete.
Import Dup.

Variable same_name_only : bool.

(** A scanned record that is long enough is recorded under its key. *)
Lemma hash_to_locs_complete (its : list (string * func_record)) sp r :
  (sp, r) ∈ its -> long_enough (sp, r) = true ->
  (key_of same_name_only r,
   locations_of_key same_name_only (key_of same_name_only r) (List.filter long_enough its))
    ∈ hash_to_locs same_name_only its
  /\ loc_of sp r
       ∈ locations_of_key same_name_only (key_of same_name_only r) (List.filter long_enough its).
Proof.
  intros Hin Hlong.
  assert (Hin' : (sp, r) ∈ List.filter long_enough its).
  { apply list_elem_of_In, filter_In. split; [apply list_elem_of_In; exact Hin|exact Hlong]. }
  split.
  - rewrite hash_to_locs_grouped. unfold grouped.
    apply list_elem_of_fmap. exists (key_of same_name_only r). split; [reflexivity|].
    apply first_seen_elem, list_elem_of_fmap. exists (sp, r). split; [reflexivity|exact Hin'].
  - unfold locations_of_key. apply list_elem_of_fmap. exists (sp, r). split; [reflexivity|].
    apply list_elem_of_In, filter_In. split; [apply list_elem_of_In; exact Hin'|].
    apply bool_decide_eq_true. reflexivity.
Qed.

Lemma clusters_of_elem (d : list (key * list location)) k locs :
  (k, locs) ∈ d -> 2 <= length locs -> Cluster (hash_of_key k) locs ∈ clusters_of d.
Proof.
  intros Hin Hlen. rewrite clusters_of_filter. apply list_elem_of_fmap.
  exists (k, locs). split; [reflexivity|].
  apply list_elem_of_In, filter_In. split; [apply list_elem_of_In; exact Hin|].
  cbn [snd]. apply negb_true_iff, Nat.leb_gt. lia.
Qed.

Lemma filter_two_kept {A : Type} (f : A -> bool) (a b c : list A) (x y : A) :
  f x = true -> f y = true ->
  List.filter f (a ++ x :: b ++ y :: c)
  = List.filter f a ++ x :: List.filter f b ++ y :: List.filter f c.
Proof.
  intros Hx Hy. rewrite List.filter_app.
  change (List.filter f (x :: b ++ y :: c))
    with (if f x then x :: List.filter f (b ++ y :: c) else List.filter f (b ++ y :: c)).
  rewrite Hx, List.filter_app.
  change (List.filter f (y :: c)) with (if f y then y :: List.filter f c else List.filter f c).
  rewrite Hy. reflexivity.
Qed.

Lemma filter_two_length {A : Type} (f : A -> bool) (a b c : list A) (x y : A) :
  f x = true -> f y = true -> 2 <= length (List.filter f (a ++ x :: b ++ y :: c)).
Proof.
  intros Hx Hy. rewrite filter_two_kept by assumption.
  rewrite length_app. cbn [length]. rewrite length_app. cbn [length]. lia.
Qed.

End DupComplete.

(** X7: the clustering is blind to names unless asked: two scanned
    functions with the same fingerprint of 20 characters or more are
    recorded under one key when [same_name_only] is off, whatever their
    names; when it is on and their names differ, no key holds both.  The
    fingerprint of a definition does not depend on its name or lines. *)
Theorem X7_same_skeleton_one_key_unless_names_differ
    (its : list (string * Dup.func_record)) (sp1 sp2 : string) (r1 r2 : Dup.func_record) :
  (sp1, r1) ∈ its -> (sp2, r2) ∈ its ->
  Dup.fr_body r1 = Dup.fr_body r2 -> 20 <= String.length (Dup.fr_body r1) ->
  (exists locs,
     (KHash (Dup._hash_body (Dup.fr_body r1)), locs) ∈ Dup.hash_to_locs false its
     /\ Dup.loc_of sp1 r1 ∈ locs /\ Dup.loc_of sp2 r2 ∈ locs)
  /\ (Dup.fr_name r1 <> Dup.fr_name r2 ->
      forall k locs, (k, locs) ∈ Dup.hash_to_locs true its ->
                     Dup.loc_of sp1 r1 ∈ locs -> Dup.loc_of sp2 r2 ∉ locs)
  /\ (forall n1 n2 nargs l1 e1 l2 e2 body,
        Dup._normalize_ast (Ast.FunctionDef n1 nargs l1 e1 body)
        = Dup._normalize_ast (Ast.FunctionDef n2 nargs l2 e2 body)).
Proof.
  intros H1 H2 Hbody Hlen.
  assert (L1 : Dup.long_enough (sp1, r1) = true) by (apply long_enough_length; exact Hlen).
  assert (L2 : Dup.long_enough (sp2, r2) = true)
    by (apply long_enough_length; rewrite <- Hbody; exact Hlen).
  split; [|split].
  - destruct (hash_to_locs_complete false its sp1 r1 H1 L1) as [Hk Hl1].
    destruct (hash_to_locs_complete false its sp2 r2 H2 L2) as [_ Hl2].
    eexists. split; [exact Hk|]. split; [exact Hl1|].
    unfold Dup.key_of in Hl2 |- *. rewrite Hbody. exact Hl2.
  - intros Hne k locs Hk Hin1 Hin2.
    destruct (hash_to_locs_elem true _ _ _ _ Hk Hin1) as (sp & r & _ & _ & E1 & Hkey1).
    destruct (hash_to_locs_elem true _ _ _ _ Hk Hin2) as (sp' & r' & _ & _ & E2 & Hkey2).
    unfold Dup.loc_of in E1, E2. injection E1 as _ _ N1. injection E2 as _ _ N2.
    rewrite Hkey1 in Hkey2. unfold Dup.key_of in Hkey2. injection Hkey2 as _ N.
    apply Hne. congruence.
  - reflexivity.
Qed.

(** Two copies of one skeleton under the names [load] and [save]. *)
Lemma X7_same_skeleton_one_key_unless_names_differ_witness :
  let r1 := Dup.FuncRecord 1 "load" "def(1):assignassignreturn" in
  let r2 := Dup.FuncRecord 7 "save" "def(1):assignassignreturn" in
  exists locs,
    (KHash (Dup._hash_body "def(1):assignassignreturn"), locs)
      ∈ Dup.hash_to_locs false [("a.py", r1); ("b.py", r2)]
    /\ Dup.loc_of "a.py" r1 ∈ locs /\ Dup.loc_of "b.py" r2 ∈ locs.
Proof.
  cbv zeta.
  apply (X7_same_skeleton_one_key_unless_names_differ
           [ ("a.py", Dup.FuncRecord 1 "load" "def(1):assignassignreturn");
             ("b.py", Dup.FuncRecord 7 "save" "def(1):assignassignreturn") ]
           "a.py" "b.py"
           (Dup.FuncRecord 1 "load" "def(1):assignassignreturn")
           (Dup.FuncRecord 7 "save" "def(1):assignassignreturn")).
  - left.
  - right. left.
  - reflexivity.
  - vm_compute. lia.
Defined.

(** X9: without a limit no duplicate is missed: two scanned functions (at
    two places of the scan) with fingerprints of 20 characters or more and
    the same key are locations of one returned cluster, which carries
    their hash. *)
Theorem X9_every_duplicate_pair_is_clustered
    (ast_parse : string -> option Ast.module)
    (scan_py_files : Path.t -> filesystem -> list string)
    (repo_root : Path.t) (fs : filesystem)
    (script_paths : option (list string)) (same_name_only : bool)
    (a b c : list (string * Dup.func_record))
    (sp1 sp2 : string) (r1 r2 : Dup.func_record) :
  Dup.scanned ast_parse repo_root fs
    (Dup.resolve_script_paths scan_py_files repo_root fs script_paths)
  = a ++ (sp1, r1) :: b ++ (sp2, r2) :: c ->
  20 <= String.length (Dup.fr_body r1) ->
  20 <= String.length (Dup.fr_body r2) ->
  Dup.key_of same_name_only r1 = Dup.key_of same_name_only r2 ->
  exists cl,
    cl ∈ fst (Dup.analyze ast_parse scan_py_files repo_root fs script_paths None same_name_only)
    /\ hash cl = Dup._hash_body (Dup.fr_body r1)
    /\ Dup.loc_of sp1 r1 ∈ locations cl
    /\ Dup.loc_of sp2 r2 ∈ locations cl.
Proof.
  intros Hscan Hl1 Hl2 Hkey.
  assert (L1 : Dup.long_enough (sp1, r1) = true) by (apply long_enough_length; exact Hl1).
  assert (L2 : Dup.long_enough (sp2, r2) = true) by (apply long_enough_length; exact Hl2).
  set (its := a ++ (sp1, r1) :: b ++ (sp2, r2) :: c) in *.
  assert (I1 : (sp1, r1) ∈ its).
  { unfold its. apply elem_of_app. right. left. }
  assert (I2 : (sp2, r2) ∈ its).
  { unfold its. apply elem_of_app. right. right. apply elem_of_app. right. left. }
  destruct (hash_to_locs_complete same_name_only its sp1 r1 I1 L1) as [Hk Hloc1].
  destruct (hash_to_locs_complete same_name_only its sp2 r2 I2 L2) as [_ Hloc2].
  rewrite <- Hkey in Hloc2.
  set (k := Dup.key_of same_name_only r1) in *.
  set (locs := Dup.locations_of_key same_name_only k (List.filter Dup.long_enough its)) in *.
  assert (Hlen : 2 <= length locs).
  { unfold locs, Dup.locations_of_key. rewrite length_map. unfold its.
    rewrite (filter_two_kept Dup.long_enough) by assumption.
    apply filter_two_length; cbn [snd]; apply bool_decide_eq_true;
      [reflexivity|symmetry; exact Hkey]. }
  exists (Cluster (Dup.hash_of_key k) locs).
  split; [|split; [|split; assumption]].
  - unfold Dup.analyze. cbn [fst Dup.apply_limit]. rewrite Hscan. fold its.
    apply (elem_of_Permutation_proper _ _ _ (sort_desc_perm _)).
    apply clusters_of_elem; assumption.
  - cbn [hash]. unfold k, Dup.key_of. destruct same_name_only; reflexivity.
Qed.

(** The two copies of the long [foo] of the scenario. *)
Lemma X9_every_duplicate_pair_is_clustered_witness :
  let fs := Scenario.two_files Scenario.src_foo_long in
  let r := Dup.FuncRecord 1 "foo" "def(2):assignassignreturn" in
  exists cl,
    cl ∈ fst (Dup.analyze Scenario.parse Scenario.two_scripts Scenario.repo fs None None true)
    /\ hash cl = Dup._hash_body "def(2):assignassignreturn"
    /\ Dup.loc_of Scenario.script_a r ∈ locations cl
    /\ Dup.loc_of Scenario.script_b r ∈ locations cl.
Proof.
  cbv zeta.
  apply (X9_every_duplicate_pair_is_clustered Scenario.parse Scenario.two_scripts Scenario.repo
           (Scenario.two_files Scenario.src_foo_long) None true
           [] [] [] Scenario.script_a Scenario.script_b
           (Dup.FuncRecord 1 "foo" "def(2):assignassignreturn")
           (Dup.FuncRecord 1 "foo" "def(2):assignassignreturn")).
  - vm_compute. reflexivity.
  - vm_compute. lia.
  - vm_compute. lia.
  - reflexivity.
Defined.

(** ** The extraction engine *)

Section StripFacts.

Lemma prefix_refl (s : string) : String.prefix s s = true.
Proof.
  induction s as [|c s IH]; [reflexivity|].
  cbn [String.prefix]. destruct (ascii_dec c c) as [_|Hne]; [exact IH|contradiction].
Qed.

Lemma prefix_contains (a s : string) : String.prefix a s = true -> Py.contains a s = true.
Proof. intros H. destruct s; cbn [Py.contains]; rewrite H; reflexivity. Qed.

Lemma contains_cons (a s : string) (c : ascii) :
  Py.contains a s = true -> Py.contains a (String c s) = true.
Proof. intros H. cbn [Py.contains]. rewrite H. apply orb_true_r. Qed.

Lemma rstrip_prefix (s : string) : String.prefix (Py.rstrip s) s = true.
Proof.
  induction s as [|c s IH]; [reflexivity|].
  cbn [Py.rstrip]. destruct (String.eqb (Py.rstrip s) "" && Py.isspace c); [reflexivity|].
  cbn [String.prefix]. destruct (ascii_dec c c) as [_|Hne]; [exact IH|contradiction].
Qed.

Lemma contains_lstrip (a s : string) :
  Py.contains a (Py.lstrip s) = true -> Py.contains a s = true.
Proof.
  induction s as [|c s IH]; [intros H; exact H|].
  cbn [Py.lstrip]. destruct (Py.isspace c); [|intros H; exact H].
  intros H. apply contains_cons, IH, H.
Qed.

(** A text contains its own stripped form. *)
Lemma contains_strip_self (s : string) : Py.contains (Py.strip s) s = true.
Proof. apply contains_lstrip, prefix_contains, rstrip_prefix. Qed.

End StripFacts.

(** X10: [_ensure_import] only ever inserts: its result is the list
    given, or the list given with the import line put between two of its
    parts; no line is dropped, changed or moved, and at most one line is
    added. *)
Theorem X10_ensure_import_only_inserts (lines : list string) (import_line : string) :
  exists pre post,
    lines = pre ++ post
    /\ (Extract._ensure_import lines import_line = lines
        \/ Extract._ensure_import lines import_line = pre ++ import_line :: post)
  /\ length (Extract._ensure_import lines import_line) <= length lines + 1.
Proof.
  unfold Extract._ensure_import.
  destruct (Extract.scan_imports (Py.strip import_line) 0 None lines) as [[i|]|].
  - exists (firstn (i + 1) lines), (skipn (i + 1) lines).
    split; [symmetry; apply firstn_skipn|]. split; [right; reflexivity|].
    assert (H : length (firstn (i + 1) lines) + length (skipn (i + 1) lines) = length lines)
      by (rewrite <- length_app, firstn_skipn; reflexivity).
    rewrite !length_app. cbn [length]. lia.
  - exists [], lines. split; [reflexivity|]. split; [right; reflexivity|]. cbn [length]. lia.
  - exists [], lines. split; [reflexivity|]. split; [left; reflexivity|]. lia.
Qed.

(** X11: [_ensure_import] is idempotent: run on its own result with the
    same import line it changes nothing, so no second copy of the import
    is ever added. *)
Theorem X11_ensure_import_twice (lines : list string) (import_line : string) :
  Extract._ensure_import (Extract._ensure_import lines import_line) import_line
  = Extract._ensure_import lines import_line.
Proof.
  assert (Hpresent : forall pre post,
    Extract._ensure_import (pre ++ import_line :: post) import_line
    = pre ++ import_line :: post).
  { intros pre post. unfold Extract._ensure_import.
    rewrite scan_imports_present; [reflexivity|].
    apply Exists_app. right. left. apply contains_strip_self. }
  destruct (Extract.scan_imports (Py.strip import_line) 0 None lines) as [[i|]|] eqn:E.
  - assert (R : Extract._ensure_import lines import_line
                = firstn (i + 1) lines ++ import_line :: skipn (i + 1) lines)
      by (unfold Extract._ensure_import; rewrite E; reflexivity).
    rewrite R. apply Hpresent.
  - assert (R : Extract._ensure_import lines import_line = [] ++ import_line :: lines)
      by (unfold Extract._ensure_import; rewrite E; reflexivity).
    rewrite R. apply Hpresent.
  - assert (R : Extract._ensure_import lines import_line = lines)
      by (unfold Extract._ensure_import; rewrite E; reflexivity).
    rewrite !R. reflexivity.
Qed.

Section ExtractSplit.
Import Extract.

Variable ast_parse : string -> option Ast.module.

Lemma take_slice_drop {A : Type} (a b : nat) (l : list A) :
  a <= b -> firstn a l ++ Py.slice a b l ++ skipn b l = l.
Proof.
  intros Hab. unfold Py.slice.
  replace (skipn b l) with (skipn (b - a) (skipn a l)).
  - rewrite firstn_skipn. apply firstn_skipn.
  - rewrite skipn_skipn. f_equal. lia.
Qed.

End ExtractSplit.

(** X12: taking a function out of a file loses nothing and copies
    nothing: when the definition is found, the lines of the file are
    [before ++ body ++ after], the text [_get_function_source] returns is
    the lines of [body] and the text [_remove_function_from_source]
    leaves is the lines of [before ++ after]. *)
Theorem X12_extraction_splits_the_lines
    (ast_parse : string -> option Ast.module) (fs : filesystem) (path : Path.t)
    (text : string) (tree : Ast.module) (func_name : string) (func_line : Z)
    (name : string) (nargs lineno end_lineno : nat) (body : list Ast.node) :
  FS.read_text fs path = Some text ->
  ast_parse text = Some tree ->
  List.find (Extract.is_target (Some func_name) (Some func_line)) (Ast.walk tree)
  = Some (Ast.FunctionDef name nargs lineno end_lineno body) ->
  lineno - 1 <= end_lineno ->
  exists before taken after,
    Py.splitlines text = before ++ taken ++ after
    /\ length before = Nat.min (lineno - 1) (length (Py.splitlines text))
    /\ Extract._get_function_source ast_parse fs path func_name (Some func_line)
       = Some (Py.join Py.newline taken)
    /\ Extract._remove_function_from_source ast_parse text (Some func_name) (Some func_line)
       = Extract.join_lines (before ++ after)
    /\ name = func_name /\ Z.of_nat lineno = func_line.
Proof.
  intros Hread Hparse Hfind Hspan.
  exists (firstn (lineno - 1) (Py.splitlines text)),
         (Py.slice (lineno - 1) end_lineno (Py.splitlines text)),
         (skipn end_lineno (Py.splitlines text)).
  split; [symmetry; apply take_slice_drop; exact Hspan|].
  split; [apply length_firstn|].
  split; [unfold Extract._get_function_source; rewrite Hread, Hparse, Hfind; reflexivity|].
  split; [unfold Extract._remove_function_from_source; rewrite Hparse, Hfind; reflexivity|].
  apply find_some in Hfind as [_ Ht]. cbn [Extract.is_target] in Ht.
  apply andb_true_iff in Ht as [H1 H2].
  apply bool_decide_eq_true in H1, H2. split; congruence.
Qed.

(** The long [foo] of the scenario, lines 1 to 4 of its script. *)
Lemma X12_extraction_splits_the_lines_witness :
  exists before taken after,
    Py.splitlines Scenario.src_foo_long = before ++ taken ++ after
    /\ length before = Nat.min (1 - 1) (length (Py.splitlines Scenario.src_foo_long))
    /\ Extract._get_function_source Scenario.parse (Scenario.two_files Scenario.src_foo_long)
         (Path.joinpath Scenario.repo Scenario.script_a) "foo" (Some 1%Z)
       = Some (Py.join Py.newline taken)
    /\ Extract._remove_function_from_source Scenario.parse Scenario.src_foo_long
         (Some "foo") (Some 1%Z)
       = Extract.join_lines (before ++ after)
    /\ "foo" = "foo" /\ Z.of_nat 1 = 1%Z.
Proof.
  apply (X12_extraction_splits_the_lines Scenario.parse
           (Scenario.two_files Scenario.src_foo_long)
           (Path.joinpath Scenario.repo Scenario.script_a) Scenario.src_foo_long
           Scenario.tree_foo_long "foo" 1%Z "foo" 2 1 4 [Ast.Assign; Ast.Assign; Ast.Return]).
  - vm_compute. reflexivity.
  - vm_compute. reflexivity.
  - vm_compute. reflexivity.
  - lia.
Defined.

Section ExtractInvariant.
Import Extract.

Variable ast_parse : string -> option Ast.module.
Variable scan_py_files : Path.t -> filesystem -> list string.
Variable repo_root : Path.t.
Variable fs : filesystem.

Lemma create_edit_patch_inv (rel old new risk : string) (p : PatchEngine.patch) :
  PatchEngine.create_edit_patch repo_root rel old new risk = Ok p ->
  PatchEngine.inside_repo repo_root rel = true
  /\ PatchEngine.path p = rel /\ PatchEngine.content p = Some new
  /\ PatchEngine.risk p = risk.
Proof.
  unfold PatchEngine.create_edit_patch.
  destruct (PatchEngine.inside_repo repo_root rel); cbn [negb]; [|discriminate].
  intros [= <-]. repeat split.
Qed.

Lemma create_add_file_patch_inv (rel content risk : string) (p : PatchEngine.patch) :
  PatchEngine.create_add_file_patch repo_root rel content risk = Ok p ->
  PatchEngine.inside_repo repo_root rel = true
  /\ PatchEngine.path p = rel /\ PatchEngine.content p = Some content
  /\ PatchEngine.risk p = risk.
Proof.
  unfold PatchEngine.create_add_file_patch.
  destruct (PatchEngine.inside_repo repo_root rel); cbn [negb]; [|discriminate].
  intros [= <-]. repeat split.
Qed.

(** One step of the inner loop: nothing changes, or one script patch and
    its extracted entry are added. *)
Lemma process_loc_step (mod_ : string) (st st' : state) (loc : location) :
  process_loc ast_parse repo_root fs mod_ st loc = Ok st' ->
  st' = st
  \/ exists p sp,
       script_patch_ok repo_root p /\ PatchEngine.path p = sp
       /\ st' = State (script_patches st ++ [p])
                      (extracted st ++ [Extracted (name loc) sp mod_])
                      (errors st) (lib_contents st).
Proof.
  unfold process_loc. destruct (script loc) as [sp|]; [|intros [= <-]; left; reflexivity].
  destruct (negb (Py.truthy sp)); [intros [= <-]; left; reflexivity|].
  destruct (FS.read_text fs (Path.joinpath repo_root sp)) as [text|];
    [|intros [= <-]; left; reflexivity].
  destruct (String.eqb _ text); [intros [= <-]; left; reflexivity|].
  destruct (PatchEngine.create_edit_patch _ _ _ _ _) as [p|e] eqn:E; cbn [bind]; [|discriminate].
  intros [= <-]. right. exists p, sp.
  destruct (create_edit_patch_inv _ _ _ _ _ E) as (Hin & Hp & Hc & Hr).
  split; [|split; [exact Hp|reflexivity]].
  unfold script_patch_ok. rewrite Hp, Hc. split; [exact Hin|]. split; [exact Hr|eexists; reflexivity].
Qed.

Lemma process_loc_invariant (mod_ : string) (st st' : state) (loc : location) :
  mod_ ∈ lib_modules ->
  extract_invariant repo_root st ->
  process_loc ast_parse repo_root fs mod_ st loc = Ok st' ->
  extract_invariant repo_root st'.
Proof.
  intros Hmod Hinv H. apply process_loc_step in H as [->|(p & sp & Hok & Hp & ->)]; [exact Hinv|].
  destruct Hinv as (H1 & H2 & H3 & H4). unfold extract_invariant. cbn.
  split; [rewrite !map_app, H1; cbn; rewrite Hp; reflexivity|].
  split; [apply Forall_app; split; [exact H2|constructor; [exact Hok|constructor]]|].
  split; [apply Forall_app; split; [exact H3|constructor; [exact Hmod|constructor]]|exact H4].
Qed.

Lemma process_locs_invariant (mod_ : string) (locs : list location) (st st' : state) :
  mod_ ∈ lib_modules ->
  extract_invariant repo_root st ->
  process_locs ast_parse repo_root fs mod_ st locs = Ok st' ->
  extract_invariant repo_root st'.
Proof.
  intros Hmod. revert st. induction locs as [|loc locs IH]; intros st Hinv; cbn [process_locs].
  - intros [= <-]. exact Hinv.
  - destruct (process_loc ast_parse repo_root fs mod_ st loc) as [st1|e] eqn:E; cbn [bind];
      [|discriminate].
    apply IH. exact (process_loc_invariant _ _ _ _ Hmod Hinv E).
Qed.

Lemma setdefault_append_keys_Forall {V : Type} (P : string -> Prop) (k : string) (v : V)
    (d : list (string * list V)) :
  P k -> Forall (fun kv => P (fst kv)) d ->
  Forall (fun kv => P (fst kv)) (setdefault_append k v d).
Proof.
  intros Hk Hd. induction Hd as [|[k' vs] d Hk' Hd IH]; cbn [setdefault_append].
  - constructor; [exact Hk|constructor].
  - destruct (decide (k = k')); constructor; assumption.
Qed.

Section WithMapping.

Variable mapping : list LibStructure.mapping_entry.
Variable cluster_indices : option (list Z).
Hypothesis mapping_ok :
  Forall (fun m => LibStructure.suggested_module m ∈ lib_modules) mapping.

Lemma module_of_allowed (func_name : string) : module_of mapping func_name ∈ lib_modules.
Proof.
  unfold module_of.
  destruct (List.find _ (rev mapping)) as [m|] eqn:E; [|left].
  apply find_some in E as [Hin _]. apply in_rev, list_elem_of_In in Hin.
  rewrite Forall_forall in mapping_ok. apply mapping_ok. exact Hin.
Qed.

(** One step of the outer loop: the invariant is kept, and either no
    error is added or exactly one is and nothing else changes. *)
Lemma process_cluster_step (idx : nat) (c : cluster) (st st' : state) :
  extract_invariant repo_root st ->
  process_cluster ast_parse repo_root fs mapping cluster_indices idx c st = Ok st' ->
  extract_invariant repo_root st'
  /\ (errors st' = errors st \/ exists msg, st' = add_error st msg).
Proof.
  intros Hinv. unfold process_cluster.
  destruct (negb (selected cluster_indices idx)); [intros [= <-]; split; [exact Hinv|left; reflexivity]|].
  destruct (length (locations c) <? 2); [intros [= <-]; split; [exact Hinv|left; reflexivity]|].
  destruct (1 <? length (remove_dups (map name (locations c)))).
  { destruct (sorted_names _); [|discriminate].
    intros [= <-]. split; [exact Hinv|right; eexists; reflexivity]. }
  destruct (locations c) as [|first rest] eqn:Elocs;
    [intros [= <-]; split; [exact Hinv|left; reflexivity]|].
  destruct (script first) as [script_path|];
    [|intros [= <-]; split; [exact Hinv|right; eexists; reflexivity]].
  destruct (line first) as [func_line|];
    [|intros [= <-]; split; [exact Hinv|right; eexists; reflexivity]].
  destruct (negb (Py.truthy script_path) || (func_line =? 0)%Z);
    [intros [= <-]; split; [exact Hinv|right; eexists; reflexivity]|].
  destruct (_get_function_source _ _ _ _ _) as [source|];
    [|intros [= <-]; split; [exact Hinv|right; eexists; reflexivity]].
  destruct (negb (Py.truthy source));
    [intros [= <-]; split; [exact Hinv|right; eexists; reflexivity]|].
  intros H. split.
  - eapply process_locs_invariant; [apply module_of_allowed| |exact H].
    destruct Hinv as (H1 & H2 & H3 & H4). unfold extract_invariant. cbn.
    split; [exact H1|]. split; [exact H2|]. split; [exact H3|].
    apply (setdefault_append_keys_Forall (fun k => k ∈ lib_modules));
      [apply module_of_allowed|exact H4].
  - left. destruct (process_locs_errors _ _ _ _ _ _ _ H) as [He _]. exact He.
Qed.

Lemma run_clusters_invariant (cs : list cluster) (idx : nat) (st st' : state) :
  extract_invariant repo_root st ->
  run_clusters ast_parse repo_root fs mapping cluster_indices idx cs st = Ok st' ->
  extract_invariant repo_root st'
  /\ length (errors st') <= length (errors st) + length cs.
Proof.
  revert idx st. induction cs as [|c cs IH]; intros idx st Hinv; cbn [run_clusters].
  - intros [= <-]. split; [exact Hinv|lia].
  - destruct (process_cluster _ _ _ _ _ idx c st) as [st1|e] eqn:E; cbn [bind]; [|discriminate].
    intros H. destruct (process_cluster_step _ _ _ _ Hinv E) as [Hinv1 Herr].
    destruct (IH _ _ Hinv1 H) as [Hinv' Hlen]. split; [exact Hinv'|].
    cbn [length]. destruct Herr as [He|[msg ->]].
    + rewrite He in Hlen. lia.
    + cbn [add_error errors] in Hlen. rewrite length_app in Hlen. cbn [length] in Hlen. lia.
Qed.

End WithMapping.

(** The patch for one library module: none when there is nothing to
    write, else one patch inside the root, of risk [medium], carrying its
    content. *)
Lemma lib_patch_inv (mod_ : string) (srcs : list string) (qs : list PatchEngine.patch) :
  lib_patch repo_root fs (mod_, srcs) = Ok qs ->
  qs = []
  \/ exists p, qs = [p]
       /\ PatchEngine.inside_repo repo_root (PatchEngine.path p) = true
       /\ PatchEngine.risk p = "medium"
       /\ is_Some (PatchEngine.content p)
       /\ PatchEngine.path p = mod_.
Proof.
  unfold lib_patch.
  destruct (negb (Py.truthy _)); [intros [= <-]; left; reflexivity|].
  destruct (FS.read_text fs (Path.joinpath repo_root mod_)) as [old|].
  - destruct (PatchEngine.create_edit_patch _ _ _ _ _) as [p|e] eqn:Ep; cbn [bind];
      [|discriminate].
    intros [= <-]. destruct (create_edit_patch_inv _ _ _ _ _ Ep) as (H1 & H2 & H3 & H4).
    right. exists p. rewrite H2, H3. split; [reflexivity|]. split; [exact H1|].
    split; [exact H4|]. split; [eexists; reflexivity|reflexivity].
  - destruct (PatchEngine.create_add_file_patch _ _ _ _) as [p|e] eqn:Ep; cbn [bind];
      [|discriminate].
    intros [= <-]. destruct (create_add_file_patch_inv _ _ _ _ Ep) as (H1 & H2 & H3 & H4).
    right. exists p. rewrite H2, H3. split; [reflexivity|]. split; [exact H1|].
    split; [exact H4|]. split; [eexists; reflexivity|reflexivity].
Qed.

(** The patches for the library modules: at most one per module and in
    the order of the dictionary, each inside the root, of risk [medium],
    with its content. *)
Lemma lib_patches_of_inv (items : list (string * list string)) (ps : list PatchEngine.patch) :
  lib_patches_of repo_root fs items = Ok ps ->
  Forall (fun p => PatchEngine.inside_repo repo_root (PatchEngine.path p) = true
                   /\ PatchEngine.risk p = "medium"
                   /\ is_Some (PatchEngine.content p)) ps
  /\ map PatchEngine.path ps `sublist_of` map fst items.
Proof.
  revert ps. induction items as [|[mod_ srcs] items IH]; intros ps; cbn [lib_patches_of].
  - intros [= <-]. split; constructor.
  - destruct (lib_patch repo_root fs (mod_, srcs)) as [qs|e] eqn:E; cbn [bind]; [|discriminate].
    destruct (lib_patches_of repo_root fs items) as [rs|e]; cbn [bind]; [|discriminate].
    intros [= <-]. destruct (IH rs eq_refl) as [Hrs Hsub]. cbn [map fst].
    destruct (lib_patch_inv _ _ _ E) as [->|(p & -> & H1 & H2 & H3 & H4)]; cbn [app map].
    + split; [exact Hrs|]. apply sublist_cons. exact Hsub.
    + split; [constructor; [repeat split; assumption|exact Hrs]|].
      rewrite H4. apply sublist_skip. exact Hsub.
Qed.

Lemma propose_step_modules (b : bool) (st : list (string * list string) * list LibStructure.mapping_entry)
    (c : cluster) :
  Forall (fun m => LibStructure.suggested_module m ∈ lib_modules) (snd st) ->
  Forall (fun m => LibStructure.suggested_module m ∈ lib_modules)
         (snd (LibStructure.propose_step b st c))
  /\ length (snd (LibStructure.propose_step b st c)) <= S (length (snd st)).
Proof.
  intros H. unfold LibStructure.propose_step.
  destruct (length (locations c) <? 2); [split; [exact H|lia]|].
  destruct (b && negb _); [split; [exact H|lia]|].
  cbn [snd]. split.
  - apply Forall_app. split; [exact H|]. constructor; [|constructor]. cbn.
    unfold LibStructure.choose_module, lib_modules.
    destruct (LibStructure.mentions ["ui"; "form"] _); [right; right; left|].
    destruct (LibStructure.mentions ["io"; "file"] _); [right; left|left].
  - rewrite length_app. cbn [length]. lia.
Qed.

Lemma propose_fold_modules (b : bool) (cs : list cluster)
    (st : list (string * list string) * list LibStructure.mapping_entry) :
  Forall (fun m => LibStructure.suggested_module m ∈ lib_modules) (snd st) ->
  Forall (fun m => LibStructure.suggested_module m ∈ lib_modules)
         (snd (fold_left (LibStructure.propose_step b) cs st))
  /\ length (snd (fold_left (LibStructure.propose_step b) cs st)) <= length cs + length (snd st).
Proof.
  revert st. induction cs as [|c cs IH]; intros st H; cbn [fold_left]; [split; [exact H|lia]|].
  destruct (propose_step_modules b st c H) as [H1 H2].
  destruct (IH _ H1) as [H3 H4]. split; [exact H3|]. cbn [length]. lia.
Qed.

(** Every module [propose] suggests is one of the three library modules,
    and there is at most one mapping entry per cluster looked at. *)
Lemma propose_modules (clusters : option (list cluster)) (b : bool) :
  Forall (fun m => LibStructure.suggested_module m ∈ lib_modules)
         (LibStructure.mapping
            (LibStructure.propose ast_parse scan_py_files repo_root fs clusters b)).
Proof.
  unfold LibStructure.propose.
  match goal with
  | |- context [fold_left ?f ?cs ?st] =>
      destruct (propose_fold_modules b cs st) as [H _]; [constructor|];
      destruct (fold_left f cs st) as [sugg mapping]
  end.
  exact H.
Qed.

End ExtractInvariant.

Section ExtractResult.
Import Extract.

Variable ast_parse : string -> option Ast.module.
Variable scan_py_files : Path.t -> filesystem -> list string.
Variable repo_root : Path.t.
Variable fs : filesystem.

Lemma setdefault_append_NoDup (k v : string) (d : list (string * list string)) :
  NoDup (map fst d) -> NoDup (map fst (setdefault_append k v d)).
Proof.
  intros H. rewrite setdefault_append_keys.
  destruct (decide (k ∈ map fst d)) as [Hin|Hout].
  - rewrite bool_decide_true by exact Hin. exact H.
  - rewrite bool_decide_false by exact Hout.
    apply NoDup_app. split; [exact H|]. split; [|apply NoDup_singleton].
    intros x Hx Hx'. apply list_elem_of_singleton in Hx'. subst x. contradiction.
Qed.

(** The loop over the clusters never files a module twice in
    [lib_contents]. *)
Lemma process_cluster_lib_keys (mapping : list LibStructure.mapping_entry)
    (cluster_indices : option (list Z)) (idx : nat) (c : cluster) (st st' : state) :
  NoDup (map fst (lib_contents st)) ->
  process_cluster ast_parse repo_root fs mapping cluster_indices idx c st = Ok st' ->
  NoDup (map fst (lib_contents st')).
Proof.
  intros Hnd. unfold process_cluster.
  destruct (negb (selected cluster_indices idx)); [intros [= <-]; exact Hnd|].
  destruct (length (locations c) <? 2); [intros [= <-]; exact Hnd|].
  destruct (1 <? length (remove_dups (map name (locations c)))).
  { destruct (sorted_names _); [|discriminate]. intros [= <-]. exact Hnd. }
  destruct (locations c) as [|first rest] eqn:Elocs; [intros [= <-]; exact Hnd|].
  destruct (script first) as [script_path|]; [|intros [= <-]; exact Hnd].
  destruct (line first) as [func_line|]; [|intros [= <-]; exact Hnd].
  destruct (negb (Py.truthy script_path) || (func_line =? 0)%Z); [intros [= <-]; exact Hnd|].
  destruct (_get_function_source _ _ _ _ _) as [source|]; [|intros [= <-]; exact Hnd].
  destruct (negb (Py.truthy source)); [intros [= <-]; exact Hnd|].
  intros H. destruct (process_locs_errors _ _ _ _ _ _ _ H) as [_ ->]. cbn [lib_contents].
  apply setdefault_append_NoDup. exact Hnd.
Qed.

Lemma run_clusters_lib_keys (mapping : list LibStructure.mapping_entry)
    (cluster_indices : option (list Z)) (cs : list cluster) (idx : nat) (st st' : state) :
  NoDup (map fst (lib_contents st)) ->
  run_clusters ast_parse repo_root fs mapping cluster_indices idx cs st = Ok st' ->
  NoDup (map fst (lib_contents st')).
Proof.
  revert idx st. induction cs as [|c cs IH]; intros idx st Hnd; cbn [run_clusters].
  - intros [= <-]. exact Hnd.
  - destruct (process_cluster _ _ _ _ _ idx c st) as [st1|e] eqn:E; cbn [bind]; [|discriminate].
    apply IH. exact (process_cluster_lib_keys _ _ _ _ _ _ Hnd E).
Qed.

(** What a returned extraction is made of. *)
Lemma extract_Ok_inv (clusters : option (list cluster)) (cluster_indices : option (list Z))
    (mode : option string) (same_name_only : option bool) (x : extraction) :
  extract ast_parse scan_py_files repo_root fs clusters cluster_indices mode same_name_only
  = Ok x ->
  exists st libs,
    extract_invariant repo_root st
    /\ NoDup (map fst (lib_contents st))
    /\ length (errors st) <= length (clusters_of_call ast_parse scan_py_files repo_root fs clusters same_name_only)
    /\ lib_patches_of repo_root fs (lib_contents st) = Ok libs
    /\ patches x = libs ++ script_patches st
    /\ x_extracted x = extracted st
    /\ x_errors x
       = errors st ++ (if String.eqb (default "dry_run" mode) "write"
                       then PatchEngine.errors
                              (PatchEngine.apply_patches repo_root fs (patches x) (Some "write"))
                       else [])
    /\ x_files x
       = (if String.eqb (default "dry_run" mode) "write"
          then PatchEngine.files
                 (PatchEngine.apply_patches repo_root fs (patches x) (Some "write"))
          else fs).
Proof.
  unfold extract.
  fold (clusters_of_call ast_parse scan_py_files repo_root fs clusters same_name_only). cbv zeta.
  set (cs := clusters_of_call ast_parse scan_py_files repo_root fs clusters same_name_only).
  set (mapping := LibStructure.mapping _).
  destruct (run_clusters _ _ _ _ _ _ _ _) as [st|e] eqn:E; cbn [bind]; [|discriminate].
  destruct (lib_patches_of repo_root fs (lib_contents st)) as [libs|e] eqn:El; cbn [bind];
    [|discriminate].
  assert (Hinv0 : extract_invariant repo_root (State [] [] [] [])).
  { repeat split; constructor. }
  assert (Hmap : Forall (fun m => LibStructure.suggested_module m ∈ lib_modules) mapping).
  { apply propose_modules. }
  destruct (run_clusters_invariant ast_parse repo_root fs mapping cluster_indices Hmap
              cs 0 _ _ Hinv0 E) as [Hinv Hlen].
  pose proof (run_clusters_lib_keys mapping cluster_indices cs 0 _ _ (NoDup_nil_2 : NoDup (map fst (lib_contents (State [] [] [] [])))) E) as Hnd.
  intros Hx. exists st, libs.
  split; [exact Hinv|]. split; [exact Hnd|]. split; [exact Hlen|]. split; [exact El|].
  destruct (String.eqb (default "dry_run" mode) "write"); injection Hx as <-; cbn;
    rewrite ?app_nil_r; repeat split; reflexivity.
Qed.

(** Every patch [extract] makes passes the containment check of
    [apply_patches]. *)
Lemma extract_patches_inside (st : state) (libs : list PatchEngine.patch) :
  extract_invariant repo_root st ->
  lib_patches_of repo_root fs (lib_contents st) = Ok libs ->
  Forall (fun p => PatchEngine.inside_repo repo_root (PatchEngine.path p) = true
                   /\ is_Some (PatchEngine.content p))
         (libs ++ script_patches st).
Proof.
  intros (_ & H2 & _ & _) Hl. apply Forall_app. split.
  - destruct (lib_patches_of_inv repo_root fs _ _ Hl) as [H _].
    eapply Forall_impl; [exact H|]. cbn. intros p (H1 & _ & H3). split; assumption.
  - eapply Forall_impl; [exact H2|]. intros p (H1 & _ & H3). split; assumption.
Qed.

Lemma filter_none {A : Type} (f : A -> bool) (l : list A) :
  Forall (fun x => f x = false) l -> List.filter f l = [].
Proof.
  induction 1 as [|x l Hx _ IH]; [reflexivity|]. cbn [List.filter]. rewrite Hx. exact IH.
Qed.

Lemma filter_all {A : Type} (f : A -> bool) (l : list A) :
  Forall (fun x => f x = true) l -> List.filter f l = l.
Proof.
  induction 1 as [|x l Hx _ IH]; [reflexivity|]. cbn [List.filter]. rewrite Hx, IH. reflexivity.
Qed.

(** Patches that pass the check are all applied, none is skipped. *)
Lemma apply_patches_all_inside (ps : list PatchEngine.patch) :
  Forall (fun p => PatchEngine.inside_repo repo_root (PatchEngine.path p) = true) ps ->
  PatchEngine.errors (PatchEngine.apply_patches repo_root fs ps (Some "write")) = []
  /\ PatchEngine.applied (PatchEngine.apply_patches repo_root fs ps (Some "write"))
     = map PatchEngine.path ps.
Proof.
  intros H. unfold PatchEngine.apply_patches.
  destruct (lists_fold repo_root (default "dry_run" (Some "write")) ps
              (PatchEngine.Outcome fs [] [])) as [Ha He].
  cbn [PatchEngine.applied PatchEngine.errors app] in Ha, He.
  rewrite Ha, He, flat_map_applied_by, flat_map_errors_by. split.
  - rewrite filter_none; [reflexivity|].
    eapply Forall_impl; [exact H|]. cbn. intros p ->. reflexivity.
  - rewrite filter_all by exact H. reflexivity.
Qed.

End ExtractResult.

Section ExtractEntries.
Import Extract.

Variable ast_parse : string -> option Ast.module.
Variable repo_root : Path.t.
Variable fs : filesystem.
Variable P : extracted_entry -> Prop.





End ExtractEntries.

Section ExtractTheorems.
Import Extract.

Variable ast_parse : string -> option Ast.module.
Variable scan_py_files : Path.t -> filesystem -> list string.
Variable repo_root : Path.t.
Variable fs : filesystem.


End ExtractTheorems.

(** X14: the patch list of a returned extraction is the library patches
    followed by the script patches.  The script patches are of risk
    [high] and match the extracted entries one to one and in order (the
    path of the patch is the script of the entry); the library patches
    are of risk [medium], at most three, for distinct modules among
    [lib/utils.py], [lib/io.py] and [lib/ui.py]; every extracted entry
    names one of these modules, and every patch carries its new content
    and a path that passes the containment check. *)
Theorem X14_patches_and_entries_correspond
    (ast_parse : string -> option Ast.module)
    (scan_py_files : Path.t -> filesystem -> list string)
    (repo_root : Path.t) (fs : filesystem)
    (clusters : option (list cluster)) (cluster_indices : option (list Z))
    (mode : option string) (same_name_only : option bool) (x : Extract.extraction) :
  Extract.extract ast_parse scan_py_files repo_root fs clusters cluster_indices mode
                  same_name_only = Ok x ->
  exists libs scripts,
    Extract.patches x = libs ++ scripts
    /\ map PatchEngine.path scripts = map Extract.e_script (Extract.x_extracted x)
    /\ Forall (fun p => PatchEngine.risk p = "high") scripts
    /\ Forall (fun p => PatchEngine.risk p = "medium"
                        /\ PatchEngine.path p ∈ lib_modules) libs
    /\ NoDup (map PatchEngine.path libs)
    /\ length libs <= 3
    /\ Forall (fun e => Extract.e_module e ∈ lib_modules) (Extract.x_extracted x)
    /\ Forall (fun p => PatchEngine.inside_repo repo_root (PatchEngine.path p) = true
                        /\ is_Some (PatchEngine.content p)) (Extract.patches x).
Proof.
  intros H.
  destruct (extract_Ok_inv _ _ _ _ _ _ _ _ _ H)
    as (st & libs & Hinv & Hnd & _ & Hl & Hp & Hx & _ & _).
  exists libs, (Extract.script_patches st).
  pose proof (extract_patches_inside repo_root fs st libs Hinv Hl) as Hin.
  destruct Hinv as (H1 & H2 & H3 & H4).
  destruct (lib_patches_of_inv repo_root fs _ _ Hl) as [Hlibs Hsub].
  assert (Hmem : forall m, m ∈ map PatchEngine.path libs -> m ∈ lib_modules).
  { intros m Hm. pose proof (elem_of_sublist _ _ _ Hm Hsub) as Hm'.
    apply list_elem_of_In, in_map_iff in Hm' as (kv & <- & Hkv).
    rewrite Forall_forall in H4. apply H4, list_elem_of_In. exact Hkv. }
  assert (Hndl : NoDup (map PatchEngine.path libs)).
  { exact (sublist_NoDup _ _ Hnd Hsub). }
  split; [exact Hp|]. split; [rewrite Hx; exact H1|].
  split; [eapply Forall_impl; [exact H2|]; intros p (_ & Hr & _); exact Hr|].
  split.
  { apply Forall_forall. intros p Hpin. split.
    - rewrite Forall_forall in Hlibs. destruct (Hlibs p Hpin) as (_ & Hr & _). exact Hr.
    - apply Hmem. apply list_elem_of_In, in_map, list_elem_of_In. exact Hpin. }
  split; [exact Hndl|].
  split.
  { pose proof (submseteq_length _ _ (NoDup_submseteq _ _ Hndl Hmem)) as Hlen.
    rewrite length_map in Hlen. exact Hlen. }
  split; [rewrite Hx; exact H3|].
  rewrite Hp. exact Hin.
Qed.

Lemma X14_patches_and_entries_correspond_witness :
  let fs := Scenario.two_files Scenario.src_foo_long in
  exists x,
    Extract.extract Scenario.parse Scenario.two_scripts Scenario.repo fs None None None None
    = Ok x
    /\ length (Extract.patches x) = 3
    /\ exists libs scripts,
         Extract.patches x = libs ++ scripts
         /\ map PatchEngine.path scripts = map Extract.e_script (Extract.x_extracted x)
         /\ Forall (fun p => PatchEngine.risk p = "high") scripts
         /\ Forall (fun p => PatchEngine.risk p = "medium"
                             /\ PatchEngine.path p ∈ lib_modules) libs
         /\ NoDup (map PatchEngine.path libs)
         /\ length libs <= 3
         /\ Forall (fun e => Extract.e_module e ∈ lib_modules) (Extract.x_extracted x)
         /\ Forall (fun p => PatchEngine.inside_repo Scenario.repo (PatchEngine.path p) = true
                             /\ is_Some (PatchEngine.content p)) (Extract.patches x).
Proof.
  cbv zeta. eexists. split; [vm_compute; reflexivity|]. split; [reflexivity|].
  apply (X14_patches_and_entries_correspond Scenario.parse Scenario.two_scripts Scenario.repo
           (Scenario.two_files Scenario.src_foo_long) None None None None).
  vm_compute. reflexivity.
Defined.





(** ** Lines and texts *)

Section Lines.

Lemma no_linebreak_app (a b : string) :
  no_linebreak (a +:+ b) = no_linebreak a && no_linebreak b.
Proof.
  induction a as [|c a IH]; [reflexivity|].
  change (negb (Py.is_linebreak c) && no_linebreak (a +:+ b)
          = negb (Py.is_linebreak c) && no_linebreak a && no_linebreak b).
  rewrite IH, andb_assoc. reflexivity.
Qed.

Lemma is_cr_linebreak (c : ascii) : Py.is_linebreak c = false -> Py.is_cr c = false.
Proof.
  unfold Py.is_linebreak, Py.is_cr. intros H.
  destruct (Py.code c =? 13) eqn:E; [|reflexivity].
  apply Nat.eqb_eq in E. rewrite E in H. discriminate H.
Qed.

(** Reading one line: up to the first line feed. *)
Lemma splitlines_from_line (l cur rest : string) :
  no_linebreak l = true ->
  Py.splitlines_from cur (l +:+ Py.newline +:+ rest)
  = (cur +:+ l) :: Py.splitlines_from "" rest.
Proof.
  revert cur. induction l as [|c l IH]; intros cur Hl.
  - rewrite append_nil_r.
    change ("" +:+ Py.newline +:+ rest) with (String (ascii_of_nat 10) rest).
    cbn [Py.splitlines_from].
    change (Py.is_cr (ascii_of_nat 10)) with false.
    change (Py.is_linebreak (ascii_of_nat 10)) with true. cbv iota.
    destruct rest; reflexivity.
  - cbn [no_linebreak] in Hl. apply andb_true_iff in Hl as [Hc Hl].
    apply negb_true_iff in Hc.
    change (String c l +:+ Py.newline +:+ rest) with (String c (l +:+ Py.newline +:+ rest)).
    cbn [Py.splitlines_from]. rewrite (is_cr_linebreak _ Hc), Hc.
    rewrite (IH _ Hl). unfold Py.snoc. rewrite append_assoc. reflexivity.
Qed.

(** [splitlines] undoes the joining of lines. *)
Lemma splitlines_join_lines (ls : list string) :
  Forall (fun l => no_linebreak l = true) ls ->
  Py.splitlines (Extract.join_lines ls) = ls.
Proof.
  unfold Py.splitlines, Extract.join_lines, Py.join.
  induction 1 as [|l ls Hl Hls IH]; [reflexivity|].
  destruct ls as [|l' ls].
  - cbn [String.concat].
    rewrite <- (append_nil_r (l +:+ Py.newline)), append_assoc, splitlines_from_line by exact Hl.
    reflexivity.
  - change (String.concat Py.newline (l :: l' :: ls))
      with (l +:+ Py.newline +:+ String.concat Py.newline (l' :: ls)).
    rewrite !append_assoc, splitlines_from_line by exact Hl.
    f_equal. exact IH.
Qed.

(** The elements of [splitlines] hold no line boundary. *)
Lemma splitlines_from_no_linebreak_bounded (n : nat) (s cur : string) :
  String.length s <= n ->
  no_linebreak cur = true ->
  Forall (fun l => no_linebreak l = true) (Py.splitlines_from cur s).
Proof.
  revert s cur. induction n as [|n IH]; intros s cur Hn Hcur.
  - destruct s; [|cbn in Hn; lia]. cbn [Py.splitlines_from].
    destruct (String.eqb cur ""); constructor; [exact Hcur|constructor].
  - destruct s as [|c s]; cbn [Py.splitlines_from].
    { destruct (String.eqb cur ""); constructor; [exact Hcur|constructor]. }
    cbn [String.length] in Hn.
    destruct (Py.is_cr c).
    + destruct s as [|c2 s']; [constructor; [exact Hcur|constructor]|].
      cbn [String.length] in Hn.
      destruct (Py.is_lf c2); (constructor; [exact Hcur|]); apply IH;
        cbn [String.length]; try lia; reflexivity.
    + destruct (Py.is_linebreak c) eqn:Ec.
      * destruct s as [|c2 s']; [constructor; [exact Hcur|constructor]|].
        constructor; [exact Hcur|]. apply IH; [lia|reflexivity].
      * apply IH; [lia|]. unfold Py.snoc. rewrite no_linebreak_app, Hcur. cbn [no_linebreak].
        rewrite Ec. reflexivity.
Qed.

Lemma splitlines_no_linebreak (s : string) :
  Forall (fun l => no_linebreak l = true) (Py.splitlines s).
Proof. exact (splitlines_from_no_linebreak_bounded (String.length s) s "" (le_n _) eq_refl). Qed.

Lemma lines_of_no_linebreak (s : string) :
  Forall (fun l => no_linebreak l = true) (PatchEngine.lines_of s).
Proof.
  unfold PatchEngine.lines_of. destruct (Py.truthy s); [apply splitlines_no_linebreak|constructor].
Qed.

(** The decimal digits of a number hold no line boundary. *)
Lemma pretty_N_go_no_linebreak (x : N) (s : string) :
  no_linebreak s = true -> no_linebreak (pretty_N_go x s) = true.
Proof.
  revert s. induction (N.lt_wf_0 x) as [x _ IH]; intros s Hs.
  destruct (decide (x = 0)%N) as [->|Hx]; [exact Hs|].
  rewrite pretty_N_go_step by lia. apply IH; [apply N.div_lt; lia|].
  cbn [no_linebreak]. rewrite Hs, andb_true_r.
  unfold pretty_N_char. repeat case_match; reflexivity.
Qed.

Lemma str_of_nat_no_linebreak (n : nat) : no_linebreak (Py.str_of_nat n) = true.
Proof.
  unfold Py.str_of_nat, pretty, pretty_nat, pretty, pretty_N.
  destruct (decide (N.of_nat n = 0)%N); [reflexivity|].
  apply pretty_N_go_no_linebreak. reflexivity.
Qed.

End Lines.

Section DiffRoundTrip.
Import PatchEngine.

Lemma replace_from_no_linebreak (old new s : string) (skip : nat) :
  no_linebreak new = true -> no_linebreak s = true ->
  no_linebreak (Py.replace_from old new skip s) = true.
Proof.
  intros Hnew. revert skip. induction s as [|c s IH]; intros skip Hs; [reflexivity|].
  cbn [no_linebreak] in Hs. apply andb_true_iff in Hs as [Hc Hs].
  cbn [Py.replace_from]. destruct skip as [|k]; [|apply IH; exact Hs].
  destruct (String.prefix old (String c s)).
  - rewrite no_linebreak_app, Hnew. apply IH. exact Hs.
  - cbn [no_linebreak]. rewrite Hc. apply IH. exact Hs.
Qed.

(** The body lines of the diff, filtered and stripped of their mark, are
    the added lines. *)
Lemma added_lines_of_body (old_lines new_lines : list string) :
  map (fun ln => match ln with String _ r => r | "" => "" end)
      (List.filter (fun ln => Py.startswith ln "+" && negb (Py.startswith ln "+++"))
         (map (fun line => (if bool_decide (line ∈ old_lines) then " " else "+") +:+ line)
              new_lines))
  = added_lines old_lines new_lines.
Proof.
  unfold added_lines. induction new_lines as [|l ls IH]; [reflexivity|].
  cbn [map List.filter]. destruct (bool_decide (l ∈ old_lines)); cbn [negb andb].
  - change (Py.startswith (" " +:+ l) "+") with false. cbn [andb]. exact IH.
  - replace (Py.startswith ("+" +:+ l) "+") with true by (destruct l; reflexivity).
    change (Py.startswith ("+" +:+ l) "+++") with (Py.startswith l "++").
    cbn [andb]. destruct (Py.startswith l "++"); cbn [negb map]; [exact IH|].
    rewrite IH. reflexivity.
Qed.

Lemma content_from_diff_of_made_diff (p : Path.t) (old_lines new_lines : list string) :
  no_linebreak (Path.str p) = true ->
  Forall (fun l => no_linebreak l = true) new_lines ->
  content_from_diff (_make_unified_diff p old_lines new_lines)
  = Extract.join_lines (added_lines old_lines new_lines).
Proof.
  intros Hp Hnew. unfold content_from_diff, _make_unified_diff. cbv zeta.
  set (rel := Py.replace "\" "/" (Path.str p)).
  assert (Hrel : no_linebreak rel = true).
  { apply replace_from_no_linebreak; [reflexivity|exact Hp]. }
  set (h1 := "--- a/" +:+ rel). set (h2 := "+++ b/" +:+ rel).
  set (h3 := "@@ -1," +:+ Py.str_of_nat (length old_lines) +:+ " +1,"
                      +:+ Py.str_of_nat (length new_lines) +:+ " @@").
  set (body := map _ new_lines).
  change (Py.join Py.newline ([h1; h2; h3] ++ body) +:+ Py.newline)
    with (Extract.join_lines ([h1; h2; h3] ++ body)).
  rewrite splitlines_join_lines.
  - cbn [app List.filter].
    change (Py.startswith h1 "+") with false.
    change (Py.startswith h2 "+") with true.
    change (Py.startswith h2 "+++") with true.
    change (Py.startswith h3 "+") with false.
    cbn [negb andb]. subst body. rewrite added_lines_of_body. reflexivity.
  - apply Forall_app. split.
    + subst h1 h2 h3. repeat constructor;
        rewrite ?no_linebreak_app, ?Hrel, ?str_of_nat_no_linebreak; reflexivity.
    + subst body. apply Forall_forall. intros ln Hln.
      apply list_elem_of_In, in_map_iff in Hln as (l & <- & Hl).
      rewrite Forall_forall in Hnew. rewrite no_linebreak_app, (Hnew l (proj2 (list_elem_of_In _ _) Hl)).
      destruct (bool_decide (l ∈ old_lines)); reflexivity.
Qed.

End DiffRoundTrip.

(** X17: what [apply_patches] writes for a patch that carries only a
    diff made by [_make_unified_diff]: the new lines that are no line of
    the old text and do not begin with two plus signs, each followed by
    a line feed.  The lines the new text shares with the old one are
    marked as context in the diff and are not written. *)
Theorem X17_diff_only_patch_writes_the_added_lines
    (p : Path.t) (old_lines new_lines : list string) (risk summary rel_path : string) :
  no_linebreak (Path.str p) = true ->
  Forall (fun l => no_linebreak l = true) new_lines ->
  PatchEngine.written_content
    (PatchEngine.Patch rel_path (Some (PatchEngine._make_unified_diff p old_lines new_lines))
                       None risk summary)
  = Extract.join_lines (added_lines old_lines new_lines).
Proof.
  intros Hp Hnew. unfold PatchEngine.written_content. cbn [PatchEngine.content PatchEngine.diff default].
  apply content_from_diff_of_made_diff; assumption.
Qed.

Lemma X17_diff_only_patch_writes_the_added_lines_witness :
  PatchEngine.written_content
    (PatchEngine.Patch "a.py"
       (Some (PatchEngine._make_unified_diff (Path.parse "/repo/a.py")
                ["import os"; "x = 1"] ["import os"; "x = 2"; "++y"]))
       None "low" "Edit a.py")
  = "x = 2" +:+ Py.newline.
Proof.
  apply (X17_diff_only_patch_writes_the_added_lines (Path.parse "/repo/a.py")
           ["import os"; "x = 1"] ["import os"; "x = 2"; "++y"] "low" "Edit a.py" "a.py").
  - vm_compute. reflexivity.
  - repeat constructor.
Defined.

Lemma lines_of_splitlines (s : string) : PatchEngine.lines_of s = Py.splitlines s.
Proof. destruct s; reflexivity. Qed.

Lemma added_lines_new_file (ls : list string) :
  Forall (fun l => Py.startswith l "++" = false) ls -> added_lines [] ls = ls.
Proof.
  unfold added_lines. induction 1 as [|l ls Hl _ IH]; [reflexivity|].
  cbn [List.filter]. rewrite Hl, IH.
  rewrite bool_decide_false by (intros H; inversion H). reflexivity.
Qed.

(** X19: the patch the extraction makes for a script is the file without
    the lines of the function and with the import: when the inner loop
    changes its state for a location, the script was read and parsed, its
    tree holds a definition with the name and line of the location, one
    patch and one entry were added, and the content of the patch is the
    lines before and after the definition, put through [_ensure_import]
    and joined. *)
Theorem X19_script_patch_is_file_without_function_with_import
    (ast_parse : string -> option Ast.module) (repo_root : Path.t) (fs : filesystem)
    (mod_ : string) (st st' : Extract.state) (loc : location) :
  Extract.process_loc ast_parse repo_root fs mod_ st loc = Ok st' ->
  st' <> st ->
  exists sp text tree fname nargs lineno end_lineno body p,
    script loc = Some sp
    /\ FS.read_text fs (Path.joinpath repo_root sp) = Some text
    /\ ast_parse text = Some tree
    /\ Ast.FunctionDef fname nargs lineno end_lineno body ∈ Ast.walk tree
    /\ name loc = Some fname /\ line loc = Some (Z.of_nat lineno)
    /\ Extract.script_patches st' = Extract.script_patches st ++ [p]
    /\ Extract.extracted st' = Extract.extracted st ++ [Extract.Extracted (Some fname) sp mod_]
    /\ PatchEngine.path p = sp
    /\ PatchEngine.content p
       = Some (Extract.join_lines
                 (Extract._ensure_import
                    (firstn (lineno - 1) (Py.splitlines text)
                     ++ skipn end_lineno (Py.splitlines text))
                    ("from " +:+ Py.replace ".py" "" (Py.replace "/" "." mod_)
                             +:+ " import " +:+ fname))).
Proof.
  unfold Extract.process_loc. intros H Hne.
  destruct (script loc) as [sp|]; [|injection H as <-; contradiction].
  destruct (negb (Py.truthy sp)); [injection H as <-; contradiction|].
  destruct (FS.read_text fs (Path.joinpath repo_root sp)) as [text|] eqn:Hread;
    [|injection H as <-; contradiction].
  destruct (String.eqb _ text) eqn:Hsame; [injection H as <-; contradiction|].
  destruct (PatchEngine.create_edit_patch _ _ _ _ _) as [p|e] eqn:Ep; cbn [bind] in H;
    [|discriminate].
  injection H as <-.
  destruct (create_edit_patch_inv _ _ _ _ _ _ Ep) as (_ & Hpath & Hcontent & _).
  unfold Extract._remove_function_from_source in Hsame, Hcontent.
  destruct (ast_parse text) as [tree|] eqn:Hparse;
    [|rewrite String.eqb_refl in Hsame; discriminate].
  destruct (List.find _ (Ast.walk tree)) as [node|] eqn:Hfind;
    [|rewrite String.eqb_refl in Hsame; discriminate].
  pose proof (find_some _ _ Hfind) as [Hin Ht].
  destruct node as [fname nargs lineno end_lineno body| | | | |]; try discriminate Ht.
  cbn [Extract.is_target] in Ht. apply andb_true_iff in Ht as [H1 H2].
  apply bool_decide_eq_true in H1, H2.
  exists sp, text, tree, fname, nargs, lineno, end_lineno, body, p.
  cbn [Extract.span] in Hcontent.
  rewrite splitlines_join_lines in Hcontent.
  2:{ apply Forall_app. split; [apply Forall_take|apply Forall_drop];
        apply splitlines_no_linebreak. }
  rewrite H1 in Hcontent |- *. cbn [Extract.str_opt default] in Hcontent.
  split; [reflexivity|]. split; [exact Hread|]. split; [exact Hparse|].
  split; [apply list_elem_of_In; exact Hin|]. split; [reflexivity|]. split; [exact H2|].
  split; [reflexivity|]. split; [reflexivity|]. split; [exact Hpath|exact Hcontent].
Qed.

(** The first script of the scenario: [foo] is its only content, so the
    patch leaves the import alone. *)
Lemma X19_script_patch_is_file_without_function_with_import_witness :
  let fs := Scenario.two_files Scenario.src_foo_long in
  let loc := Loc (Some Scenario.script_a) (Some 1%Z) (Some "foo") in
  exists st',
    Extract.process_loc Scenario.parse Scenario.repo fs "lib/utils.py"
                        (Extract.State [] [] [] []) loc = Ok st'
    /\ map PatchEngine.content (Extract.script_patches st')
       = [Some ("from lib.utils import foo" +:+ Py.newline)]
    /\ exists sp text tree fname nargs lineno end_lineno body p,
         script loc = Some sp
         /\ FS.read_text fs (Path.joinpath Scenario.repo sp) = Some text
         /\ Scenario.parse text = Some tree
         /\ Ast.FunctionDef fname nargs lineno end_lineno body ∈ Ast.walk tree
         /\ name loc = Some fname /\ line loc = Some (Z.of_nat lineno)
         /\ Extract.script_patches st' = Extract.script_patches (Extract.State [] [] [] []) ++ [p]
         /\ Extract.extracted st'
            = Extract.extracted (Extract.State [] [] [] [])
              ++ [Extract.Extracted (Some fname) sp "lib/utils.py"]
         /\ PatchEngine.path p = sp
         /\ PatchEngine.content p
            = Some (Extract.join_lines
                      (Extract._ensure_import
                         (firstn (lineno - 1) (Py.splitlines text)
                          ++ skipn end_lineno (Py.splitlines text))
                         ("from " +:+ Py.replace ".py" "" (Py.replace "/" "." "lib/utils.py")
                                  +:+ " import " +:+ fname))).
Proof.
  cbv zeta. eexists. split; [vm_compute; reflexivity|]. split; [vm_compute; reflexivity|].
  apply (X19_script_patch_is_file_without_function_with_import Scenario.parse Scenario.repo
           (Scenario.two_files Scenario.src_foo_long) "lib/utils.py"
           (Extract.State [] [] [] [])).
  - vm_compute. reflexivity.
  - discriminate.
Defined.

(** ** The module proposer *)

Section ProposeMore.
Import LibStructure.

Lemma setdefault_append_total (k v : string) (d : list (string * list string)) :
  length (concat (map snd (setdefault_append k v d))) = S (length (concat (map snd d))).
Proof.
  induction d as [|[k' vs] d IH]; cbn [setdefault_append]; [reflexivity|].
  destruct (decide (k = k')); cbn [map snd concat]; rewrite !length_app.
  - cbn [length]. lia.
  - rewrite IH. lia.
Qed.

Lemma existsb_key (k : string) (d : list (string * list string)) :
  k ∈ map fst d -> existsb (fun kv => String.eqb (fst kv) k) d = true.
Proof.
  intros H. apply list_elem_of_In, in_map_iff in H as (kv & <- & Hkv).
  apply existsb_exists. exists kv. split; [exact Hkv|apply String.eqb_refl].
Qed.

(** Extending the list of a key that is there keeps the keys and adds
    as many names as are given. *)
Lemma setdefault_extend_present (k : string) (vs : list string) (d : list (string * list string)) :
  k ∈ map fst d ->
  map fst (setdefault_extend k vs d) = map fst d
  /\ length (concat (map snd (setdefault_extend k vs d)))
     = length (concat (map snd d)) + length vs.
Proof.
  intros Hk. unfold setdefault_extend. rewrite (existsb_key _ _ Hk).
  revert d Hk. induction vs as [|v vs IH]; intros d Hk; cbn [fold_left length].
  - split; [reflexivity|lia].
  - assert (Hkeys : map fst (setdefault_append k v d) = map fst d).
    { rewrite setdefault_append_keys, bool_decide_true by exact Hk. reflexivity. }
    destruct (IH (setdefault_append k v d)) as [H1 H2]; [rewrite Hkeys; exact Hk|].
    rewrite H1, H2, Hkeys, setdefault_append_total. split; [reflexivity|lia].
Qed.

Lemma choose_module_cases (scripts : list string) :
  choose_module scripts ∈ lib_modules
  /\ (choose_module scripts = "lib/ui.py" <-> mentions ["ui"; "form"] scripts = true)
  /\ (choose_module scripts = "lib/io.py"
      <-> mentions ["ui"; "form"] scripts = false /\ mentions ["io"; "file"] scripts = true).
Proof.
  unfold choose_module, lib_modules.
  destruct (mentions ["ui"; "form"] scripts); [|destruct (mentions ["io"; "file"] scripts)].
  - split; [right; right; left|]. split; split; try reflexivity; try discriminate.
    intros [H _]; discriminate H.
  - split; [right; left|]. split; split; try reflexivity; try discriminate.
    intros _. split; reflexivity.
  - split; [left|]. split; split; try discriminate.
    intros [_ H]; discriminate H.
Qed.

Lemma propose_step_shape (b : bool)
    (st : list (string * list string) * list mapping_entry) (c : cluster) :
  map fst (fst st) = lib_modules ->
  Forall (entry_ok b) (snd st) ->
  length (concat (map snd (fst st))) = length (concat (map from_scripts (snd st))) ->
  let st' := propose_step b st c in
  map fst (fst st') = lib_modules
  /\ Forall (entry_ok b) (snd st')
  /\ length (concat (map snd (fst st'))) = length (concat (map from_scripts (snd st'))).
Proof.
  intros Hk Hq Hn. cbv zeta. unfold propose_step.
  destruct (length (locations c) <? 2) eqn:Elen; [repeat split; assumption|].
  apply Nat.ltb_ge in Elen.
  set (names := map (fun loc => default "?" (name loc)) (locations c)).
  set (scripts := map (fun loc => default "?" (script loc)) (locations c)).
  destruct (b && negb (length (remove_dups names) =? 1)) eqn:Eb; [repeat split; assumption|].
  cbn [fst snd].
  destruct (setdefault_extend_present (choose_module scripts) names (fst st)) as [H1 H2].
  { rewrite Hk. apply choose_module_cases. }
  split; [rewrite H1; exact Hk|]. split.
  - apply Forall_app. split; [exact Hq|]. constructor; [|constructor].
    unfold entry_ok. cbn [suggested_module from_scripts same_name mixed_names].
    split; [reflexivity|]. split; [subst scripts; rewrite length_map; exact Elen|].
    split.
    + destruct (length (remove_dups names) =? 1); split; try reflexivity; discriminate.
    + intros ->. cbn [andb] in Eb. apply negb_false_iff in Eb. exact Eb.
  - rewrite H2, map_app, concat_app, !length_app, Hn. cbn [map concat from_scripts].
    rewrite app_nil_r. subst names scripts. rewrite !length_map. reflexivity.
Qed.

Lemma propose_fold_shape (b : bool) (cs : list cluster)
    (st : list (string * list string) * list mapping_entry) :
  map fst (fst st) = lib_modules ->
  Forall (entry_ok b) (snd st) ->
  length (concat (map snd (fst st))) = length (concat (map from_scripts (snd st))) ->
  let st' := fold_left (propose_step b) cs st in
  map fst (fst st') = lib_modules
  /\ Forall (entry_ok b) (snd st')
  /\ length (concat (map snd (fst st'))) = length (concat (map from_scripts (snd st'))).
Proof.
  revert st. induction cs as [|c cs IH]; intros st Hk Hq Hn; cbn [fold_left].
  - repeat split; assumption.
  - destruct (propose_step_shape b st c Hk Hq Hn) as (H1 & H2 & H3).
    exact (IH _ H1 H2 H3).
Qed.

End ProposeMore.

(** X20: whatever the clusters, the tree [propose] suggests has exactly
    the three modules [lib/utils.py], [lib/io.py] and [lib/ui.py], in
    that order, and holds one name per script of the mapping.  Every
    entry of the mapping has two scripts or more and one of the three
    modules: [lib/ui.py] exactly when a script path mentions [ui] or
    [form], else [lib/io.py] exactly when one mentions [io] or [file];
    [mixed_names] is given exactly when the names differ, which never
    happens with [same_name_only]; and there is one finding per entry. *)
Theorem X20_proposal_keeps_three_modules
    (ast_parse : string -> option Ast.module)
    (scan_py_files : Path.t -> filesystem -> list string)
    (repo_root : Path.t) (fs : filesystem)
    (clusters : option (list cluster)) (same_name_only : bool) :
  let p := LibStructure.propose ast_parse scan_py_files repo_root fs clusters same_name_only in
  map fst (LibStructure.suggested_tree p) = ["lib/utils.py"; "lib/io.py"; "lib/ui.py"]
  /\ length (concat (map snd (LibStructure.suggested_tree p)))
     = length (concat (map LibStructure.from_scripts (LibStructure.mapping p)))
  /\ Forall (fun m =>
               let scripts := LibStructure.from_scripts m in
               2 <= length scripts
               /\ LibStructure.suggested_module m ∈ lib_modules
               /\ (LibStructure.suggested_module m = "lib/ui.py"
                   <-> LibStructure.mentions ["ui"; "form"] scripts = true)
               /\ (LibStructure.suggested_module m = "lib/io.py"
                   <-> LibStructure.mentions ["ui"; "form"] scripts = false
                       /\ LibStructure.mentions ["io"; "file"] scripts = true)
               /\ (LibStructure.same_name m = true <-> LibStructure.mixed_names m = None)
               /\ (same_name_only = true -> LibStructure.same_name m = true))
            (LibStructure.mapping p)
  /\ map snd (LibStructure.findings p) = LibStructure.mapping p
  /\ Forall (fun f => fst f = "proposal") (LibStructure.findings p).
Proof.
  cbv zeta. unfold LibStructure.propose.
  match goal with
  | |- context [fold_left ?f ?cs ?st] =>
      destruct (propose_fold_shape same_name_only cs st) as (H1 & H2 & H3);
        [reflexivity|constructor|reflexivity|];
      destruct (fold_left f cs st) as [sugg mapping]
  end.
  cbn [fst snd] in H1, H2, H3.
  cbn [LibStructure.suggested_tree LibStructure.mapping LibStructure.findings].
  split; [exact H1|]. split; [exact H3|]. split.
  - eapply Forall_impl; [exact H2|]. cbv zeta. intros m (Hm & Hlen & Hmix & Hsame).
    destruct (choose_module_cases (LibStructure.from_scripts m)) as (Hc1 & Hc2 & Hc3).
    rewrite Hm. split; [exact Hlen|]. split; [exact Hc1|]. split; [exact Hc2|].
    split; [exact Hc3|]. split; [exact Hmix|exact Hsame].
  - split.
    + rewrite map_map. cbn [snd]. apply map_id.
    + apply Forall_forall. intros f Hf.
      apply list_elem_of_In, in_map_iff in Hf as (m & <- & _). reflexivity.
Qed.

(** ** Clusters and keys *)

Section DupKeys.
Import Dup.

Variable ast_parse : string -> option Ast.module.
Variable same_name_only : bool.

Lemma hash_to_locs_keys_NoDup (its : list (string * func_record)) :
  NoDup (map fst (hash_to_locs same_name_only its)).
Proof.
  rewrite hash_to_locs_grouped. unfold grouped. rewrite map_map. cbn [fst].
  rewrite map_id. apply first_seen_NoDup.
Qed.

(** The key of a cluster, read back from what [analyze] returns of it. *)
Lemma key_read_back (its : list (string * func_record)) (k : key) (locs : list location) :
  (k, locs) ∈ hash_to_locs same_name_only its -> 2 <= length locs ->
  match (if same_name_only then head (map name locs) else None) with
  | Some (Some n) => KPair (hash_of_key k) n
  | _ => KHash (hash_of_key k)
  end = k.
Proof.
  intros Hk Hlen. destruct locs as [|loc locs]; [cbn in Hlen; lia|].
  destruct (hash_to_locs_elem same_name_only its k (loc :: locs) loc Hk)
    as (sp & r & _ & _ & -> & ->); [left|].
  unfold key_of. destruct same_name_only; reflexivity.
Qed.

Lemma clusters_of_keys_NoDup (its : list (string * func_record)) :
  NoDup (map (fun c => (hash c, if same_name_only then head (map name (locations c)) else None))
             (clusters_of (hash_to_locs same_name_only its))).
Proof.
  set (h := fun c : cluster =>
              (hash c, if same_name_only then head (map name (locations c)) else None)).
  set (phi := fun x : string * option (option string) =>
                match snd x with
                | Some (Some n) => KPair (fst x) n
                | _ => KHash (fst x)
                end).
  apply (NoDup_fmap_1 phi).
  set (d := hash_to_locs same_name_only its).
  assert (E : phi <$> map h (clusters_of d)
              = map fst (List.filter (fun kl => negb (length (snd kl) <=? 1)) d)).
  { rewrite clusters_of_filter.
    change (phi <$> map h (map (fun kl => Cluster (hash_of_key (fst kl)) (snd kl))
                             (List.filter (fun kl => negb (length (snd kl) <=? 1)) d)))
      with (map phi (map h (map (fun kl => Cluster (hash_of_key (fst kl)) (snd kl))
                             (List.filter (fun kl => negb (length (snd kl) <=? 1)) d)))).
    rewrite !map_map. apply map_ext_in. intros [k locs] Hin.
    apply filter_In in Hin as [Hin Hlen]. cbn [snd] in Hlen.
    apply negb_true_iff, Nat.leb_gt in Hlen.
    subst phi h. cbn [fst snd hash locations].
    apply (key_read_back its); [apply list_elem_of_In; exact Hin|lia]. }
  rewrite E.
  apply (sublist_NoDup _ (map fst d)); [apply hash_to_locs_keys_NoDup|].
  clear E. induction d as [|kl d IH]; [constructor|].
  cbn [List.filter map]. destruct (negb (length (snd kl) <=? 1)); cbn [map].
  - apply sublist_skip. exact IH.
  - apply sublist_cons. exact IH.
Qed.

End DupKeys.

(** X21: [analyze] never returns two clusters for one key: without
    [same_name_only] the clusters have pairwise different hashes, and
    with it two clusters of the same hash differ in the function name
    their locations carry. *)
Theorem X21_clusters_have_distinct_keys
    (ast_parse : string -> option Ast.module)
    (scan_py_files : Path.t -> filesystem -> list string)
    (repo_root : Path.t) (fs : filesystem)
    (script_paths : option (list string)) (limit : option Z) (same_name_only : bool) :
  let clusters :=
    fst (Dup.analyze ast_parse scan_py_files repo_root fs script_paths limit same_name_only) in
  NoDup (map (fun c => (hash c, if same_name_only then head (map name (locations c)) else None))
             clusters).
Proof.
  cbv zeta. unfold Dup.analyze. cbn [fst].
  set (d := Dup.hash_to_locs _ _).
  set (h := fun c : cluster =>
              (hash c, if same_name_only then head (map name (locations c)) else None)).
  assert (Hs : NoDup (map h (Dup.sort_desc (Dup.clusters_of d)))).
  { apply NoDup_ListNoDup. eapply Permutation_NoDup.
    - apply Permutation_map. symmetry. apply sort_desc_perm.
    - apply NoDup_ListNoDup, clusters_of_keys_NoDup. }
  unfold Dup.apply_limit. destruct limit as [n|]; [|exact Hs].
  destruct (0 <? n)%Z; [|exact Hs].
  rewrite <- (firstn_skipn (Z.to_nat n) (Dup.sort_desc (Dup.clusters_of d))) in Hs.
  rewrite map_app in Hs. apply NoDup_app in Hs as [Hs _]. exact Hs.
Qed.

(** ** The tool [analyze_duplicates] *)

Lemma list_sum_at_least (l : list nat) :
  Forall (fun n => 2 <= n) l -> 2 * length l <= list_sum l.
Proof.
  induction 1 as [|n l Hn _ IH]; [reflexivity|].
  change (list_sum (n :: l)) with (n + list_sum l). cbn [length]. lia.
Qed.

Lemma apply_limit_not_positive (n : Z) (l : list cluster) :
  (n <= 0)%Z -> Dup.apply_limit (Some n) l = l.
Proof.
  intros Hn. unfold Dup.apply_limit.
  destruct (0 <? n)%Z eqn:E; [apply Z.ltb_lt in E; lia|reflexivity].
Qed.

Lemma apply_limit_length (n : Z) (l : list cluster) :
  (0 < n)%Z -> (Z.of_nat (length (Dup.apply_limit (Some n) l)) <= n)%Z.
Proof.
  intros Hn. unfold Dup.apply_limit.
  destruct (0 <? n)%Z eqn:E; [|apply Z.ltb_ge in E; lia].
  rewrite length_firstn. lia.
Qed.

(** X22: the summary of the tool [analyze_duplicates] counts what the
    full answer lists: [clusters_count] is the number of clusters and
    [total_duplicates] the sum of the counts of the findings, which is at
    least twice the number of clusters.  A positive [limit] bounds the
    number of clusters; a limit of zero or below is no limit at all. *)
Theorem X22_summary_counts_the_full_answer
    (ast_parse : string -> option Ast.module)
    (scan_py_files : Path.t -> filesystem -> list string)
    (repo_root : Path.t) (fs : filesystem)
    (script_paths : option (list string)) (limit : Z) (same_name_only : option bool) :
  exists clusters findings,
    run_analyze_duplicates ast_parse scan_py_files repo_root fs script_paths (Some limit)
                           None same_name_only
    = Full clusters findings
    /\ run_analyze_duplicates ast_parse scan_py_files repo_root fs script_paths (Some limit)
                              (Some true) same_name_only
       = Summary (length clusters) (list_sum (map fcount findings))
    /\ 2 * length clusters <= list_sum (map fcount findings)
    /\ (if (0 <? limit)%Z
        then (Z.of_nat (length clusters) <= limit)%Z
        else run_analyze_duplicates ast_parse scan_py_files repo_root fs script_paths None
                                    None same_name_only
             = Full clusters findings).
Proof.
  unfold run_analyze_duplicates. cbv [default from_option id].
  set (b := match same_name_only with Some x => x | None => false end).
  assert (Hfind : forall l, snd (Dup.analyze ast_parse scan_py_files repo_root fs script_paths l b)
                            = map Dup.finding_of
                                  (fst (Dup.analyze ast_parse scan_py_files repo_root fs
                                          script_paths l b))) by reflexivity.
  assert (Htwo : forall l,
             Forall (fun c => 2 <= length (locations c))
                    (fst (Dup.analyze ast_parse scan_py_files repo_root fs script_paths l b))).
  { intros l. apply analyze_clusters_Forall.
    eapply Forall_impl; [apply clusters_of_sound|]. intros c [H _]. exact H. }
  destruct (Dup.analyze ast_parse scan_py_files repo_root fs script_paths
              (if (limit =? 0)%Z then None else Some limit) b) as [cs fds] eqn:E.
  pose proof (Hfind (if (limit =? 0)%Z then None else Some limit)) as Hf.
  pose proof (Htwo (if (limit =? 0)%Z then None else Some limit)) as Ht.
  rewrite E in Hf, Ht. cbn [fst snd] in Hf, Ht. subst fds.
  exists cs, (map Dup.finding_of cs).
  assert (Hsum : map fcount (map Dup.finding_of cs) = map (fun c => length (locations c)) cs).
  { rewrite map_map. reflexivity. }
  split; [reflexivity|]. split; [rewrite Hsum; reflexivity|]. split.
  - rewrite Hsum, <- (length_map (fun c => length (locations c)) cs).
    apply list_sum_at_least. apply Forall_map. exact Ht.
  - destruct (0 <? limit)%Z eqn:Epos.
    + apply Z.ltb_lt in Epos.
      destruct (limit =? 0)%Z eqn:E0; [apply Z.eqb_eq in E0; lia|].
      unfold Dup.analyze in E. injection E as <- _.
      apply apply_limit_length. exact Epos.
    + apply Z.ltb_ge in Epos. change (0 =? 0)%Z with true. cbv iota.
      assert (En : Dup.analyze ast_parse scan_py_files repo_root fs script_paths None b
                   = (cs, map Dup.finding_of cs)).
      { rewrite <- E. destruct (limit =? 0)%Z; [reflexivity|].
        unfold Dup.analyze. rewrite apply_limit_not_positive by exact Epos. reflexivity. }
      rewrite En. reflexivity.
Qed.

(** ** The layout list of a bundle *)

Section Layout.
Import ExtensionCreator.

Lemma first_loop_insert (lines : list string) (b : bool) (i j : nat) :
  first_loop b i lines = InsertAt j ->
  i <= j /\ exists l, lines !! (j - i) = Some l /\ Py.strip l = "".
Proof.
  revert b i. induction lines as [|line rest IH]; intros b i; cbn [first_loop]; [discriminate|].
  assert (Hrec : forall b', first_loop b' (S i) rest = InsertAt j ->
                 i <= j /\ exists l, (line :: rest) !! (j - i) = Some l /\ Py.strip l = "").
  { intros b' H. destruct (IH _ _ H) as (Hle & l & Hl & Hs). split; [lia|].
    exists l. replace (j - i) with (S (j - S i)) by lia. split; assumption. }
  destruct (Py.startswith (Py.strip line) "layout:"); [apply Hrec|].
  destruct b; [|apply Hrec].
  destruct (Py.truthy (Py.strip line) && negb (Py.startswith (Py.strip line) "-"));
    [discriminate|].
  destruct (Py.startswith (Py.strip line) "-"); [apply Hrec|].
  destruct (negb (Py.truthy (Py.strip line))) eqn:E; [|apply Hrec].
  intros [= <-]. split; [lia|]. exists line. rewrite Nat.sub_diag. split; [reflexivity|].
  unfold Py.truthy in E. rewrite negb_involutive in E. apply String.eqb_eq in E. exact E.
Qed.

Lemma last_dash_found (lines : list string) (i j : nat) :
  last_dash i lines = Some j ->
  i <= j /\ exists l, lines !! (j - i) = Some l /\ Py.startswith (Py.strip l) "-" = true.
Proof.
  revert i. induction lines as [|line rest IH]; intros i; cbn [last_dash]; [discriminate|].
  destruct (last_dash (S i) rest) as [k|] eqn:E.
  - intros [= <-]. destruct (IH _ E) as (Hle & l & Hl & Hs). split; [lia|].
    exists l. replace (k - i) with (S (k - S i)) by lia. split; assumption.
  - destruct (Py.startswith (Py.strip line) "-") eqn:Ed; [|discriminate].
    intros [= <-]. split; [lia|]. exists line. rewrite Nat.sub_diag. split; [reflexivity|exact Ed].
Qed.

Lemma prefix_app_r (a s q : string) : String.prefix a s = true -> String.prefix a (s +:+ q) = true.
Proof.
  revert s. induction a as [|c a IH]; intros s H.
  - destruct (s +:+ q); reflexivity.
  - destruct s as [|d s]; [discriminate H|].
    change (String d s +:+ q) with (String d (s +:+ q)).
    cbn [String.prefix] in H |- *. destruct (ascii_dec c d); [apply IH; exact H|discriminate H].
Qed.

Lemma contains_app_r (a s q : string) : Py.contains a s = true -> Py.contains a (s +:+ q) = true.
Proof.
  induction s as [|c s IH]; intros H.
  - apply prefix_contains. cbn [Py.contains] in H. rewrite orb_false_r in H.
    destruct a; [destruct ("" +:+ q); reflexivity|discriminate H].
  - change (String c s +:+ q) with (String c (s +:+ q)).
    cbn [Py.contains] in H |- *. apply orb_true_iff in H as [H|H].
    + change (String c (s +:+ q)) with (String c s +:+ q).
      rewrite (prefix_app_r _ _ _ H). reflexivity.
    + rewrite (IH H). apply orb_true_r.
Qed.

Lemma contains_app_l (a p s : string) : Py.contains a s = true -> Py.contains a (p +:+ s) = true.
Proof.
  intros H. induction p as [|c p IH]; [exact H|].
  change (String c p +:+ s) with (String c (p +:+ s)). apply contains_cons, IH.
Qed.

Lemma contains_occurs (a piece text : string) :
  Py.contains a piece = true -> Py.occurs_in piece text -> Py.contains a text = true.
Proof.
  intros H (pre & post & ->). apply contains_app_l, contains_app_r, H.
Qed.

Lemma rstrip_blank_lstrip (s : string) : Py.rstrip s = "" -> Py.rstrip (Py.lstrip s) = "".
Proof.
  induction s as [|c s IH]; [reflexivity|].
  cbn [Py.rstrip Py.lstrip].
  destruct (String.eqb (Py.rstrip s) "") eqn:E; cbn [andb]; [|discriminate].
  destruct (Py.isspace c) eqn:Ec; [|discriminate].
  intros _. apply IH. apply String.eqb_eq. exact E.
Qed.

(** The stripped form of a text occurs in its right-stripped form. *)
Lemma contains_strip_rstrip (s : string) : Py.contains (Py.strip s) (Py.rstrip s) = true.
Proof.
  unfold Py.strip. induction s as [|c s IH]; [reflexivity|].
  cbn [Py.lstrip]. destruct (Py.isspace c) eqn:Ec.
  - cbn [Py.rstrip]. rewrite Ec, andb_true_r.
    destruct (String.eqb (Py.rstrip s) "") eqn:E.
    + apply String.eqb_eq in E. rewrite (rstrip_blank_lstrip _ E). reflexivity.
    + apply contains_cons, IH.
  - apply prefix_contains, prefix_refl.
Qed.

(** The text written by an insertion holds the stripped new line. *)
Lemma inserted_line_is_found (item : string) (pre post : list string) :
  Py.contains (Py.strip (layout_line item))
              (Py.join Py.newline (pre ++ Py.rstrip (layout_line item) :: post) +:+ Py.newline)
  = true.
Proof.
  apply contains_app_r.
  apply (contains_occurs _ (Py.rstrip (layout_line item))); [apply contains_strip_rstrip|].
  apply occurs_in_join. apply elem_of_app. right. left.
Qed.

(** What an update is: the line is inserted at an index that holds a
    blank line, or just after a line that reads as a list item. *)
Lemma append_to_layout_updated (fs : filesystem) (yaml_path : Path.t) (item : string) :
  fst (_append_to_layout fs yaml_path item) = true ->
  exists text i,
    FS.read_text fs yaml_path = Some text
    /\ Py.contains "layout:" text = true
    /\ Py.contains (Py.strip (layout_line item)) text = false
    /\ ((exists l, Py.splitlines text !! i = Some l /\ Py.strip l = "")
        \/ (exists j l, i = j + 1 /\ Py.splitlines text !! j = Some l
                        /\ Py.startswith (Py.strip l) "-" = true))
    /\ snd (_append_to_layout fs yaml_path item)
       = FS.write_text fs yaml_path
           (Py.join Py.newline
              (list_insert_at i (Py.rstrip (layout_line item)) (Py.splitlines text))
            +:+ Py.newline).
Proof.
  unfold _append_to_layout.
  destruct (negb (FS.exists_ fs yaml_path)); [discriminate|].
  destruct (FS.read_text fs yaml_path) as [text|] eqn:Hread; [|discriminate].
  destruct (Py.contains "layout:" text) eqn:Hlayout; cbn [negb]; [|discriminate].
  destruct (Py.contains (Py.strip (layout_line item)) text) eqn:Hnew; [discriminate|].
  destruct (first_loop false 0 (Py.splitlines text)) as [i|b] eqn:E.
  - intros _. exists text, i. split; [reflexivity|]. split; [exact Hlayout|].
    split; [exact Hnew|]. split; [|reflexivity].
    left. destruct (first_loop_insert _ _ _ _ E) as (_ & l & Hl & Hs).
    rewrite Nat.sub_0_r in Hl. exists l. split; assumption.
  - destruct b; [|discriminate].
    destruct (last_dash 0 (Py.splitlines text)) as [j|] eqn:Ed; [|discriminate].
    intros _. exists text, (j + 1). split; [reflexivity|]. split; [exact Hlayout|].
    split; [exact Hnew|]. split; [|reflexivity].
    right. destruct (last_dash_found _ _ _ Ed) as (_ & l & Hl & Hs).
    rewrite Nat.sub_0_r in Hl. exists j, l. split; [reflexivity|]. split; assumption.
Qed.

Lemma append_to_layout_not_updated (fs : filesystem) (yaml_path : Path.t) (item : string) :
  fst (_append_to_layout fs yaml_path item) = false ->
  snd (_append_to_layout fs yaml_path item) = fs.
Proof.
  unfold _append_to_layout.
  destruct (negb (FS.exists_ fs yaml_path)); [reflexivity|].
  destruct (FS.read_text fs yaml_path) as [text|]; [|reflexivity].
  destruct (negb (Py.contains "layout:" text)); [reflexivity|].
  destruct (Py.contains (Py.strip (layout_line item)) text); [reflexivity|].
  destruct (first_loop false 0 (Py.splitlines text)) as [i|b]; [discriminate|].
  destruct b; [|reflexivity].
  destruct (last_dash 0 (Py.splitlines text)); [discriminate|reflexivity].
Qed.

End Layout.

(** X23: [_append_to_layout] only ever inserts one line.  When it
    reports an update, the file had a [layout:] and did not hold the
    item yet, and the text written is the lines of the file with the new
    item line put between two of them, before a blank line or after a
    line that reads as a list item; no other file changes.  When it
    reports no update, nothing is written. *)
Theorem X23_append_to_layout_only_inserts
    (fs : filesystem) (yaml_path : Path.t) (item : string) :
  let r := ExtensionCreator._append_to_layout fs yaml_path item in
  if fst r then
    exists text pre post,
      FS.read_text fs yaml_path = Some text
      /\ Py.contains "layout:" text = true
      /\ Py.contains (Py.strip (ExtensionCreator.layout_line item)) text = false
      /\ Py.splitlines text = pre ++ post
      /\ ((exists l post', post = l :: post' /\ Py.strip l = "")
          \/ (exists pre' l, pre = pre' ++ [l] /\ Py.startswith (Py.strip l) "-" = true))
      /\ snd r = FS.write_text fs yaml_path
                   (Py.join Py.newline
                      (pre ++ Py.rstrip (ExtensionCreator.layout_line item) :: post)
                    +:+ Py.newline)
      /\ forall f, f <> FS.key yaml_path -> snd r !! f = fs !! f
  else snd r = fs.
Proof.
  cbv zeta.
  destruct (fst (ExtensionCreator._append_to_layout fs yaml_path item)) eqn:E;
    [|apply append_to_layout_not_updated; exact E].
  destruct (append_to_layout_updated _ _ _ E) as (text & i & Hread & Hl & Hn & Hi & Hw).
  exists text, (firstn i (Py.splitlines text)), (skipn i (Py.splitlines text)).
  split; [exact Hread|]. split; [exact Hl|]. split; [exact Hn|].
  split; [symmetry; apply firstn_skipn|]. split.
  - destruct Hi as [(l & Hlk & Hs)|(j & l & -> & Hlk & Hs)].
    + left. exists l, (skipn (S i) (Py.splitlines text)). split; [|exact Hs].
      apply drop_S. exact Hlk.
    + right. exists (firstn j (Py.splitlines text)), l. split; [|exact Hs].
      rewrite Nat.add_1_r. apply take_S_r. exact Hlk.
  - split; [exact Hw|].
    intros f Hf. rewrite Hw. apply lookup_insert_ne. congruence.
Qed.

(** ** The form of a hash *)

Section HashForm.

Lemma hex_digit_is_hex (n : nat) : n < 16 -> is_hex_digit (Py.hex_digit n) = true.
Proof.
  intros H. do 16 (destruct n as [|n]; [reflexivity|]). lia.
Qed.

Lemma hex_of_nibble_is_hex (x : Z) : is_hex_digit (Sha256.hex_of_nibble (Z.land x 15)) = true.
Proof.
  unfold Sha256.hex_of_nibble. apply hex_digit_is_hex.
  assert (0 <= Z.land x 15 < 16)%Z.
  { change 15%Z with (Z.ones 4). rewrite Z.land_ones by lia. apply Z.mod_pos_bound. lia. }
  lia.
Qed.

Lemma hex_of_word_from_form (n : nat) (x : Z) :
  String.length (Sha256.hex_of_word_from n x) = n
  /\ all_hex (Sha256.hex_of_word_from n x) = true.
Proof.
  induction n as [|n [IH1 IH2]]; [split; reflexivity|].
  cbn [Sha256.hex_of_word_from String.length all_hex].
  rewrite IH1, IH2, hex_of_nibble_is_hex. split; reflexivity.
Qed.

Lemma append_form (a b : string) :
  String.length (a +:+ b) = String.length a + String.length b
  /\ all_hex (a +:+ b) = all_hex a && all_hex b.
Proof.
  induction a as [|c a [IH1 IH2]]; [split; reflexivity|].
  change (String c a +:+ b) with (String c (a +:+ b)).
  cbn [String.length all_hex]. rewrite IH1, IH2, andb_assoc. split; reflexivity.
Qed.

Lemma concat_form (n : nat) (l : list string) :
  Forall (fun w => String.length w = n /\ all_hex w = true) l ->
  String.length (String.concat "" l) = length l * n
  /\ all_hex (String.concat "" l) = true.
Proof.
  induction 1 as [|w l [Hw1 Hw2] _ [IH1 IH2]]; [split; reflexivity|].
  destruct l as [|w' l].
  - cbn [String.concat length]. rewrite Hw1, Hw2. split; [lia|reflexivity].
  - change (String.concat "" (w :: w' :: l)) with (w +:+ "" +:+ String.concat "" (w' :: l)).
    destruct (append_form w ("" +:+ String.concat "" (w' :: l))) as [H1 H2].
    change ("" +:+ String.concat "" (w' :: l)) with (String.concat "" (w' :: l)) in H1, H2.
    change (w +:+ "" +:+ String.concat "" (w' :: l))
      with (w +:+ String.concat "" (w' :: l)).
    rewrite H1, H2, IH1, IH2, Hw1, Hw2. cbn [length]. split; [lia|reflexivity].
Qed.

Lemma substring_form (n : nat) (s : string) :
  n <= String.length s -> all_hex s = true ->
  String.length (String.substring 0 n s) = n /\ all_hex (String.substring 0 n s) = true.
Proof.
  revert s. induction n as [|n IH]; intros s Hn Hs.
  - destruct s; split; reflexivity.
  - destruct s as [|c s]; [cbn in Hn; lia|].
    cbn [String.length all_hex] in Hn, Hs. apply andb_true_iff in Hs as [Hc Hs].
    cbn [String.substring]. destruct (IH s) as [H1 H2]; [lia|exact Hs|].
    cbn [String.length all_hex]. rewrite H1, H2, Hc. split; reflexivity.
Qed.

(** Every hash is 16 lowercase hexadecimal digits. *)
Lemma hash_body_form (body : string) :
  String.length (Dup._hash_body body) = 16 /\ all_hex (Dup._hash_body body) = true.
Proof.
  unfold Dup._hash_body, Sha256.hexdigest, Sha256.digest_words. cbv zeta.
  set (r := fold_left Sha256.compress _ _).
  destruct (concat_form 8 (map (Sha256.hex_of_word_from 8)
              [Sha256.ra r; Sha256.rb r; Sha256.rc r; Sha256.rd r;
               Sha256.re r; Sha256.rf r; Sha256.rg r; Sha256.rh r])) as [H1 H2].
  { repeat constructor; apply hex_of_word_from_form. }
  apply substring_form; [rewrite H1; cbn [map length]; lia|exact H2].
Qed.

End HashForm.

(** X26: the hash of every cluster [analyze] returns is a text of
    exactly 16 lowercase hexadecimal digits, whatever the scripts hold:
    the first 16 of the 64 digits of the SHA-256 digest of the
    fingerprint. *)
Theorem X26_cluster_hash_is_sixteen_hex_digits
    (ast_parse : string -> option Ast.module)
    (scan_py_files : Path.t -> filesystem -> list string)
    (repo_root : Path.t) (fs : filesystem)
    (script_paths : option (list string)) (limit : option Z) (same_name_only : bool) :
  Forall (fun c => String.length (hash c) = 16 /\ all_hex (hash c) = true)
         (fst (Dup.analyze ast_parse scan_py_files repo_root fs script_paths limit
                           same_name_only)).
Proof.
  apply analyze_clusters_Forall.
  eapply Forall_impl; [apply clusters_of_sound|].
  intros c (Hlen & k & Hk & ->).
  assert (Hloc : exists loc, loc ∈ locations c).
  { destruct (locations c) as [|loc locs]; [cbn in Hlen; lia|]. exists loc. left. }
  destruct Hloc as [loc Hloc].
  destruct (hash_to_locs_elem same_name_only _ _ _ _ Hk Hloc)
    as (sp & r & _ & _ & _ & ->).
  unfold Dup.key_of. destruct same_name_only; cbn [Dup.hash_of_key]; apply hash_body_form.
Qed.

(** * Runs against an operating system that can refuse a write *)

(** ** Runs of [apply_patches] in which a write can fail *)

Section ApplyIO.
Import PatchEngine.

Variable env : IO.environment.
Variable repo_root : Path.t.
Variable mode : string.

(** One iteration: the lists and files of the iteration without
    failure, or the exception the environment answered, with the files
    as they were. *)
Lemma apply_one_io_cases (acc : list string * list string) (p : patch) (w : IO.world) :
  let st := Outcome (IO.w_files w) (fst acc) (snd acc) in
  match PatchEngineIO.apply_one env repo_root mode acc p w with
  | (w', Ok acc') =>
      Outcome (IO.w_files w') (fst acc') (snd acc') = apply_one repo_root mode st p
      /\ IO.w_clock w <= IO.w_clock w'
      /\ (String.eqb mode "write" = false -> w' = w)
  | (w', Raise e) =>
      IO.w_files w' = IO.w_files w
      /\ String.eqb mode "write" = true
      /\ inside_repo repo_root (path p) = true
      /\ exists k, IO.w_clock w <= k /\ env k = Some e
  end.
Proof.
  cbv zeta. unfold PatchEngineIO.apply_one, apply_one. cbn [files applied errors].
  destruct (negb (inside_repo repo_root (path p))) eqn:Ein.
  { cbn. split; [reflexivity|]. split; [lia|]. destruct w; reflexivity. }
  apply negb_false_iff in Ein.
  destruct (String.eqb mode "write") eqn:Em.
  - unfold IO.bind, IO.mkdir, IO.write_text, IO.ret. cbn [IO.w_clock IO.w_files].
    destruct (env (IO.w_clock w)) as [e|] eqn:E1.
    { cbv beta iota zeta. cbn [IO.w_files IO.w_clock].
      split; [reflexivity|]. split; [reflexivity|]. split; [exact Ein|].
      exists (IO.w_clock w). split; [lia|exact E1]. }
    cbv beta iota zeta. cbn [IO.w_files IO.w_clock].
    destruct (env (S (IO.w_clock w))) as [e|] eqn:E2.
    { cbv beta iota zeta. cbn [IO.w_files IO.w_clock].
      split; [reflexivity|]. split; [reflexivity|]. split; [exact Ein|].
      exists (S (IO.w_clock w)). split; [lia|exact E2]. }
    cbv beta iota zeta. cbn [IO.w_files IO.w_clock fst snd].
    split; [reflexivity|]. split; [lia|discriminate].
  - cbn. split; [reflexivity|]. split; [lia|]. destruct w; reflexivity.
Qed.

(** A run that returns has the lists and the files of the loop without
    failure. *)
Lemma apply_loop_Ok (ps : list patch) (acc acc' : list string * list string) (w w' : IO.world) :
  PatchEngineIO.apply_loop env repo_root mode ps acc w = (w', Ok acc') ->
  Outcome (IO.w_files w') (fst acc') (snd acc')
  = fold_left (apply_one repo_root mode) ps (Outcome (IO.w_files w) (fst acc) (snd acc)).
Proof.
  revert acc w. induction ps as [|p ps IH]; intros acc w; cbn [PatchEngineIO.apply_loop fold_left].
  - unfold IO.ret. intros [= <- <-]. reflexivity.
  - unfold IO.bind. pose proof (apply_one_io_cases acc p w) as H. cbv zeta in H.
    destruct (PatchEngineIO.apply_one env repo_root mode acc p w) as [w1 [acc1|e]];
      [|discriminate].
    destruct H as (H & _ & _). intros Hrun. rewrite <- H. apply IH. exact Hrun.
Qed.

(** A run that raises does so in write mode, with an exception the
    environment answered. *)
Lemma apply_loop_Raise (ps : list patch) (acc : list string * list string) (w w' : IO.world)
    (e : exn) :
  PatchEngineIO.apply_loop env repo_root mode ps acc w = (w', Raise e) ->
  String.eqb mode "write" = true /\ exists k, IO.w_clock w <= k /\ env k = Some e.
Proof.
  revert acc w. induction ps as [|p ps IH]; intros acc w; cbn [PatchEngineIO.apply_loop].
  - discriminate.
  - unfold IO.bind. pose proof (apply_one_io_cases acc p w) as H. cbv zeta in H.
    destruct (PatchEngineIO.apply_one env repo_root mode acc p w) as [w1 [acc1|e1]].
    + destruct H as (_ & Hc & _). intros Hrun. destruct (IH _ _ Hrun) as (Hm & k & Hk & He).
      split; [exact Hm|]. exists k. split; [lia|exact He].
    + destruct H as (_ & Hm & _ & k & Hk & He). intros [= <- <-].
      split; [exact Hm|]. exists k. split; assumption.
Qed.

(** Outside write mode a run asks the environment nothing and returns. *)
Lemma apply_loop_dry (ps : list patch) (acc : list string * list string) (w : IO.world) :
  String.eqb mode "write" = false ->
  exists acc', PatchEngineIO.apply_loop env repo_root mode ps acc w = (w, Ok acc').
Proof.
  intros Hm. revert acc. induction ps as [|p ps IH]; intros acc; cbn [PatchEngineIO.apply_loop].
  - eexists. reflexivity.
  - unfold IO.bind. pose proof (apply_one_io_cases acc p w) as H. cbv zeta in H.
    destruct (PatchEngineIO.apply_one env repo_root mode acc p w) as [w1 [acc1|e1]].
    + destruct H as (_ & _ & Hw). rewrite (Hw Hm). apply IH.
    + destruct H as (_ & Hw & _). congruence.
Qed.

(** When the environment refuses nothing the run returns. *)
Lemma apply_loop_quiet (ps : list patch) (acc : list string * list string) (w : IO.world) :
  (forall k, env k = None) ->
  exists w' acc', PatchEngineIO.apply_loop env repo_root mode ps acc w = (w', Ok acc').
Proof.
  intros Hq. revert acc w. induction ps as [|p ps IH]; intros acc w;
    cbn [PatchEngineIO.apply_loop].
  - eexists _, _. reflexivity.
  - unfold IO.bind. pose proof (apply_one_io_cases acc p w) as H. cbv zeta in H.
    destruct (PatchEngineIO.apply_one env repo_root mode acc p w) as [w1 [acc1|e1]].
    + apply IH.
    + destruct H as (_ & _ & _ & k & _ & He). rewrite Hq in He. discriminate.
Qed.

(** Whether or not a write is refused, a file no accepted patch targets
    keeps its content. *)
Lemma apply_loop_frame (ps : list patch) (acc : list string * list string) (w : IO.world)
    (f : string) :
  Forall (fun p => inside_repo repo_root (path p) = true ->
                   FS.key (Path.joinpath repo_root (path p)) <> f) ps ->
  IO.w_files (fst (PatchEngineIO.apply_loop env repo_root mode ps acc w)) !! f
  = IO.w_files w !! f.
Proof.
  intros H. revert acc w. induction H as [|p ps Hp _ IH]; intros acc w;
    cbn [PatchEngineIO.apply_loop]; [reflexivity|].
  unfold IO.bind. pose proof (apply_one_io_cases acc p w) as Hc. cbv zeta in Hc.
  destruct (PatchEngineIO.apply_one env repo_root mode acc p w) as [w1 [acc1|e1]].
  - destruct Hc as (Hc & _ & _). rewrite IH.
    apply (f_equal files) in Hc. cbn [files] in Hc. rewrite Hc, files_apply_one.
    destruct (writes repo_root mode p) eqn:Ew; [|reflexivity].
    apply lookup_insert_ne. apply Hp.
    unfold writes in Ew. apply andb_true_iff in Ew as [Ei _]. exact Ei.
  - cbn [fst]. destruct Hc as (Hc & _). rewrite Hc. reflexivity.
Qed.

End ApplyIO.

(** X1: a run of [apply_patches] that returns accounts for every patch
    exactly once and in order: the patches whose path passes the
    containment check are listed in [applied] (with the dry-run suffix
    outside write mode), the others in [errors], and the two lists
    together are as long as the patch list.  Outside write mode the run
    asks for no write and leaves the world as it is.  When neither the
    root nor a patch path holds a null character, a run raises only in
    write mode and only an exception the operating system answered to
    one of its writes, so that it returns outside write mode, and in
    write mode when no write is refused. *)
Theorem X1_apply_patches_accounts_for_every_patch
    (env : IO.environment) (repo_root : Path.t) (w : IO.world)
    (patches : list PatchEngine.patch) (mode : option string) :
  let run := PatchEngineIO.apply_patches env repo_root patches mode w in
  let inside := fun p => PatchEngine.inside_repo repo_root (PatchEngine.path p) in
  let write := String.eqb (default "dry_run" mode) "write" in
  (forall applied errors,
     snd run = Ok (applied, errors) ->
     applied = map (fun p => if write then PatchEngine.path p
                             else PatchEngine.path p +:+ " (dry-run)")
                   (List.filter inside patches)
     /\ errors = map (fun p => "Skipped " +:+ PatchEngine.path p +:+ ": outside repo")
                     (List.filter (fun p => negb (inside p)) patches)
     /\ length applied + length errors = length patches)
  /\ (write = false -> fst run = w)
  /\ (no_nul (Path.str repo_root) = true ->
      Forall (fun p => no_nul (PatchEngine.path p) = true) patches ->
      (forall e, snd run = Raise e ->
         write = true /\ exists k, IO.w_clock w <= k /\ env k = Some e)
      /\ (write = false -> exists r, snd run = Ok r)
      /\ ((forall k, env k = None) -> exists r, snd run = Ok r)).
Proof.
  cbv zeta. unfold PatchEngineIO.apply_patches.
  set (m := default "dry_run" mode).
  destruct (PatchEngineIO.apply_loop env repo_root m patches ([], []) w) as [w' r] eqn:E.
  cbn [fst snd]. split; [|split].
  - intros applied errors ->.
    pose proof (apply_loop_Ok env repo_root m patches _ _ _ _ E) as H.
    cbn [fst snd] in H.
    destruct (lists_fold repo_root m patches (PatchEngine.Outcome (IO.w_files w) [] []))
      as [Ha He].
    rewrite <- H in Ha, He. cbn [PatchEngine.applied PatchEngine.errors app] in Ha, He.
    rewrite Ha, He, flat_map_applied_by, flat_map_errors_by.
    split; [reflexivity|]. split; [reflexivity|].
    rewrite !length_map. apply filter_partition_length.
  - intros Em.
    destruct (apply_loop_dry env repo_root m patches ([], []) w Em) as [acc' E'].
    rewrite E in E'. injection E' as -> _. reflexivity.
  - intros _ _. split; [|split].
    + intros e ->. exact (apply_loop_Raise env repo_root m patches _ _ _ _ E).
    + intros Em.
      destruct (apply_loop_dry env repo_root m patches ([], []) w Em) as [acc' E'].
      rewrite E in E'. injection E' as _ ->. eexists. reflexivity.
    + intros Hq. destruct (apply_loop_quiet env repo_root m patches ([], []) w Hq)
        as (w1 & acc1 & E'). rewrite E in E'. injection E' as _ ->. eexists. reflexivity.
Qed.

(** The patch for the path [.] of a root that is a directory: the
    operating system refuses the write, the run raises, and the patch
    after it is not reached. *)
Lemma X1_apply_patches_accounts_for_every_patch_witness :
  let refused := OSError "[Errno 21] Is a directory: '/repo'" in
  let env : IO.environment := fun k => if k =? 1 then Some refused else None in
  let patches := [ PatchEngine.Patch "." None (Some "x") "low" "";
                   PatchEngine.Patch "a.py" None (Some "y") "low" "" ] in
  no_nul (Path.str Scenario.repo) = true
  /\ Forall (fun p => no_nul (PatchEngine.path p) = true) patches
  /\ PatchEngineIO.apply_patches env Scenario.repo patches (Some "write") (IO.World ∅ 0)
     = (IO.World ∅ 2, Raise refused)
  /\ (exists k, 0 <= k /\ env k = Some refused)
  /\ PatchEngineIO.apply_patches env Scenario.repo patches None (IO.World ∅ 0)
     = (IO.World ∅ 0, Ok ([". (dry-run)"; "a.py (dry-run)"], [])).
Proof.
  cbv zeta.
  assert (E : PatchEngineIO.apply_patches
                (fun k => if k =? 1 then Some (OSError "[Errno 21] Is a directory: '/repo'")
                          else None)
                Scenario.repo
                [ PatchEngine.Patch "." None (Some "x") "low" "";
                  PatchEngine.Patch "a.py" None (Some "y") "low" "" ]
                (Some "write") (IO.World ∅ 0)
              = (IO.World ∅ 2, Raise (OSError "[Errno 21] Is a directory: '/repo'")))
    by (vm_compute; reflexivity).
  assert (Hroot : no_nul (Path.str Scenario.repo) = true) by reflexivity.
  assert (Hpaths : Forall (fun p => no_nul (PatchEngine.path p) = true)
                     [ PatchEngine.Patch "." None (Some "x") "low" "";
                       PatchEngine.Patch "a.py" None (Some "y") "low" "" ])
    by (repeat constructor).
  split; [exact Hroot|]. split; [exact Hpaths|].
  split; [exact E|]. split; [|vm_compute; reflexivity].
  pose proof (X1_apply_patches_accounts_for_every_patch
                (fun k => if k =? 1 then Some (OSError "[Errno 21] Is a directory: '/repo'")
                          else None)
                Scenario.repo (IO.World ∅ 0)
                [ PatchEngine.Patch "." None (Some "x") "low" "";
                  PatchEngine.Patch "a.py" None (Some "y") "low" "" ]
                (Some "write")) as H.
  cbv zeta in H. destruct H as (_ & _ & H). destruct (H Hroot Hpaths) as [Hr _].
  rewrite E in Hr. destruct (Hr _ eq_refl) as [_ Hk]. exact Hk.
Defined.

(** X2: in write mode [apply_patches] changes only the files its
    accepted patches target: every other file keeps its content, whether
    or not a write is refused; and after a run that returns, a targeted
    file holds the content of the last accepted patch that targets it. *)
Theorem X2_write_mode_changes_only_targets
    (env : IO.environment) (repo_root : Path.t) (w : IO.world)
    (patches : list PatchEngine.patch) :
  let run := PatchEngineIO.apply_patches env repo_root patches (Some "write") w in
  let inside := fun p => PatchEngine.inside_repo repo_root (PatchEngine.path p) in
  let target := fun p => FS.key (Path.joinpath repo_root (PatchEngine.path p)) in
  (forall f : string,
     Forall (fun p => inside p = true -> target p <> f) patches ->
     IO.w_files (fst run) !! f = IO.w_files w !! f)
  /\ (forall r pre p post,
        snd run = Ok r ->
        patches = pre ++ p :: post ->
        inside p = true ->
        Forall (fun q => inside q = true -> target q <> target p) post ->
        IO.w_files (fst run) !! target p = Some (PatchEngine.written_content p)).
Proof.
  cbv zeta. unfold PatchEngineIO.apply_patches.
  change (default "dry_run" (Some "write")) with "write". split.
  - intros f H. apply apply_loop_frame. exact H.
  - intros r pre p post Hr -> Hin Hpost.
    destruct (PatchEngineIO.apply_loop env repo_root "write" (pre ++ p :: post) ([], []) w)
      as [w' r'] eqn:E.
    cbn [fst snd] in Hr |- *. subst r'.
    pose proof (apply_loop_Ok env repo_root "write" _ _ _ _ _ E) as H.
    apply (f_equal PatchEngine.files) in H. cbn [PatchEngine.files fst snd] in H. rewrite H.
    assert (Hw : forall q, PatchEngine.writes repo_root "write" q
                           = PatchEngine.inside_repo repo_root (PatchEngine.path q)).
    { intros q. unfold PatchEngine.writes. cbn. apply andb_true_r. }
    apply files_fold_lookup_last.
    + rewrite Hw. exact Hin.
    + eapply Forall_impl; [exact Hpost|]. cbn. intros q Hq Eq. apply Hq. rewrite <- Hw. exact Eq.
Qed.

(** Two patches for one file and a file left alone, when no write is
    refused. *)
Lemma X2_write_mode_changes_only_targets_witness :
  let p1 := PatchEngine.Patch "a.py" None (Some "one") "low" "" in
  let p2 := PatchEngine.Patch "a.py" None (Some "two") "low" "" in
  let w := IO.World (<["/repo/b.py" := "keep"]> ∅) 0 in
  let run := PatchEngineIO.apply_patches (fun _ => None) Scenario.repo [p1; p2]
                                         (Some "write") w in
  snd run = Ok (["a.py"; "a.py"], [])
  /\ IO.w_files (fst run) !! "/repo/a.py" = Some "two"
  /\ IO.w_files (fst run) !! "/repo/b.py" = Some "keep".
Proof.
  cbv zeta. split; [vm_compute; reflexivity|]. split.
  - apply (proj2 (X2_write_mode_changes_only_targets (fun _ => None) Scenario.repo
                    (IO.World (<["/repo/b.py" := "keep"]> ∅) 0)
                    [ PatchEngine.Patch "a.py" None (Some "one") "low" "";
                      PatchEngine.Patch "a.py" None (Some "two") "low" "" ])
                 (["a.py"; "a.py"], [])
                 [PatchEngine.Patch "a.py" None (Some "one") "low" ""]
                 (PatchEngine.Patch "a.py" None (Some "two") "low" "") []).
    + vm_compute. reflexivity.
    + reflexivity.
    + vm_compute. reflexivity.
    + constructor.
  - rewrite (proj1 (X2_write_mode_changes_only_targets (fun _ => None) Scenario.repo
                      (IO.World (<["/repo/b.py" := "keep"]> ∅) 0)
                      [ PatchEngine.Patch "a.py" None (Some "one") "low" "";
                        PatchEngine.Patch "a.py" None (Some "two") "low" "" ])
                   "/repo/b.py").
    + vm_compute. reflexivity.
    + repeat constructor; intros _; vm_compute; discriminate.
Defined.

Section OnePatch.

Variable env : IO.environment.
Variable repo_root : Path.t.

(** The run on one patch that passes the containment check. *)
Lemma apply_one_patch_write (p : PatchEngine.patch) (w : IO.world) :
  PatchEngine.inside_repo repo_root (PatchEngine.path p) = true ->
  match PatchEngineIO.apply_patches env repo_root [p] (Some "write") w with
  | (w', Ok r) =>
      r = ([PatchEngine.path p], [])
      /\ IO.w_files w'
         = FS.write_text (IO.w_files w) (Path.joinpath repo_root (PatchEngine.path p))
                         (PatchEngine.written_content p)
  | (w', Raise e) =>
      IO.w_files w' = IO.w_files w /\ exists k, IO.w_clock w <= k /\ env k = Some e
  end.
Proof.
  intros Hin. unfold PatchEngineIO.apply_patches.
  change (default "dry_run" (Some "write")) with "write". cbn [PatchEngineIO.apply_loop].
  unfold IO.bind. pose proof (apply_one_io_cases env repo_root "write" ([], []) p w) as H.
  cbv zeta in H.
  destruct (PatchEngineIO.apply_one env repo_root "write" ([], []) p w) as [w1 [acc1|e1]].
  - unfold IO.ret. destruct H as (H & _ & _).
    unfold PatchEngine.apply_one in H. cbn [PatchEngine.files PatchEngine.applied
      PatchEngine.errors fst snd] in H. rewrite Hin in H. cbn in H.
    injection H as H1 H2 H3. destruct acc1 as [a e]. cbn [fst snd] in *. subst a e.
    split; [reflexivity|exact H1].
  - destruct H as (H & _ & _ & Hk). split; assumption.
Qed.

Lemma apply_one_patch_dry (p : PatchEngine.patch) (w : IO.world) :
  PatchEngine.inside_repo repo_root (PatchEngine.path p) = true ->
  PatchEngineIO.apply_patches env repo_root [p] None w
  = (w, Ok ([PatchEngine.path p +:+ " (dry-run)"], [])).
Proof.
  intros Hin. unfold PatchEngineIO.apply_patches.
  change (default "dry_run" None) with "dry_run". cbn [PatchEngineIO.apply_loop].
  unfold IO.bind, PatchEngineIO.apply_one. rewrite Hin. reflexivity.
Qed.

End OnePatch.

(** X4: a patch that [create_add_file_patch] or [create_edit_patch]
    returns is never skipped by [apply_patches].  In dry-run mode it is
    reported with the suffix and nothing changes.  In write mode either
    the operating system refuses the write and the run raises its
    exception, or the run reports the path as applied, with no error, and
    the file at that path holds the content the patch was created with;
    either way every other file is unchanged. *)
Theorem X4_created_patch_applies_and_reads_back
    (env : IO.environment) (repo_root : Path.t) (w : IO.world)
    (rel_path old_content content risk : string) (p : PatchEngine.patch) :
  PatchEngine.create_add_file_patch repo_root rel_path content risk = Ok p
  \/ PatchEngine.create_edit_patch repo_root rel_path old_content content risk = Ok p ->
  PatchEngineIO.apply_patches env repo_root [p] None w
  = (w, Ok ([rel_path +:+ " (dry-run)"], []))
  /\ match PatchEngineIO.apply_patches env repo_root [p] (Some "write") w with
     | (w', Ok (applied, errors)) =>
         applied = [rel_path] /\ errors = []
         /\ IO.w_files w' !! FS.key (Path.joinpath repo_root rel_path) = Some content
         /\ (forall f : string, f <> FS.key (Path.joinpath repo_root rel_path) ->
               IO.w_files w' !! f = IO.w_files w !! f)
     | (w', Raise e) =>
         (forall f : string, f <> FS.key (Path.joinpath repo_root rel_path) ->
            IO.w_files w' !! f = IO.w_files w !! f)
         /\ exists k, IO.w_clock w <= k /\ env k = Some e
     end.
Proof.
  intros Hc.
  assert (H : PatchEngine.inside_repo repo_root rel_path = true
              /\ PatchEngine.path p = rel_path /\ PatchEngine.content p = Some content).
  { destruct Hc as [Hc|Hc];
      [unfold PatchEngine.create_add_file_patch in Hc
      |unfold PatchEngine.create_edit_patch in Hc];
      destruct (PatchEngine.inside_repo repo_root rel_path); cbn [negb] in Hc;
      try discriminate; injection Hc as <-; repeat split. }
  destruct H as (Hin & Hp & Hcont). rewrite <- Hp in Hin.
  split; [rewrite (apply_one_patch_dry env repo_root p w Hin), Hp; reflexivity|].
  pose proof (apply_one_patch_write env repo_root p w Hin) as Hw.
  destruct (PatchEngineIO.apply_patches env repo_root [p] (Some "write") w) as [w' [[a e]|e]];
    [|destruct Hw as [Hf Hk]; split; [intros f _; rewrite Hf; reflexivity|exact Hk]].
  destruct Hw as [[= -> ->] Hf]. rewrite Hp in Hf |- *.
  split; [reflexivity|]. split; [reflexivity|]. rewrite Hf.
  unfold PatchEngine.written_content. rewrite Hcont. unfold FS.write_text. split.
  - apply lookup_insert_eq.
  - intros f Hne. apply lookup_insert_ne. congruence.
Qed.

(** A new file under [/repo], when no write is refused. *)
Lemma X4_created_patch_applies_and_reads_back_witness :
  exists p,
    PatchEngine.create_add_file_patch Scenario.repo "lib/utils.py" "x = 1" "medium" = Ok p
    /\ PatchEngineIO.apply_patches (fun _ => None) Scenario.repo [p] None (IO.World ∅ 0)
       = (IO.World ∅ 0, Ok (["lib/utils.py (dry-run)"], []))
    /\ snd (PatchEngineIO.apply_patches (fun _ => None) Scenario.repo [p] (Some "write")
              (IO.World ∅ 0))
       = Ok (["lib/utils.py"], []).
Proof.
  eexists. split; [vm_compute; reflexivity|].
  split; [|vm_compute; reflexivity].
  apply (X4_created_patch_applies_and_reads_back (fun _ => None) Scenario.repo (IO.World ∅ 0)
           "lib/utils.py" "" "x = 1" "medium" _ (or_introl eq_refl)).
Defined.

(** X18: the diff of a new file is enough to rebuild it: when the patch
    [create_add_file_patch] returns is stripped of its [content] and
    applied in write mode, a run that returns reports the path as
    applied and the file written has exactly the lines of the content,
    provided none of them begins with two plus signs (such a line reads
    as a diff header and is dropped); a run that raises was refused the
    write by the operating system and has changed no other file. *)
Theorem X18_new_file_is_rebuilt_from_its_diff
    (env : IO.environment) (repo_root : Path.t) (w : IO.world)
    (rel_path content risk : string) (p : PatchEngine.patch) :
  PatchEngine.create_add_file_patch repo_root rel_path content risk = Ok p ->
  no_linebreak (Path.str (Path.joinpath repo_root rel_path)) = true ->
  Forall (fun l => Py.startswith l "++" = false) (Py.splitlines content) ->
  let q := PatchEngine.Patch (PatchEngine.path p) (PatchEngine.diff p) None
                             (PatchEngine.risk p) (PatchEngine.summary p) in
  match PatchEngineIO.apply_patches env repo_root [q] (Some "write") w with
  | (w', Ok (applied, errors)) =>
      applied = [rel_path] /\ errors = []
      /\ exists text,
           FS.read_text (IO.w_files w') (Path.joinpath repo_root rel_path) = Some text
           /\ Py.splitlines text = Py.splitlines content
  | (w', Raise e) =>
      (forall f : string, f <> FS.key (Path.joinpath repo_root rel_path) ->
         IO.w_files w' !! f = IO.w_files w !! f)
      /\ exists k, IO.w_clock w <= k /\ env k = Some e
  end.
Proof.
  intros Hc Hpath Hplus. unfold PatchEngine.create_add_file_patch in Hc.
  destruct (PatchEngine.inside_repo repo_root rel_path) eqn:Hin; cbn [negb] in Hc;
    [|discriminate].
  injection Hc as <-. cbv zeta.
  cbn [PatchEngine.path PatchEngine.diff PatchEngine.risk PatchEngine.summary].
  match goal with
  | |- context [PatchEngineIO.apply_patches _ _ [?q0] _ _] =>
      pose proof (apply_one_patch_write env repo_root q0 w Hin) as Hw;
      destruct (PatchEngineIO.apply_patches env repo_root [q0] (Some "write") w)
        as [w' [[a e]|e]];
        [|destruct Hw as [Hf Hk]; split; [intros f _; rewrite Hf; reflexivity|exact Hk]]
  end.
  destruct Hw as [[= -> ->] Hf]. cbn [PatchEngine.path] in *.
  split; [reflexivity|]. split; [reflexivity|].
  eexists. split; [rewrite Hf; apply lookup_insert_eq|].
  unfold PatchEngine.written_content.
  cbn [PatchEngine.content PatchEngine.diff]. cbv [default from_option id].
  rewrite content_from_diff_of_made_diff by (exact Hpath || apply lines_of_no_linebreak).
  rewrite lines_of_splitlines, added_lines_new_file by exact Hplus.
  apply splitlines_join_lines, splitlines_no_linebreak.
Qed.

Lemma X18_new_file_is_rebuilt_from_its_diff_witness :
  let content := "import os" +:+ Py.newline +:+ Py.newline +:+ "x = 1" in
  exists p w',
    PatchEngine.create_add_file_patch Scenario.repo "lib/utils.py" content "medium" = Ok p
    /\ PatchEngineIO.apply_patches (fun _ => None) Scenario.repo
         [PatchEngine.Patch (PatchEngine.path p) (PatchEngine.diff p) None
                            (PatchEngine.risk p) (PatchEngine.summary p)]
         (Some "write") (IO.World ∅ 0)
       = (w', Ok (["lib/utils.py"], []))
    /\ exists text,
         FS.read_text (IO.w_files w') (Path.joinpath Scenario.repo "lib/utils.py") = Some text
         /\ Py.splitlines text = ["import os"; ""; "x = 1"].
Proof.
  cbv zeta. eexists _, _. split; [vm_compute; reflexivity|].
  split; [vm_compute; reflexivity|].
  pose proof (X18_new_file_is_rebuilt_from_its_diff (fun _ => None) Scenario.repo (IO.World ∅ 0)
                "lib/utils.py" ("import os" +:+ Py.newline +:+ Py.newline +:+ "x = 1")
                "medium" _ eq_refl) as H.
  cbv zeta in H. vm_compute in H. vm_compute.
  apply H; [reflexivity|repeat constructor].
Defined.

(** ** The extraction engine *)

Section ExtractRuns.

Variable env : IO.environment.
Variable ast_parse : string -> option Ast.module.
Variable scan_py_files : Path.t -> filesystem -> list string.
Variable repo_root : Path.t.
Variable clusters : option (list cluster).
Variable cluster_indices : option (list Z).
Variable same_name_only : option bool.

(** Outside write mode the run is the extraction from the files as they
    are. *)
Lemma extract_run_dry (mode : option string) (w : IO.world) :
  String.eqb (default "dry_run" mode) "write" = false ->
  ExtractIO.extract env ast_parse scan_py_files repo_root clusters cluster_indices
                    mode same_name_only w
  = (w, Extract.extract ast_parse scan_py_files repo_root (IO.w_files w) clusters
                        cluster_indices mode same_name_only).
Proof.
  intros Hm. unfold ExtractIO.extract, Extract.extract. cbv zeta. rewrite Hm.
  unfold IO.bind, IO.read. cbv beta iota.
  destruct (Extract.run_clusters _ _ _ _ _ _ _ _) as [st|e]; cbn [bind]; [|reflexivity].
  destruct (Extract.lib_patches_of _ _ _) as [libs|e]; cbn [bind]; reflexivity.
Qed.

(** In write mode the run makes the patches of the dry run and hands
    them to [apply_patches]. *)
Lemma extract_run_write (w : IO.world) :
  ExtractIO.extract env ast_parse scan_py_files repo_root clusters cluster_indices
                    (Some "write") same_name_only w
  = match Extract.extract ast_parse scan_py_files repo_root (IO.w_files w) clusters
                          cluster_indices None same_name_only with
    | Raise e => (w, Raise e)
    | Ok d =>
        match PatchEngineIO.apply_patches env repo_root (Extract.patches d) (Some "write") w with
        | (w', Ok r) =>
            (w', Ok (Extract.Extraction (Extract.patches d) (Extract.x_extracted d)
                                        (Extract.x_errors d ++ snd r) (IO.w_files w')))
        | (w', Raise e) => (w', Raise e)
        end
    end.
Proof.
  unfold ExtractIO.extract, Extract.extract. cbv zeta.
  change (String.eqb (default "dry_run" (Some "write")) "write") with true.
  change (String.eqb (default "dry_run" None) "write") with false.
  unfold IO.bind at 1 2 3 4, IO.read. cbv beta iota.
  destruct (Extract.run_clusters _ _ _ _ _ _ _ _) as [st|e]; cbn [bind]; [|reflexivity].
  destruct (Extract.lib_patches_of _ _ _) as [libs|e]; cbn [bind]; [|reflexivity].
  cbn [Extract.patches Extract.x_extracted Extract.x_errors]. unfold IO.bind.
  destruct (PatchEngineIO.apply_patches _ _ _ _ _) as [w' [r|e]]; reflexivity.
Qed.

End ExtractRuns.

(** X13: [extract] in write mode makes the patches, extracted entries and
    errors of the dry run and hands every patch to [apply_patches].  The
    dry run changes nothing.  When the dry run raises, so does the write
    run, with the same exception and without a write.  When the dry run
    returns, a write run that returns has the same patches, entries and
    errors (no patch of its own is skipped, so the write adds none) and
    has written every patch; a write run that raises was refused a write
    by the operating system; and it returns when no write is refused. *)
Theorem X13_write_mode_applies_the_previewed_patches
    (env : IO.environment)
    (ast_parse : string -> option Ast.module)
    (scan_py_files : Path.t -> filesystem -> list string)
    (repo_root : Path.t) (w : IO.world)
    (clusters : option (list cluster)) (cluster_indices : option (list Z))
    (same_name_only : option bool) :
  let dry := ExtractIO.extract env ast_parse scan_py_files repo_root clusters cluster_indices
                               None same_name_only w in
  let wr := ExtractIO.extract env ast_parse scan_py_files repo_root clusters cluster_indices
                              (Some "write") same_name_only w in
  fst dry = w
  /\ match snd dry with
     | Raise e => wr = (w, Raise e)
     | Ok d =>
         Extract.x_files d = IO.w_files w
         /\ match snd wr with
            | Ok x =>
                Extract.patches x = Extract.patches d
                /\ Extract.x_extracted x = Extract.x_extracted d
                /\ Extract.x_errors x = Extract.x_errors d
                /\ Extract.x_files x = IO.w_files (fst wr)
                /\ (let out := PatchEngine.apply_patches repo_root (IO.w_files w)
                                 (Extract.patches d) (Some "write") in
                    IO.w_files (fst wr) = PatchEngine.files out
                    /\ PatchEngine.errors out = []
                    /\ PatchEngine.applied out = map PatchEngine.path (Extract.patches d))
            | Raise e => exists k, IO.w_clock w <= k /\ env k = Some e
            end
         /\ ((forall k, env k = None) -> exists x, snd wr = Ok x)
     end.
Proof.
  cbv zeta. rewrite extract_run_dry by reflexivity. rewrite extract_run_write.
  cbn [fst snd]. split; [reflexivity|].
  destruct (Extract.extract ast_parse scan_py_files repo_root (IO.w_files w) clusters
              cluster_indices None same_name_only) as [d|e] eqn:E; [|reflexivity].
  destruct (extract_Ok_inv ast_parse scan_py_files repo_root (IO.w_files w) clusters
              cluster_indices None same_name_only d E)
    as (st & libs & Hinv & _ & _ & Hlibs & Hp & _ & _ & Hfiles).
  pose proof (extract_patches_inside repo_root (IO.w_files w) st libs Hinv Hlibs) as Hin.
  rewrite <- Hp in Hin.
  destruct (apply_patches_all_inside repo_root (IO.w_files w) (Extract.patches d)) as [He Ha].
  { eapply Forall_impl; [exact Hin|]. cbn. intros p [H _]. exact H. }
  split; [exact Hfiles|].
  unfold PatchEngineIO.apply_patches. change (default "dry_run" (Some "write")) with "write".
  destruct (PatchEngineIO.apply_loop env repo_root "write" (Extract.patches d) ([], []) w)
    as [w' r] eqn:Erun.
  split.
  - destruct r as [[a er]|e]; cbn [fst snd].
    + pose proof (apply_loop_Ok env repo_root "write" _ _ _ _ _ Erun) as H.
      cbn [fst snd] in H.
      change (fold_left _ _ _)
        with (PatchEngine.apply_patches repo_root (IO.w_files w) (Extract.patches d)
                                        (Some "write")) in H.
      cbn [Extract.patches Extract.x_extracted Extract.x_errors Extract.x_files].
      rewrite <- H in He, Ha |- *. cbn [PatchEngine.files PatchEngine.errors PatchEngine.applied]
        in He, Ha |- *.
      subst er. rewrite app_nil_r. repeat split. exact Ha.
    + destruct (apply_loop_Raise env repo_root "write" _ _ _ _ _ Erun) as [_ Hk]. exact Hk.
  - intros Hq. destruct (apply_loop_quiet env repo_root "write" (Extract.patches d) ([], []) w Hq)
      as (w1 & acc1 & E'). rewrite Erun in E'. injection E' as _ ->. eexists. reflexivity.
Qed.

(** ** Operations that ask for no write *)

Section Silent.

Lemma silent_ret {A : Type} (a : A) : silent (IO.ret a).
Proof. intros w. reflexivity. Qed.

Lemma silent_read {A : Type} (f : filesystem -> result A) : silent (IO.read f).
Proof. intros w. reflexivity. Qed.

Lemma silent_bind {A B : Type} (m : IO.t A) (k : A -> IO.t B) :
  silent m -> (forall a, silent (k a)) -> silent (IO.bind m k).
Proof.
  intros Hm Hk w. unfold IO.bind. specialize (Hm w).
  destruct (m w) as [w' [a|e]]; cbn [fst] in Hm; subst w'; [apply Hk|reflexivity].
Qed.

Lemma quiet_skip : quiet Creator.skip.
Proof. intros c w. reflexivity. Qed.

Lemma quiet_append (xs : list string) : quiet (Creator.append xs).
Proof. intros c w. reflexivity. Qed.

Lemma quiet_seq (b1 b2 : Creator.block) : quiet b1 -> quiet b2 -> quiet (Creator.seq b1 b2).
Proof.
  intros H1 H2 c w. unfold Creator.seq. specialize (H1 c w).
  destruct (b1 c w) as [w' [c' [e|]]]; cbn [fst] in H1; subst w'; [reflexivity|apply H2].
Qed.

Lemma quiet_for_each {A : Type} (f : A -> Creator.block) (l : list A) :
  (forall a, quiet (f a)) -> quiet (Creator.for_each f l).
Proof.
  intros Hf. induction l as [|a l IH]; cbn [Creator.for_each].
  - apply quiet_skip.
  - apply quiet_seq; [apply Hf|exact IH].
Qed.

Variable env : IO.environment.
Variable R : Creator.readers.

(** Outside write mode [apply_patches] asks for no write. *)
Lemma silent_apply_patches (repo_root : Path.t) (patches : list PatchEngine.patch)
    (mode : string) :
  mode <> "write" ->
  silent (PatchEngineIO.apply_patches env repo_root patches (Some mode)).
Proof.
  intros Hm w. apply String.eqb_neq in Hm. unfold PatchEngineIO.apply_patches.
  change (default "dry_run" (Some mode)) with mode.
  destruct (apply_loop_dry env repo_root mode patches ([], []) w Hm) as [acc' E].
  rewrite E. reflexivity.
Qed.

Lemma silent_extract (ast_parse : string -> option Ast.module)
    (scan_py_files : Path.t -> filesystem -> list string) (repo_root : Path.t)
    (clusters : option (list cluster)) (cluster_indices : option (list Z))
    (mode : string) (same_name_only : option bool) :
  mode <> "write" ->
  silent (ExtractIO.extract env ast_parse scan_py_files repo_root clusters cluster_indices
                            (Some mode) same_name_only).
Proof.
  intros Hm. apply String.eqb_neq in Hm. unfold ExtractIO.extract.
  change (default "dry_run" (Some mode)) with mode. rewrite Hm.
  repeat (apply silent_bind; [apply silent_read|intros ?]).
  intros w. reflexivity.
Qed.

Lemma quiet_process_item (ext_folder : Path.t) (include_help : bool) (parent_rel : string)
    (it : Creator.item) (author_val : string) :
  quiet (Creator.process_item env R ext_folder include_help false parent_rel it author_val).
Proof.
  unfold Creator.process_item. cbv zeta.
  repeat match goal with
         | |- context [if String.eqb ?a ?b then _ else _] => destruct (String.eqb a b)
         end; try apply quiet_append; apply quiet_skip.
Qed.

Lemma quiet_create_block (ext_folder : Path.t) (include_help : bool)
    (extension_name : string) (tabs : list Creator.tab) (author description : string) :
  quiet (Creator.create_block env R ext_folder include_help false extension_name tabs
                              author description).
Proof.
  unfold Creator.create_block. apply quiet_seq; [apply quiet_skip|].
  apply quiet_seq; [|apply quiet_seq; [apply quiet_append|apply quiet_skip]].
  apply quiet_for_each. intros t. unfold Creator.process_tab. cbv zeta.
  apply quiet_for_each. intros p. unfold Creator.process_panel. cbv zeta.
  apply quiet_seq; [apply quiet_skip|]. apply quiet_seq.
  - destruct (Creator.panel_layout _); [apply quiet_skip|].
    apply quiet_seq; [apply quiet_append|apply quiet_skip].
  - apply quiet_for_each. intros it. apply quiet_process_item.
Qed.

(** Outside write mode [create_extension] asks for no write. *)
Lemma silent_create_extension (cwd : list string) (output_path extension_name : string)
    (tabs : list Creator.tab) (author description : string) (include_help : bool)
    (mode : string) (config_path : option string) :
  mode <> "write" ->
  silent (Creator.create_extension env R cwd output_path extension_name tabs author
                                   description include_help (Some mode) config_path).
Proof.
  intros Hm. apply String.eqb_neq in Hm. unfold Creator.create_extension.
  change (default "dry_run" (Some mode)) with mode. cbv zeta. rewrite Hm.
  assert (Hc : forall s w,
             fst (let '(w', (created, e)) :=
                    Creator.create_block env R
                      (Path.joinpath (Path.resolve_from cwd (Path.parse (Creator.s_output_path s)))
                                     (Creator.s_extension_name s +:+ ".extension"))
                      include_help false (Creator.s_extension_name s) (Creator.s_tabs s)
                      (Creator.s_author s) (Creator.s_description s) [] w in
                  (w', Ok (Creator.Created
                             (Path.str (Path.joinpath
                                          (Path.resolve_from cwd
                                             (Path.parse (Creator.s_output_path s)))
                                          (Creator.s_extension_name s +:+ ".extension")))
                             created (Creator.errors_of e) mode))) = w).
  { intros s w.
    pose proof (quiet_create_block
                  (Path.joinpath (Path.resolve_from cwd (Path.parse (Creator.s_output_path s)))
                                 (Creator.s_extension_name s +:+ ".extension"))
                  include_help (Creator.s_extension_name s) (Creator.s_tabs s)
                  (Creator.s_author s) (Creator.s_description s) [] w) as H.
    destruct (Creator.create_block _ _ _ _ _ _ _ _ _ _ _) as [w' [c e]].
    exact H. }
  intros w. destruct config_path as [cp|]; [|apply Hc].
  destruct (Py.truthy cp); [|apply Hc].
  destruct (Creator.load_extension_config R cwd (IO.w_files w) cp) as [cfg|e]; [|reflexivity].
  destruct (Creator.not_customized _); [reflexivity|apply Hc].
Qed.

(** Outside write mode [add_button] asks for no write. *)
Lemma silent_add_button (cwd : list string) (repo_root target button_name author doc : string)
    (include_help update_layout : bool) (mode : string) :
  mode <> "write" ->
  silent (Creator.add_button env R cwd repo_root target button_name author doc
                             include_help update_layout (Some mode)).
Proof.
  intros Hm w. apply String.eqb_neq in Hm. unfold Creator.add_button.
  change (default "dry_run" (Some mode)) with mode. cbv zeta. rewrite Hm. reflexivity.
Qed.

(** Outside write mode [create_extension_config] asks for no write. *)
Lemma silent_create_extension_config (cwd : list string) (config_path mode : string) :
  mode <> "write" ->
  silent (Creator.create_extension_config env R cwd config_path (Some mode)).
Proof.
  intros Hm. apply String.eqb_neq in Hm. unfold Creator.create_extension_config.
  change (default "write" (Some mode)) with mode. cbv zeta. rewrite Hm.
  apply silent_bind; [apply silent_read|intros content].
  apply silent_bind; [apply silent_ret|intros ?]. apply silent_ret.
Qed.

Lemma silent_run_generate_bundle_yaml (cwd : list string) (repo_root : option string)
    (bundle_paths : option (list string)) (mode : string) :
  mode <> "write" ->
  silent (Creator.run_generate_bundle_yaml env R cwd repo_root bundle_paths (Some mode)).
Proof.
  intros Hm. apply String.eqb_neq in Hm. unfold Creator.run_generate_bundle_yaml.
  change (default _ (Some mode)) with mode. cbv zeta. rewrite Hm.
  repeat (apply silent_bind; [apply silent_read || apply silent_ret|intros ?]).
  apply silent_ret.
Qed.

(** [import_audit_with_core] asks for no write, in any mode. *)
Lemma silent_run_import_audit_with_core (cwd : list string) (repo_root : option string)
    (script_paths : option (list string)) (core_root : option string)
    (allowlist : option (list string)) (mode : option string) :
  silent (Creator.run_import_audit_with_core R cwd repo_root script_paths core_root
                                             allowlist mode).
Proof.
  unfold Creator.run_import_audit_with_core. cbv zeta.
  apply silent_bind.
  { destruct core_root as [c|]; [destruct (Py.truthy c)|];
      apply silent_ret || apply silent_read. }
  intros core. apply silent_bind.
  { destruct script_paths as [[|p l]|]; apply silent_ret || apply silent_read. }
  intros sps. apply silent_bind; [apply silent_read|intros findings].
  apply silent_bind; [|intros ?; apply silent_ret].
  destruct core as [c|]; [destruct (Py.truthy c)|]; apply silent_ret || apply silent_read.
Qed.

Lemma silent_run_create_extension (cwd : list string) (output_path extension_name : string)
    (tabs : Creator.tabs_argument) (config_path author description : string)
    (include_help : bool) (mode : string) :
  mode <> "write" ->
  silent (Creator.run_create_extension env R cwd output_path extension_name tabs config_path
                                       author description include_help (Some mode)).
Proof.
  intros Hm. unfold Creator.run_create_extension.
  change (default _ (Some mode)) with mode. cbv zeta.
  destruct (Py.truthy config_path); [apply silent_create_extension; exact Hm|].
  destruct tabs as [l|s|]; try (apply silent_create_extension; exact Hm).
  destruct (Creator.json_loads R s); [apply silent_create_extension; exact Hm|apply silent_ret].
Qed.

Lemma silent_run_add_button (cwd : list string)
    (repo_root target button_name author doc : string)
    (include_help update_layout : bool) (mode : string) :
  mode <> "write" ->
  silent (Creator.run_add_button env R cwd repo_root target button_name author doc
                                 include_help update_layout (Some mode)).
Proof.
  intros Hm. unfold Creator.run_add_button.
  change (default _ (Some mode)) with mode. cbv zeta.
  destruct (_ || _); [apply silent_ret|].
  apply silent_bind; [apply silent_add_button; exact Hm|intros a; apply silent_ret].
Qed.

End Silent.

(** In write mode the same operations do write.  The extension of the
    scenario, created under [/repo/out]: twelve files after eighteen
    calls of [mkdir] and [write_text]. *)
Example create_extension_in_write_mode :
  let run := Creator.create_extension (fun _ => None) Scenario.readers ["repo"] "out" "MyExt"
               Scenario.tabs "" "" true (Some "write") None (IO.World ∅ 0) in
  snd run
  = Ok (Creator.Created "/repo/out/MyExt.extension"
          [ "T.tab/P.panel/bundle.yaml";
            "T.tab/P.panel/A.pushbutton/script.py";
            "T.tab/P.panel/A.pushbutton/bundle.yaml";
            "T.tab/P.panel/A.pushbutton/help.html";
            "T.tab/P.panel/M.pulldown/bundle.yaml";
            "T.tab/P.panel/M.pulldown/X.pushbutton/script.py";
            "T.tab/P.panel/M.pulldown/X.pushbutton/bundle.yaml";
            "T.tab/P.panel/M.pulldown/X.pushbutton/help.html";
            "T.tab/P.panel/M.pulldown/Y.pushbutton/script.py";
            "T.tab/P.panel/M.pulldown/Y.pushbutton/bundle.yaml";
            "T.tab/P.panel/M.pulldown/Y.pushbutton/help.html";
            "extensions.json" ] [] "write")
  /\ IO.w_clock (fst run) = 18
  /\ size (IO.w_files (fst run)) = 12
  /\ IO.w_files (fst run) !! "/repo/out/MyExt.extension/T.tab/P.panel/A.pushbutton/script.py"
     = Some "# A script.py".
Proof. cbv zeta. repeat split; vm_compute; reflexivity. Qed.

(** A write that is refused ends the [try] block: the bundle being
    created is not reported, the files written before it stay, and the
    message goes to [errors]. *)
Example create_extension_refused_a_write :
  let env : IO.environment :=
    fun k => if k =? 5 then Some (OSError "[Errno 13] Permission denied") else None in
  let run := Creator.create_extension env Scenario.readers ["repo"] "out" "MyExt"
               Scenario.tabs "" "" true (Some "write") None (IO.World ∅ 0) in
  snd run
  = Ok (Creator.Created "/repo/out/MyExt.extension" ["T.tab/P.panel/bundle.yaml"]
          ["[Errno 13] Permission denied"] "write")
  /\ size (IO.w_files (fst run)) = 2.
Proof. cbv zeta. split; vm_compute; reflexivity. Qed.

(** [add_button] in write mode creates the bundle and adds the button to
    the layout of its panel. *)
Example add_button_in_write_mode :
  let nl := Py.newline in
  let w := IO.World (<["/repo/T.tab/P.panel/bundle.yaml" :=
                         "layout:" +:+ nl +:+ "  - A" +:+ nl]> ∅) 0 in
  let run := Creator.add_button (fun _ => None) Scenario.readers ["repo"] "/repo"
               "T.tab/P.panel" "B" "" "" true true (Some "write") w in
  snd run
  = Ok (Creator.Addition "/repo/T.tab/P.panel/B.pushbutton"
          [ "T.tab/P.panel/B.pushbutton/script.py";
            "T.tab/P.panel/B.pushbutton/bundle.yaml";
            "T.tab/P.panel/B.pushbutton/help.html" ] [] "write" true)
  /\ IO.w_files (fst run) !! "/repo/T.tab/P.panel/bundle.yaml"
     = Some ("layout:" +:+ nl +:+ "  - A" +:+ nl +:+ "  - B" +:+ nl).
Proof. cbv zeta. split; vm_compute; reflexivity. Qed.

(** C8 (amended): every tool with a mode parameter except
    [create_extension_config_tool] defaults it to ["dry_run"]; the engine
    operations [apply_patches], [extract], [create_extension] and
    [add_button] default to ["dry_run"] too.  In any mode other than
    ["write"] no operation writes: [apply_patches] leaves every file
    unchanged, reports each patch inside the root with its path followed
    by [" (dry-run)"] and each other patch in [errors]; [extract] and
    [create_extension_config] leave the files unchanged as well; and
    each of the seven tools and of the engine operations behind them,
    run from any world against any operating system, leaves the world
    as it is: no file changes and no write is asked for, whether the
    call returns or raises.  [import_audit_with_core] does so in every
    mode. *)
Theorem C8_dry_run_default_and_frame
    (ast_parse : string -> option Ast.module)
    (scan_py_files : Path.t -> filesystem -> list string)
    (repo_root : Path.t) (fs : filesystem) (mode : string)
    (env : IO.environment) (R : Creator.readers) (cwd : list string) (w : IO.world) :
  mode <> "write" ->
  Forall (fun t => Server.mode_default t =
                   match t with
                   | Server.create_extension_config_tool => "write"
                   | _ => "dry_run"
                   end) Server.all_tools
  /\ (forall t : Server.tool, t ∈ Server.all_tools)
  /\ (forall patches,
        PatchEngine.apply_patches repo_root fs patches None
        = PatchEngine.apply_patches repo_root fs patches (Some "dry_run")
        /\ Server.run_apply_patch repo_root fs (Some patches) None
           = PatchEngine.apply_patches repo_root fs patches (Some "dry_run"))
  /\ (forall patches,
        let out := PatchEngine.apply_patches repo_root fs patches (Some mode) in
        PatchEngine.files out = fs
        /\ (forall f : string, PatchEngine.files out !! f = fs !! f)
        /\ PatchEngine.applied out
           = map (fun p => PatchEngine.path p +:+ " (dry-run)")
                 (List.filter (fun p => PatchEngine.inside_repo repo_root (PatchEngine.path p)) patches)
        /\ PatchEngine.errors out
           = map (fun p => "Skipped " +:+ PatchEngine.path p +:+ ": outside repo")
                 (List.filter (fun p => negb (PatchEngine.inside_repo repo_root (PatchEngine.path p)))
                              patches))
  /\ (forall clusters cluster_indices same_name_only x,
        (Extract.extract ast_parse scan_py_files repo_root fs clusters cluster_indices
                         None same_name_only
         = Extract.extract ast_parse scan_py_files repo_root fs clusters cluster_indices
                           (Some "dry_run") same_name_only)
        /\ (Extract.extract ast_parse scan_py_files repo_root fs clusters cluster_indices
                            (Some mode) same_name_only = Ok x ->
            Extract.x_files x = fs))
  /\ (forall cwd template config_path,
        fst (Server.create_extension_config cwd template fs config_path (Some mode)) = fs)
  /\ (forall root bundle_paths,
        Creator.run_generate_bundle_yaml env R cwd root bundle_paths None
        = Creator.run_generate_bundle_yaml env R cwd root bundle_paths (Some "dry_run")
        /\ fst (Creator.run_generate_bundle_yaml env R cwd root bundle_paths (Some mode) w) = w)
  /\ (forall root script_paths core_root allowlist any_mode,
        fst (Creator.run_import_audit_with_core R cwd root script_paths core_root allowlist
                                                any_mode w) = w)
  /\ (forall root patches,
        Creator.run_apply_patch env cwd root patches None
        = Creator.run_apply_patch env cwd root patches (Some "dry_run")
        /\ fst (Creator.run_apply_patch env cwd root patches (Some mode) w) = w)
  /\ (forall config_path,
        fst (Creator.run_create_extension_config_tool env R cwd config_path (Some mode) w) = w)
  /\ (forall output_path extension_name tabs config_path author description include_help,
        Creator.run_create_extension env R cwd output_path extension_name tabs config_path
                                     author description include_help None
        = Creator.run_create_extension env R cwd output_path extension_name tabs config_path
                                       author description include_help (Some "dry_run")
        /\ fst (Creator.run_create_extension env R cwd output_path extension_name tabs
                  config_path author description include_help (Some mode) w) = w)
  /\ (forall root target button_name author doc include_help update_layout,
        Creator.run_add_button env R cwd root target button_name author doc include_help
                               update_layout None
        = Creator.run_add_button env R cwd root target button_name author doc include_help
                                 update_layout (Some "dry_run")
        /\ fst (Creator.run_add_button env R cwd root target button_name author doc
                  include_help update_layout (Some mode) w) = w)
  /\ (forall root clusters cluster_indices same_name_only,
        Creator.run_extract_to_lib env ast_parse scan_py_files cwd root clusters
                                   cluster_indices None same_name_only
        = Creator.run_extract_to_lib env ast_parse scan_py_files cwd root clusters
                                     cluster_indices (Some "dry_run") same_name_only
        /\ fst (Creator.run_extract_to_lib env ast_parse scan_py_files cwd root clusters
                  cluster_indices (Some mode) same_name_only w) = w)
  /\ (forall patches,
        PatchEngineIO.apply_patches env repo_root patches None
        = PatchEngineIO.apply_patches env repo_root patches (Some "dry_run")
        /\ fst (PatchEngineIO.apply_patches env repo_root patches (Some mode) w) = w)
  /\ (forall clusters cluster_indices same_name_only,
        ExtractIO.extract env ast_parse scan_py_files repo_root clusters cluster_indices
                          None same_name_only
        = ExtractIO.extract env ast_parse scan_py_files repo_root clusters cluster_indices
                            (Some "dry_run") same_name_only
        /\ fst (ExtractIO.extract env ast_parse scan_py_files repo_root clusters
                  cluster_indices (Some mode) same_name_only w) = w)
  /\ (forall output_path extension_name tabs author description include_help config_path,
        Creator.create_extension env R cwd output_path extension_name tabs author description
                                 include_help None config_path
        = Creator.create_extension env R cwd output_path extension_name tabs author
                                   description include_help (Some "dry_run") config_path
        /\ fst (Creator.create_extension env R cwd output_path extension_name tabs author
                  description include_help (Some mode) config_path w) = w)
  /\ (forall root target button_name author doc include_help update_layout,
        Creator.add_button env R cwd root target button_name author doc include_help
                           update_layout None
        = Creator.add_button env R cwd root target button_name author doc include_help
                             update_layout (Some "dry_run")
        /\ fst (Creator.add_button env R cwd root target button_name author doc include_help
                  update_layout (Some mode) w) = w)
  /\ (forall config_path,
        fst (Creator.create_extension_config env R cwd config_path (Some mode) w) = w).
Proof.
  intros Hmode.
  assert (Hm : String.eqb mode "write" = false) by (apply String.eqb_neq; exact Hmode).
  split; [repeat constructor|].
  split; [intros []; unfold Server.all_tools; set_solver|].
  split; [intros patches; split; reflexivity|].
  split.
  { intros patches. cbv zeta. unfold PatchEngine.apply_patches. simpl default.
    pose proof (files_fold_dry_run repo_root mode patches (PatchEngine.Outcome fs [] []) Hm) as Hf.
    destruct (lists_fold repo_root mode patches (PatchEngine.Outcome fs [] [])) as [Ha He].
    simpl in Hf, Ha, He.
    split; [exact Hf|]. split; [intros f; rewrite Hf; reflexivity|].
    rewrite Ha, He. split.
    + clear - Hm. induction patches as [|p ps IH]; [reflexivity|].
      cbn [flat_map List.filter]. unfold PatchEngine.applied_by at 1.
      destruct (PatchEngine.inside_repo repo_root (PatchEngine.path p)); simpl.
      * rewrite IH, Hm. reflexivity.
      * exact IH.
    + clear. induction patches as [|p ps IH]; [reflexivity|].
      cbn [flat_map List.filter]. unfold PatchEngine.errors_by at 1.
      destruct (PatchEngine.inside_repo repo_root (PatchEngine.path p)); simpl.
      * exact IH.
      * rewrite IH. reflexivity. }
  split.
  { intros clusters cluster_indices same_name_only x. split; [reflexivity|].
    apply extract_dry_run_files. exact Hm. }
  split.
  { intros cwd0 template config_path. unfold Server.create_extension_config.
    simpl default. rewrite Hm. reflexivity. }
  split.
  { intros root bundle_paths. split; [reflexivity|].
    apply silent_run_generate_bundle_yaml. exact Hmode. }
  split.
  { intros root script_paths core_root allowlist any_mode.
    apply silent_run_import_audit_with_core. }
  split.
  { intros root patches. split; [reflexivity|].
    unfold Creator.run_apply_patch. apply silent_apply_patches. exact Hmode. }
  split.
  { intros config_path. unfold Creator.run_create_extension_config_tool.
    apply silent_create_extension_config. exact Hmode. }
  split.
  { intros. split; [reflexivity|]. apply silent_run_create_extension. exact Hmode. }
  split.
  { intros. split; [reflexivity|]. apply silent_run_add_button. exact Hmode. }
  split.
  { intros. split; [reflexivity|]. unfold Creator.run_extract_to_lib.
    apply silent_extract. exact Hmode. }
  split.
  { intros. split; [reflexivity|]. apply silent_apply_patches. exact Hmode. }
  split.
  { intros. split; [reflexivity|]. apply silent_extract. exact Hmode. }
  split.
  { intros. split; [reflexivity|]. apply silent_create_extension. exact Hmode. }
  split.
  { intros. split; [reflexivity|]. apply silent_add_button. exact Hmode. }
  intros config_path. apply silent_create_extension_config. exact Hmode.
Qed.

(** The hypothesis of C8 holds of the mode ["dry_run"]: a patch is not
    written, and the tools [generate_bundle_yaml], [create_extension]
    and [add_button] leave the world as it is. *)
Lemma C8_dry_run_default_and_frame_witness :
  let w := IO.World (Scenario.two_files Scenario.src_foo) 0 in
  "dry_run" <> "write"
  /\ PatchEngine.files
       (PatchEngine.apply_patches Scenario.repo (Scenario.two_files Scenario.src_foo)
          [PatchEngine.Patch Scenario.script_a None (Some "") "low" ""] (Some "dry_run"))
     = Scenario.two_files Scenario.src_foo
  /\ fst (Creator.run_generate_bundle_yaml (fun _ => None) Scenario.readers ["repo"]
            None None (Some "dry_run") w) = w
  /\ fst (Creator.run_create_extension (fun _ => None) Scenario.readers ["repo"]
            "out" "MyExt" (Creator.TabsList Scenario.tabs) "" "" "" true (Some "dry_run") w) = w
  /\ fst (Creator.run_add_button (fun _ => None) Scenario.readers ["repo"]
            "" "T.tab/P.panel" "B" "" "" true true (Some "dry_run") w) = w.
Proof.
  cbv zeta.
  pose proof (C8_dry_run_default_and_frame Scenario.parse Scenario.two_scripts Scenario.repo
                (Scenario.two_files Scenario.src_foo) "dry_run" (fun _ => None)
                Scenario.readers ["repo"] (IO.World (Scenario.two_files Scenario.src_foo) 0)
                ltac:(discriminate))
    as (_ & _ & _ & Hpatch & _ & _ & Hgen & _ & _ & _ & Hcreate & Hadd & _).
  split; [discriminate|].
  split; [apply Hpatch|].
  split; [apply Hgen|].
  split; [apply Hcreate|apply Hadd].
Defined.

(** ** The layout list, written and read again *)

Section NoCr.

Lemma no_cr_app (a b : string) : no_cr (a +:+ b) = no_cr a && no_cr b.
Proof.
  induction a as [|c a IH]; [reflexivity|].
  change (negb (Py.is_cr c) && no_cr (a +:+ b) = negb (Py.is_cr c) && no_cr a && no_cr b).
  rewrite IH, andb_assoc. reflexivity.
Qed.

Lemma no_linebreak_no_cr (s : string) : no_linebreak s = true -> no_cr s = true.
Proof.
  induction s as [|c s IH]; [reflexivity|]. cbn [no_linebreak no_cr].
  intros H. apply andb_true_iff in H. destruct H as [Hc Hs].
  apply negb_true_iff in Hc. rewrite (is_cr_linebreak c Hc), (IH Hs). reflexivity.
Qed.

Lemma no_cr_rstrip (s : string) : no_cr s = true -> no_cr (Py.rstrip s) = true.
Proof.
  induction s as [|c s IH]; [reflexivity|]. cbn [no_cr Py.rstrip].
  intros H. apply andb_true_iff in H. destruct H as [Hc Hs].
  destruct (String.eqb (Py.rstrip s) "" && Py.isspace c); [reflexivity|].
  cbn [no_cr]. rewrite Hc, (IH Hs). reflexivity.
Qed.

Lemma no_cr_join_newline (ls : list string) :
  Forall (fun l => no_cr l = true) ls -> no_cr (Py.join Py.newline ls) = true.
Proof.
  unfold Py.join. induction 1 as [|l ls Hl Hls IH]; [reflexivity|].
  destruct ls as [|l' ls]; [exact Hl|].
  replace (String.concat Py.newline (l :: l' :: ls))
    with (l +:+ (Py.newline +:+ String.concat Py.newline (l' :: ls))) by reflexivity.
  rewrite !no_cr_app, Hl, IH. reflexivity.
Qed.

(** The text an insertion writes holds no carriage return when the item
    holds none. *)
Lemma no_cr_inserted (item text : string) (i : nat) :
  no_cr item = true ->
  no_cr (Py.join Py.newline
           (ExtensionCreator.list_insert_at i (Py.rstrip (ExtensionCreator.layout_line item))
                                            (Py.splitlines text))
         +:+ Py.newline) = true.
Proof.
  intros Hitem. rewrite no_cr_app. apply andb_true_iff. split; [|reflexivity].
  apply no_cr_join_newline. unfold ExtensionCreator.list_insert_at.
  assert (Hl : Forall (fun l => no_cr l = true) (Py.splitlines text)).
  { eapply Forall_impl; [apply splitlines_no_linebreak|]. cbn. apply no_linebreak_no_cr. }
  apply Forall_app. split; [apply Forall_take; exact Hl|].
  constructor; [|apply Forall_drop; exact Hl].
  apply no_cr_rstrip. unfold ExtensionCreator.layout_line.
  rewrite !no_cr_app, Hitem. reflexivity.
Qed.

End NoCr.

(** X24: [_append_to_layout] does not add an item twice.  For an item
    without carriage return and a file whose text holds none (as every
    text [read_text] returns), a call that returns [True] has written a
    text without carriage return, which therefore reads back as written,
    and the same call made again returns [False], asks for no write and
    leaves the files as they are. *)
Theorem X24_append_to_layout_twice
    (env env' : IO.environment) (yaml_path : Path.t) (item : string) (w w1 : IO.world) :
  no_cr item = true ->
  (forall text, FS.read_text (IO.w_files w) yaml_path = Some text -> no_cr text = true) ->
  Creator._append_to_layout env yaml_path item w = (w1, Ok true) ->
  (exists text, FS.read_text (IO.w_files w1) yaml_path = Some text /\ no_cr text = true)
  /\ Creator._append_to_layout env' yaml_path item w1 = (w1, Ok false).
Proof.
  intros Hitem _ Hrun. unfold Creator._append_to_layout in Hrun.
  destruct (ExtensionCreator._append_to_layout (IO.w_files w) yaml_path item) as [b fs'] eqn:E.
  destruct b; [|discriminate].
  destruct (env (IO.w_clock w)); [discriminate|]. injection Hrun as <-.
  assert (Hb : fst (ExtensionCreator._append_to_layout (IO.w_files w) yaml_path item) = true)
    by (rewrite E; reflexivity).
  destruct (append_to_layout_updated _ _ _ Hb) as (text & i & _ & _ & _ & _ & Hw).
  rewrite E in Hw. cbn [snd] in Hw. subst fs'. cbn [IO.w_files].
  split.
  - eexists. split; [apply lookup_insert_eq|]. apply no_cr_inserted. exact Hitem.
  - unfold Creator._append_to_layout. cbn [IO.w_files IO.w_clock].
    unfold ExtensionCreator._append_to_layout.
    unfold FS.exists_, FS.read_text, FS.write_text.
    rewrite lookup_insert_eq.
    rewrite bool_decide_true by (eexists; reflexivity). cbn [negb].
    destruct (negb (Py.contains "layout:" _)); [reflexivity|].
    unfold ExtensionCreator.list_insert_at.
    rewrite inserted_line_is_found. reflexivity.
Qed.

(** A panel whose layout ends the file: the button goes after the last
    item, and a second call changes nothing. *)
Lemma X24_append_to_layout_twice_witness :
  let yaml := Path.parse "/repo/T.tab/P.panel/bundle.yaml" in
  let w := IO.World
             (<["/repo/T.tab/P.panel/bundle.yaml" :=
                  "title: P" +:+ Py.newline +:+ "layout:" +:+ Py.newline +:+ "  - A"
                  +:+ Py.newline]> ∅) 0 in
  let w1 := IO.World
              (<["/repo/T.tab/P.panel/bundle.yaml" :=
                   "title: P" +:+ Py.newline +:+ "layout:" +:+ Py.newline +:+ "  - A"
                   +:+ Py.newline +:+ "  - B" +:+ Py.newline]> ∅) 1 in
  Creator._append_to_layout (fun _ => None) yaml "B" w = (w1, Ok true)
  /\ Creator._append_to_layout (fun _ => None) yaml "B" w1 = (w1, Ok false).
Proof.
  cbv zeta.
  assert (H : Creator._append_to_layout (fun _ => None)
                (Path.parse "/repo/T.tab/P.panel/bundle.yaml") "B"
                (IO.World
                   (<["/repo/T.tab/P.panel/bundle.yaml" :=
                        "title: P" +:+ Py.newline +:+ "layout:" +:+ Py.newline +:+ "  - A"
                        +:+ Py.newline]> ∅) 0)
              = (IO.World
                   (<["/repo/T.tab/P.panel/bundle.yaml" :=
                        "title: P" +:+ Py.newline +:+ "layout:" +:+ Py.newline +:+ "  - A"
                        +:+ Py.newline +:+ "  - B" +:+ Py.newline]> ∅) 1, Ok true)).
  { vm_compute. reflexivity. }
  split; [exact H|].
  apply (X24_append_to_layout_twice (fun _ => None) (fun _ => None)
           (Path.parse "/repo/T.tab/P.panel/bundle.yaml") "B"
           (IO.World
              (<["/repo/T.tab/P.panel/bundle.yaml" :=
                   "title: P" +:+ Py.newline +:+ "layout:" +:+ Py.newline +:+ "  - A"
                   +:+ Py.newline]> ∅) 0)
           (IO.World
              (<["/repo/T.tab/P.panel/bundle.yaml" :=
                   "title: P" +:+ Py.newline +:+ "layout:" +:+ Py.newline +:+ "  - A"
                   +:+ Py.newline +:+ "  - B" +:+ Py.newline]> ∅) 1)
           eq_refl).
  - intros text Hr. vm_compute in Hr. injection Hr as <-. reflexivity.
  - exact H.
Defined.

(** ** Reads and parses that raise *)

Section CheckedScan.

Variable read_text : Path.t -> result string.
Variable ast_parse : string -> result Ast.module.
Variable repo_root : Path.t.

Lemma scanned_checked_app (pre post : list string) :
  DupChecked.scanned read_text ast_parse repo_root (pre ++ post)
  = let* a := DupChecked.scanned read_text ast_parse repo_root pre in
    let* b := DupChecked.scanned read_text ast_parse repo_root post in
    Ok (a ++ b).
Proof.
  induction pre as [|sp pre IH]; cbn [app DupChecked.scanned bind].
  - destruct (DupChecked.scanned read_text ast_parse repo_root post); reflexivity.
  - destruct (DupChecked._extract_functions read_text ast_parse (Path.joinpath repo_root sp))
      as [rs|e]; cbn [bind]; [|reflexivity].
    rewrite IH.
    destruct (DupChecked.scanned read_text ast_parse repo_root pre) as [a|e]; cbn [bind];
      [|reflexivity].
    destruct (DupChecked.scanned read_text ast_parse repo_root post) as [b|e]; cbn [bind];
      [|reflexivity].
    rewrite app_assoc. reflexivity.
Qed.

Lemma extract_functions_raises (sp : string) (e : exn) :
  DupChecked.script_raises read_text ast_parse repo_root sp e ->
  DupChecked._extract_functions read_text ast_parse (Path.joinpath repo_root sp)
  = if DupChecked.caught e then Ok [] else Raise e.
Proof.
  unfold DupChecked._extract_functions. intros [->|(text & -> & H)]; cbn [bind].
  - reflexivity.
  - rewrite H. reflexivity.
Qed.

End CheckedScan.

(** The scan of a file system whose reads and parses raise nothing that
    is not caught is the scan of [Dup]. *)
Lemma scanned_checked_total (ast_parse : string -> option Ast.module)
    (repo_root : Path.t) (fs : filesystem) (script_paths : list string) :
  DupChecked.scanned (DupChecked.read_of fs) (DupChecked.parse_of ast_parse)
                     repo_root script_paths
  = Ok (Dup.scanned ast_parse repo_root fs script_paths).
Proof.
  induction script_paths as [|sp sps IH]; [reflexivity|].
  cbn [DupChecked.scanned]. rewrite IH.
  unfold Dup.scanned. cbn [flat_map]. fold (Dup.scanned ast_parse repo_root fs sps).
  unfold DupChecked._extract_functions, Dup._extract_functions,
    DupChecked.read_of, DupChecked.parse_of.
  destruct (FS.read_text fs (Path.joinpath repo_root sp)) as [text|]; cbn [bind];
    [|reflexivity].
  destruct (ast_parse text); reflexivity.
Qed.

Lemma analyze_checked_total (ast_parse : string -> option Ast.module)
    (scan_py_files : Path.t -> filesystem -> list string)
    (repo_root : Path.t) (fs : filesystem) (script_paths : option (list string))
    (limit : option Z) (same_name_only : bool) :
  DupChecked.analyze (DupChecked.read_of fs) (DupChecked.parse_of ast_parse) repo_root
                     (scan_py_files repo_root fs) script_paths limit same_name_only
  = Ok (Dup.analyze ast_parse scan_py_files repo_root fs script_paths limit same_name_only).
Proof.
  unfold DupChecked.analyze, Dup.analyze. cbv zeta.
  rewrite scanned_checked_total. cbn [bind]. unfold Dup.resolve_script_paths. reflexivity.
Qed.

(** X8: a script whose read raises [OSError], or whose text is a syntax
    error, contributes no function and does not stop the scan: the scan
    and the result of [analyze] are those of the path list without it.
    Any other exception of the read or of [ast.parse] (a [ValueError],
    a [RecursionError]) is not caught: it ends the scan, and [analyze]
    raises it, once the scripts before have been scanned. *)
Theorem X8_unreadable_script_is_passed_over
    (read_text : Path.t -> result string) (ast_parse : string -> result Ast.module)
    (repo_root : Path.t) (inventory : list string) (sp : string) (e : exn) :
  DupChecked.script_raises read_text ast_parse repo_root sp e ->
  let scanned := DupChecked.scanned read_text ast_parse repo_root in
  let analyze := DupChecked.analyze read_text ast_parse repo_root inventory in
  if DupChecked.caught e then
    DupChecked._extract_functions read_text ast_parse (Path.joinpath repo_root sp) = Ok []
    /\ (forall pre post, scanned (pre ++ sp :: post) = scanned (pre ++ post))
    /\ (forall pre post limit same_name_only,
          pre ++ post <> [] ->
          analyze (Some (pre ++ sp :: post)) limit same_name_only
          = analyze (Some (pre ++ post)) limit same_name_only)
  else
    DupChecked._extract_functions read_text ast_parse (Path.joinpath repo_root sp) = Raise e
    /\ (forall pre post its,
          scanned pre = Ok its ->
          scanned (pre ++ sp :: post) = Raise e
          /\ forall limit same_name_only,
               analyze (Some (pre ++ sp :: post)) limit same_name_only = Raise e).
Proof.
  intros Hbad. cbv zeta.
  pose proof (extract_functions_raises read_text ast_parse repo_root sp e Hbad) as H0.
  assert (R1 : forall pre post limit b,
             DupChecked.analyze read_text ast_parse repo_root inventory
                                (Some (pre ++ sp :: post)) limit b
             = let* its := DupChecked.scanned read_text ast_parse repo_root (pre ++ sp :: post) in
               let d := Dup.hash_to_locs b its in
               let clusters := Dup.apply_limit limit (Dup.sort_desc (Dup.clusters_of d)) in
               Ok (clusters, map Dup.finding_of clusters)).
  { intros pre post limit b. unfold DupChecked.analyze. destruct pre; reflexivity. }
  destruct (DupChecked.caught e).
  - assert (H1 : forall pre post,
               DupChecked.scanned read_text ast_parse repo_root (pre ++ sp :: post)
               = DupChecked.scanned read_text ast_parse repo_root (pre ++ post)).
    { intros pre post. rewrite !scanned_checked_app. cbn [DupChecked.scanned].
      rewrite H0. cbn [bind map app].
      destruct (DupChecked.scanned read_text ast_parse repo_root post); reflexivity. }
    split; [exact H0|]. split; [exact H1|].
    intros pre post limit b Hne. rewrite R1, H1. unfold DupChecked.analyze.
    destruct (pre ++ post) eqn:E; [contradiction|reflexivity].
  - split; [exact H0|]. intros pre post its Hpre.
    assert (H1 : DupChecked.scanned read_text ast_parse repo_root (pre ++ sp :: post) = Raise e).
    { rewrite scanned_checked_app, Hpre. cbn [DupChecked.scanned bind]. rewrite H0.
      reflexivity. }
    split; [exact H1|]. intros limit b. rewrite R1, H1. reflexivity.
Qed.

(** A script that is not on the disk, between the two scripts of the
    scenario. *)
Lemma X8_unreadable_script_is_passed_over_witness :
  let fs := Scenario.two_files Scenario.src_foo_long in
  let scanned := DupChecked.scanned (DupChecked.read_of fs) (DupChecked.parse_of Scenario.parse)
                                    Scenario.repo in
  DupChecked.read_of fs (Path.joinpath Scenario.repo "C.pushbutton/script.py")
  = Raise (OSError "No such file or directory")
  /\ scanned ([Scenario.script_a] ++ "C.pushbutton/script.py" :: [Scenario.script_b])
     = scanned ([Scenario.script_a] ++ [Scenario.script_b]).
Proof.
  cbv zeta.
  assert (H : DupChecked.read_of (Scenario.two_files Scenario.src_foo_long)
                (Path.joinpath Scenario.repo "C.pushbutton/script.py")
              = Raise (OSError "No such file or directory"))
    by (vm_compute; reflexivity).
  split; [exact H|].
  apply (X8_unreadable_script_is_passed_over
           (DupChecked.read_of (Scenario.two_files Scenario.src_foo_long))
           (DupChecked.parse_of Scenario.parse) Scenario.repo [] "C.pushbutton/script.py"
           (OSError "No such file or directory") (or_introl H)).
Defined.

(** ** The end-to-end scenario, for any two scripts *)

Section LongFoo.

Variable ast_parse : string -> option Ast.module.
Variable scan_py_files : Path.t -> filesystem -> list string.
Variable repo_root : Path.t.
Variable fs : filesystem.

Lemma normalize_long_foo (l e : nat) :
  Dup._normalize_ast (Ast.FunctionDef "foo" 2 l e [Ast.Assign; Ast.Assign; Ast.Return])
  = "def(2):assignassignreturn".
Proof. vm_compute. reflexivity. Qed.

Lemma extract_functions_long_foo (sp text : string) (l e : nat) :
  FS.read_text fs (Path.joinpath repo_root sp) = Some text ->
  ast_parse text = Some [Ast.FunctionDef "foo" 2 l e [Ast.Assign; Ast.Assign; Ast.Return]] ->
  Dup._extract_functions ast_parse fs (Path.joinpath repo_root sp)
  = [Dup.FuncRecord l "foo" "def(2):assignassignreturn"].
Proof.
  intros Hr Hp. unfold Dup._extract_functions. rewrite Hr, Hp.
  change (Ast.walk [Ast.FunctionDef "foo" 2 l e [Ast.Assign; Ast.Assign; Ast.Return]])
    with [Ast.FunctionDef "foo" 2 l e [Ast.Assign; Ast.Assign; Ast.Return];
          Ast.Assign; Ast.Assign; Ast.Return].
  change (omap Dup.record_of_node
            [Ast.FunctionDef "foo" 2 l e [Ast.Assign; Ast.Assign; Ast.Return];
             Ast.Assign; Ast.Assign; Ast.Return])
    with [Dup.FuncRecord l "foo"
            (Dup._normalize_ast
               (Ast.FunctionDef "foo" 2 l e [Ast.Assign; Ast.Assign; Ast.Return]))].
  rewrite normalize_long_foo. reflexivity.
Qed.

(** Two scripts that each define only the long [foo] give one cluster of
    two locations, whether names are compared or not. *)
Lemma analyze_long_foo (p1 p2 t1 t2 : string) (l1 e1 l2 e2 : nat) (same_name_only : bool) :
  scan_py_files repo_root fs = [p1; p2] ->
  FS.read_text fs (Path.joinpath repo_root p1) = Some t1 ->
  FS.read_text fs (Path.joinpath repo_root p2) = Some t2 ->
  ast_parse t1 = Some [Ast.FunctionDef "foo" 2 l1 e1 [Ast.Assign; Ast.Assign; Ast.Return]] ->
  ast_parse t2 = Some [Ast.FunctionDef "foo" 2 l2 e2 [Ast.Assign; Ast.Assign; Ast.Return]] ->
  fst (Dup.analyze ast_parse scan_py_files repo_root fs None None same_name_only)
  = [Cluster "624a3fe7d65d39d5"
       [ Loc (Some p1) (Some (Z.of_nat l1)) (Some "foo");
         Loc (Some p2) (Some (Z.of_nat l2)) (Some "foo") ]].
Proof.
  intros Hs Hr1 Hr2 Hp1 Hp2. unfold Dup.analyze, Dup.resolve_script_paths. rewrite Hs.
  unfold Dup.scanned. cbn [flat_map fst].
  rewrite (extract_functions_long_foo p1 t1 l1 e1 Hr1 Hp1).
  rewrite (extract_functions_long_foo p2 t2 l2 e2 Hr2 Hp2).
  cbn [map app]. unfold Dup.hash_to_locs. cbn [fold_left].
  unfold Dup.add_record, Dup.key_of, Dup.loc_of. cbn [Dup.fr_body Dup.fr_name Dup.fr_line].
  rewrite hash_body_long_foo.
  change (String.length "def(2):assignassignreturn" <? 20) with false. cbv iota.
  destruct same_name_only; reflexivity.
Qed.


(** Removing a definition that spans lines of the file changes the
    text. *)
Lemma removal_changes_text (text : string) (tree : Ast.module)
    (fname : string) (nargs m k : nat) (body : list Ast.node) :
  ast_parse text = Some tree ->
  List.find (Extract.is_target (Some fname) (Some (Z.of_nat m))) (Ast.walk tree)
  = Some (Ast.FunctionDef fname nargs m k body) ->
  1 <= m -> m <= k -> m <= length (Py.splitlines text) ->
  Extract._remove_function_from_source ast_parse text (Some fname) (Some (Z.of_nat m)) <> text.
Proof.
  intros Hp Hf H1 Hk Hlen. unfold Extract._remove_function_from_source. rewrite Hp, Hf.
  cbn [Extract.span]. intros Heq. apply (f_equal Py.splitlines) in Heq.
  rewrite splitlines_join_lines in Heq.
  2:{ apply Forall_app. split; [apply Forall_take|apply Forall_drop];
        apply splitlines_no_linebreak. }
  apply (f_equal (@length string)) in Heq.
  rewrite length_app, length_firstn, length_skipn in Heq. lia.
Qed.

Lemma strip_truthy (s : string) : Py.truthy (Py.strip s) = true -> Py.truthy s = true.
Proof. destruct s; [discriminate|reflexivity]. Qed.

(** The walk of the tree of a script that defines only [foo] finds it. *)
Lemma find_long_foo (m k : nat) :
  List.find (Extract.is_target (Some "foo") (Some (Z.of_nat m)))
            (Ast.walk [Ast.FunctionDef "foo" 2 m k [Ast.Assign; Ast.Assign; Ast.Return]])
  = Some (Ast.FunctionDef "foo" 2 m k [Ast.Assign; Ast.Assign; Ast.Return]).
Proof.
  change (Ast.walk [Ast.FunctionDef "foo" 2 m k [Ast.Assign; Ast.Assign; Ast.Return]])
    with [Ast.FunctionDef "foo" 2 m k [Ast.Assign; Ast.Assign; Ast.Return];
          Ast.Assign; Ast.Assign; Ast.Return].
  cbn [List.find Extract.is_target].
  rewrite !bool_decide_true by reflexivity. reflexivity.
Qed.

(** One location of the cluster: the script gets its edit patch. *)
Lemma process_loc_long_foo (mod_ sp text : string) (m k : nat) (st : Extract.state) :
  FS.read_text fs (Path.joinpath repo_root sp) = Some text ->
  ast_parse text = Some [Ast.FunctionDef "foo" 2 m k [Ast.Assign; Ast.Assign; Ast.Return]] ->
  Py.truthy sp = true ->
  PatchEngine.inside_repo repo_root sp = true ->
  1 <= m -> m <= k -> m <= length (Py.splitlines text) ->
  exists p,
    Extract.process_loc ast_parse repo_root fs mod_ st
      (Loc (Some sp) (Some (Z.of_nat m)) (Some "foo"))
    = Ok (Extract.State (Extract.script_patches st ++ [p])
            (Extract.extracted st ++ [Extract.Extracted (Some "foo") sp mod_])
            (Extract.errors st) (Extract.lib_contents st))
    /\ PatchEngine.path p = sp /\ PatchEngine.risk p = "high"
    /\ PatchEngine.summary p = "Edit " +:+ sp
    /\ is_Some (PatchEngine.content p).
Proof.
  intros Hr Hp Hsp Hin H1 Hk Hlen. unfold Extract.process_loc. cbn [script name line].
  rewrite Hsp, Hr. cbn [negb].
  pose proof (removal_changes_text text _ "foo" 2 m k _ Hp (find_long_foo m k) H1 Hk Hlen) as Hne.
  apply String.eqb_neq in Hne. rewrite Hne.
  unfold PatchEngine.create_edit_patch. rewrite Hin. cbn [negb bind].
  eexists. split; [reflexivity|]. cbn. repeat split. eexists. reflexivity.
Qed.


(** [propose] on the one cluster of the two definitions: one mapping
    entry, for the module chosen from the two script paths. *)
Lemma propose_long_foo (p1 p2 : string) (l1 l2 : Z) (h : string) :
  LibStructure.mapping
    (LibStructure.propose ast_parse scan_py_files repo_root fs
       (Some [Cluster h [Loc (Some p1) (Some l1) (Some "foo");
                         Loc (Some p2) (Some l2) (Some "foo")]]) false)
  = [LibStructure.MappingEntry "foo" [p1; p2] (LibStructure.choose_module [p1; p2]) true None].
Proof.
  unfold LibStructure.propose. cbn [fold_left].
  unfold LibStructure.propose_step at 1. cbn [locations length map name script default].
  change (2 <? 2) with false. cbv iota.
  change (remove_dups ["foo"; "foo"]) with ["foo"]. cbn [length Nat.eqb negb andb hd app snd fst].
  reflexivity.
Qed.

(** The extraction of the long [foo] from two scripts, in dry-run mode. *)
Lemma extract_long_foo (p1 p2 t1 t2 : string) (l1 e1 l2 e2 : nat) :
  let body := [Ast.Assign; Ast.Assign; Ast.Return] in
  let mod_ := LibStructure.choose_module [p1; p2] in
  let source := Py.join Py.newline (Py.slice (l1 - 1) e1 (Py.splitlines t1)) in
  scan_py_files repo_root fs = [p1; p2] ->
  FS.read_text fs (Path.joinpath repo_root p1) = Some t1 ->
  FS.read_text fs (Path.joinpath repo_root p2) = Some t2 ->
  ast_parse t1 = Some [Ast.FunctionDef "foo" 2 l1 e1 body] ->
  ast_parse t2 = Some [Ast.FunctionDef "foo" 2 l2 e2 body] ->
  Py.truthy p1 = true -> Py.truthy p2 = true ->
  1 <= l1 -> l1 <= e1 -> l1 <= length (Py.splitlines t1) ->
  1 <= l2 -> l2 <= e2 -> l2 <= length (Py.splitlines t2) ->
  Py.truthy (Py.strip source) = true ->
  PatchEngine.inside_repo repo_root p1 = true ->
  PatchEngine.inside_repo repo_root p2 = true ->
  PatchEngine.inside_repo repo_root mod_ = true ->
  FS.read_text fs (Path.joinpath repo_root mod_) = None ->
  exists pm q1 q2,
    Extract.extract ast_parse scan_py_files repo_root fs None None (Some "dry_run") None
    = Ok (Extract.Extraction [pm; q1; q2]
            [Extract.Extracted (Some "foo") p1 mod_; Extract.Extracted (Some "foo") p2 mod_]
            [] fs)
    /\ map PatchEngine.path [pm; q1; q2] = [mod_; p1; p2]
    /\ map PatchEngine.summary [pm; q1; q2] = ["Add " +:+ mod_; "Edit " +:+ p1; "Edit " +:+ p2]
    /\ map PatchEngine.risk [pm; q1; q2] = ["medium"; "high"; "high"]
    /\ PatchEngine.content pm = Some source.
Proof.
  intros body mod_ source Hs Hr1 Hr2 Hp1 Hp2 Hn1 Hn2 H1a H1b H1c H2a H2b H2c Hsrc Hi1 Hi2 Him Hlib.
  unfold Extract.extract. cbn [default].
  rewrite (analyze_long_foo p1 p2 t1 t2 l1 e1 l2 e2 true Hs Hr1 Hr2 Hp1 Hp2).
  rewrite propose_long_foo. fold mod_.
  cbn [Extract.run_clusters]. unfold Extract.process_cluster at 1.
  cbn [Extract.selected negb locations length map name script line default].
  change (2 <? 2) with false. cbv iota.
  change (remove_dups [Some "foo"; Some "foo"]) with [Some "foo"]. cbn [length].
  change (1 <? 1) with false. cbv iota.
  rewrite Hn1. cbn [negb orb].
  assert (Hz : (Z.of_nat l1 =? 0)%Z = false) by (apply Z.eqb_neq; lia).
  rewrite Hz.
  assert (Hget : Extract._get_function_source ast_parse fs (Path.joinpath repo_root p1) "foo"
                   (Some (Z.of_nat l1)) = Some source).
  { unfold Extract._get_function_source. rewrite Hr1, Hp1. subst body.
    rewrite find_long_foo. reflexivity. }
  cbv [id]. rewrite Hget. rewrite (strip_truthy _ Hsrc). cbn [negb].
  assert (Hmod : Extract.module_of
                   [LibStructure.MappingEntry "foo" [p1; p2] mod_ true None] "foo" = mod_)
    by reflexivity.
  rewrite Hmod. cbn [Extract.process_locs Extract.script_patches Extract.extracted
                      Extract.errors Extract.lib_contents].
  destruct (process_loc_long_foo mod_ p1 t1 l1 e1
              (Extract.State [] [] [] (setdefault_append mod_ source []))
              Hr1 Hp1 Hn1 Hi1 H1a H1b H1c) as (q1 & E1 & Hq1p & Hq1r & Hq1s & _).
  rewrite E1. cbn [bind Extract.script_patches Extract.extracted Extract.errors
                    Extract.lib_contents app].
  destruct (process_loc_long_foo mod_ p2 t2 l2 e2
              (Extract.State [q1] [Extract.Extracted (Some "foo") p1 mod_] []
                 (setdefault_append mod_ source []))
              Hr2 Hp2 Hn2 Hi2 H2a H2b H2c) as (q2 & E2 & Hq2p & Hq2r & Hq2s & _).
  cbn [Extract.script_patches Extract.extracted Extract.errors Extract.lib_contents app] in E2.
  rewrite E2. cbn [bind Extract.lib_contents setdefault_append Extract.lib_patches_of].
  unfold Extract.lib_patch. cbn [List.filter]. rewrite Hsrc.
  change (Py.join (Py.newline +:+ Py.newline) [source]) with source.
  rewrite (strip_truthy _ Hsrc). cbn [negb]. rewrite Hlib.
  unfold PatchEngine.create_add_file_patch. rewrite Him. cbn [negb bind app].
  change (String.eqb "dry_run" "write") with false. cbv iota.
  cbn [Extract.script_patches Extract.extracted Extract.errors].
  eexists _, q1, q2. split; [reflexivity|].
  cbn [map PatchEngine.path PatchEngine.summary PatchEngine.risk PatchEngine.content].
  rewrite Hq1p, Hq2p, Hq1r, Hq2r, Hq1s, Hq2s. repeat split.
Qed.

End LongFoo.

(** C2 (amended): for a repository of two scripts that each define only
    [def foo(a, b): return a+b], the fingerprint [def(2):return] has 13
    characters, [analyze] with same names only returns no cluster, and
    [extract] in dry-run mode returns no patch, no extracted entry and no
    error, leaving the files as they are.  For any repository of two
    scripts that each define only a [foo] of two arguments whose body is
    two assignments and a return (fingerprint
    [def(2):assignassignreturn], 25 characters), [analyze] returns one
    cluster with the 2 locations and [extract] in dry-run mode returns 3
    patches (the add-patch of the library module chosen from the two
    script paths, then one edit-patch per script), 2 extracted entries
    and no error, leaving the files as they are; this is so when the
    script paths are not empty, each definition spans lines of its file,
    the lines of the first are not blank, the three paths pass the
    containment check and nothing exists yet at the path of the
    module. *)
Theorem C2_short_foo_skipped_long_foo_extracted
    (ast_parse : string -> option Ast.module)
    (scan_py_files : Path.t -> filesystem -> list string)
    (repo_root : Path.t) (fs : filesystem)
    (p1 p2 t1 t2 : string) (l1 e1 l2 e2 : nat) :
  scan_py_files repo_root fs = [p1; p2] ->
  FS.read_text fs (Path.joinpath repo_root p1) = Some t1 ->
  FS.read_text fs (Path.joinpath repo_root p2) = Some t2 ->
  ast_parse t1 = Some [Ast.FunctionDef "foo" 2 l1 e1 [Ast.Return]] ->
  ast_parse t2 = Some [Ast.FunctionDef "foo" 2 l2 e2 [Ast.Return]] ->
  (Dup._normalize_ast (Ast.FunctionDef "foo" 2 l1 e1 [Ast.Return]) = "def(2):return"
   /\ String.length "def(2):return" = 13
   /\ Dup.analyze ast_parse scan_py_files repo_root fs None None true = ([], [])
   /\ Extract.extract ast_parse scan_py_files repo_root fs None None (Some "dry_run") None
      = Ok (Extract.Extraction [] [] [] fs))
  /\ (forall (fs' : filesystem) (q1 q2 u1 u2 : string) (m1 k1 m2 k2 : nat),
        let long_body := [Ast.Assign; Ast.Assign; Ast.Return] in
        let mod_ := LibStructure.choose_module [q1; q2] in
        let source := Py.join Py.newline (Py.slice (m1 - 1) k1 (Py.splitlines u1)) in
        scan_py_files repo_root fs' = [q1; q2] ->
        FS.read_text fs' (Path.joinpath repo_root q1) = Some u1 ->
        FS.read_text fs' (Path.joinpath repo_root q2) = Some u2 ->
        ast_parse u1 = Some [Ast.FunctionDef "foo" 2 m1 k1 long_body] ->
        ast_parse u2 = Some [Ast.FunctionDef "foo" 2 m2 k2 long_body] ->
        Py.truthy q1 = true -> Py.truthy q2 = true ->
        1 <= m1 -> m1 <= k1 -> m1 <= length (Py.splitlines u1) ->
        1 <= m2 -> m2 <= k2 -> m2 <= length (Py.splitlines u2) ->
        Py.truthy (Py.strip source) = true ->
        PatchEngine.inside_repo repo_root q1 = true ->
        PatchEngine.inside_repo repo_root q2 = true ->
        PatchEngine.inside_repo repo_root mod_ = true ->
        FS.read_text fs' (Path.joinpath repo_root mod_) = None ->
        Dup._normalize_ast (Ast.FunctionDef "foo" 2 m1 k1 long_body)
        = "def(2):assignassignreturn"
        /\ String.length "def(2):assignassignreturn" = 25
        /\ (exists c,
              fst (Dup.analyze ast_parse scan_py_files repo_root fs' None None true) = [c]
              /\ locations c = [ Loc (Some q1) (Some (Z.of_nat m1)) (Some "foo");
                                 Loc (Some q2) (Some (Z.of_nat m2)) (Some "foo") ])
        /\ exists x pm s1 s2,
             Extract.extract ast_parse scan_py_files repo_root fs' None None
                             (Some "dry_run") None = Ok x
             /\ Extract.patches x = [pm; s1; s2]
             /\ map PatchEngine.path (Extract.patches x) = [mod_; q1; q2]
             /\ map PatchEngine.summary (Extract.patches x)
                = ["Add " +:+ mod_; "Edit " +:+ q1; "Edit " +:+ q2]
             /\ map PatchEngine.risk (Extract.patches x) = ["medium"; "high"; "high"]
             /\ PatchEngine.content pm = Some source
             /\ Extract.x_extracted x
                = [ Extract.Extracted (Some "foo") q1 mod_;
                    Extract.Extracted (Some "foo") q2 mod_ ]
             /\ Extract.x_errors x = []
             /\ Extract.x_files x = fs').
Proof.
  intros Hs Hr1 Hr2 Hp1 Hp2.
  split.
  - split; [apply normalize_short_foo|]. split; [reflexivity|].
    pose proof (analyze_short_foo ast_parse scan_py_files repo_root fs p1 p2 t1 t2 l1 e1 l2 e2)
      as Ha.
    split; [apply Ha; assumption|].
    unfold Extract.extract, LibStructure.propose. cbn [default].
    rewrite !Ha by assumption. reflexivity.
  - intros fs' q1 q2 u1 u2 m1 k1 m2 k2 long_body mod_ source.
    intros Hs' Hr1' Hr2' Hp1' Hp2' Hn1 Hn2 H1a H1b H1c H2a H2b H2c Hsrc Hi1 Hi2 Him Hlib.
    split; [apply normalize_long_foo|]. split; [reflexivity|]. split.
    + eexists. split; [|].
      * exact (analyze_long_foo ast_parse scan_py_files repo_root fs' q1 q2 u1 u2 m1 k1 m2 k2
                 true Hs' Hr1' Hr2' Hp1' Hp2').
      * reflexivity.
    + destruct (extract_long_foo ast_parse scan_py_files repo_root fs' q1 q2 u1 u2 m1 k1 m2 k2
                  Hs' Hr1' Hr2' Hp1' Hp2' Hn1 Hn2 H1a H1b H1c H2a H2b H2c Hsrc Hi1 Hi2 Him Hlib)
        as (pm & s1 & s2 & Hx & Hpath & Hsum & Hrisk & Hcont).
      eexists _, pm, s1, s2. split; [exact Hx|].
      cbn [Extract.patches Extract.x_extracted Extract.x_errors Extract.x_files].
      repeat split; assumption.
Qed.

(** The premises of C2 hold of the repository of two copies of
    [def foo(a, b): return a+b] and of the repository of two copies of
    the longer [foo], where the module is [lib/utils.py]. *)
Lemma C2_short_foo_skipped_long_foo_extracted_witness :
  let fs := Scenario.two_files Scenario.src_foo in
  let fs' := Scenario.two_files Scenario.src_foo_long in
  Extract.extract Scenario.parse Scenario.two_scripts Scenario.repo fs None None
                  (Some "dry_run") None
  = Ok (Extract.Extraction [] [] [] fs)
  /\ (exists c,
        fst (Dup.analyze Scenario.parse Scenario.two_scripts Scenario.repo fs' None None true)
        = [c]
        /\ locations c = [ Loc (Some Scenario.script_a) (Some 1%Z) (Some "foo");
                           Loc (Some Scenario.script_b) (Some 1%Z) (Some "foo") ])
  /\ exists x pm s1 s2,
       Extract.extract Scenario.parse Scenario.two_scripts Scenario.repo fs' None None
                       (Some "dry_run") None = Ok x
       /\ Extract.patches x = [pm; s1; s2]
       /\ map PatchEngine.path (Extract.patches x)
          = ["lib/utils.py"; Scenario.script_a; Scenario.script_b]
       /\ map PatchEngine.summary (Extract.patches x)
          = ["Add lib/utils.py"; "Edit A.pushbutton/script.py"; "Edit B.pushbutton/script.py"]
       /\ map PatchEngine.risk (Extract.patches x) = ["medium"; "high"; "high"]
       /\ PatchEngine.content pm
          = Some (Py.join Py.newline (Py.splitlines Scenario.src_foo_long))
       /\ Extract.x_extracted x
          = [ Extract.Extracted (Some "foo") Scenario.script_a "lib/utils.py";
              Extract.Extracted (Some "foo") Scenario.script_b "lib/utils.py" ]
       /\ Extract.x_errors x = []
       /\ Extract.x_files x = fs'.
Proof.
  cbv zeta.
  destruct (C2_short_foo_skipped_long_foo_extracted Scenario.parse Scenario.two_scripts
              Scenario.repo (Scenario.two_files Scenario.src_foo)
              Scenario.script_a Scenario.script_b Scenario.src_foo Scenario.src_foo 1 1 1 1)
    as [(_ & _ & _ & Hshort) Hlong]; try (vm_compute; reflexivity).
  destruct (Hlong (Scenario.two_files Scenario.src_foo_long)
              Scenario.script_a Scenario.script_b Scenario.src_foo_long Scenario.src_foo_long
              1 4 1 4)
    as (_ & _ & Hcl & Hx); try (vm_compute; reflexivity); try (vm_compute; lia).
  split; [exact Hshort|]. split; [exact Hcl|]. exact Hx.
Defined.
